(** * Calendar rotation engine: a shallow embedding of the rotation server

    The definitions below follow the Express server of the calendar
    rotation proof of concept: the file that defines
    [getNextRotationAssignment], [createCalendarEvent],
    [deleteCalendarEvent] and the [/api/...] handlers.

    Conventions.
    - JavaScript numbers that hold integers are [Z]; a sum is rounded to
      the nearest double ([js_add], exact up to [2^53]); [%] is [Z.rem]
      (truncating, sign of the dividend, exact on doubles) and an array
      read outside [0 .. length-1] yields [undefined].
    - JavaScript strings are [string]; a string is falsy exactly when it is
      empty, and [null]/[undefined] in a nullable field is [None].
    - The module-level variable [data] is the in-memory store [Data]; an
      array of objects is a list, and mutating the object returned by
      [Array.prototype.find] rewrites the first element that satisfies the
      predicate.
    - A function that can throw returns a [result] together with the state
      it leaves behind: a throw keeps every mutation made before it. *)

From Stdlib Require Import ZArith Lia Bool Ascii String DecimalString List
  Sorting.Sorted Sorting.Permutation.
From stdpp Require Import base tactics option list strings.

Local Open Scope string_scope.
Local Open Scope Z_scope.

(** ** 1. Data model *)

Record Tokens := mkTokens
  { access_token : string;
    expiry_date : Z }.

Record User := mkUser
  { user_id : string;
    user_email : string;
    user_name : string;
    googleTokens : option Tokens }.

Record Member := mkMember
  { userId : string;
    orderPosition : Z }.

Record Schedule := mkSchedule
  { dayOfWeek : Z;
    timeOfDay : string }.

Record Group := mkGroup
  { group_id : string;
    group_name : string;
    group_description : string;
    members : list Member;
    schedule : Schedule;
    currentIndex : Z;
    isActive : bool }.

Record SkipWeek := mkSkipWeek
  { skip_userId : string;
    skip_groupId : string;
    skip_weekStartDate : string;
    skip_reason : string }.

Inductive Status := scheduled | completed | cancelled.

Record Rotation := mkRotation
  { rotation_id : string;
    groupId : string;
    assignedUserId : string;
    weekStartDate : string;
    calendarEventId : string;
    status : Status;
    createdAt : string;
    swappedAt : option string }.

Record Data := mkData
  { users : list User;
    groups : list Group;
    skipWeeks : list SkipWeek;
    rotations : list Rotation }.

(** ** 2. JavaScript helpers *)

(** [!!s] for a string: only the empty string is falsy. *)
Definition truthy (s : string) : bool := negb (String.eqb s "").

(** [arr[i]] for an integer [i]: [undefined] outside the array. *)
Definition array_get {A} (arr : list A) (i : Z) : option A :=
  if i <? 0 then None else arr !! Z.to_nat i.

(** A number is a double.  The integers of magnitude up to [2^53] are
    doubles; the exact result of an operation is rounded to the nearest
    double, to the one with the even mantissa when two are equally near.
    [round_double z] is that double for an integer [z]: beyond [2^53] the
    mantissa [q] keeps 53 bits and the rest [r] is rounded away. *)
Definition round_double (z : Z) : Z :=
  let a := Z.abs z in
  if a <=? 2 ^ 53 then z
  else
    let ulp := 2 ^ (Z.log2 a - 52) in
    let q := a / ulp in
    let r := a mod ulp in
    let mantissa := if 2 * r <? ulp then q
                    else if ulp <? 2 * r then q + 1
                    else if Z.even q then q else q + 1 in
    Z.sgn z * (mantissa * ulp).

(** [x + y] on integers that are doubles; [x++] is [js_add x 1]. *)
Definition js_add (x y : Z) : Z := round_double (x + y).

(** The object returned by [arr.find(p)] is mutated in place: the first
    element satisfying [p] is rewritten, the others are untouched. *)
Fixpoint update_first {A} (p : A -> bool) (f : A -> A) (l : list A) : list A :=
  match l with
  | [] => []
  | x :: l' => if p x then f x :: l' else x :: update_first p f l'
  end.

(** ** 3. Throwing computations over a mutable state *)

Inductive error :=
| GroupNotFound      (* Error('Group not found') *)
| EmptyGroup         (* Error('Group has no members') *)
| AllSkipped         (* Error('All users have skip weeks') *)
| Unauthenticated    (* Error('User not authenticated') *)
| TypeError          (* property read on undefined *)
| RangeError         (* toISOString on an invalid date *)
| RefreshFailed      (* oauth2Client.refreshAccessToken() rejected *)
| InsertFailed       (* calendar.events.insert rejected *)
| DeleteFailed       (* calendar.events.delete rejected *)
| WriteFailed.       (* fs.writeFile rejected *)

Inductive result (A : Type) :=
| Ok (a : A)
| Throw (e : error).
Arguments Ok {A} a.
Arguments Throw {A} e.

Definition M (S A : Type) : Type := S -> result A * S.

Definition ret {S A} (a : A) : M S A := fun s => (Ok a, s).
Definition throw {S A} (e : error) : M S A := fun s => (Throw e, s).
Definition bind {S A B} (m : M S A) (k : A -> M S B) : M S B :=
  fun s => match m s with
           | (Ok a, s') => k a s'
           | (Throw e, s') => (Throw e, s')
           end.
Definition get {S} : M S S := fun s => (Ok s, s).
Definition modify {S} (f : S -> S) : M S unit := fun s => (Ok tt, f s).

Declare Scope js_scope.
Delimit Scope js_scope with js.
Notation "x <- c1 ;; c2" := (bind c1 (fun x => c2))
  (at level 100, c1 at next level, right associativity) : js_scope.
Notation "c1 ;;; c2" := (bind c1 (fun _ => c2))
  (at level 100, right associativity) : js_scope.

(** Unfolds the plumbing of a throwing computation. *)
Ltac run_js :=
  unfold bind, get, throw, ret, modify; simpl.

(** ** 4. Rotation algorithm *)

Definition find_group (gid : string) (d : Data) : option Group :=
  find (fun g => String.eqb (group_id g) gid) (groups d).

Definition find_user (uid : string) (d : Data) : option User :=
  find (fun u => String.eqb (user_id u) uid) (users d).

(** [a.orderPosition - b.orderPosition] as comparator of the stable
    [Array.prototype.sort]: insertion keeps equal keys in their order. *)
Fixpoint insert_member (a : Member) (l : list Member) : list Member :=
  match l with
  | [] => [a]
  | b :: l' =>
      if orderPosition a <=? orderPosition b then a :: b :: l'
      else b :: insert_member a l'
  end.

Definition sortedMembers (ms : list Member) : list Member :=
  foldr insert_member [] ms.

Definition hasSkip (skips : list SkipWeek) (uid gid target : string) : bool :=
  existsb (fun skip =>
             String.eqb (skip_userId skip) uid
             && String.eqb (skip_groupId skip) gid
             && String.eqb (skip_weekStartDate skip) target) skips.

(** The [while (attempts < sortedMembers.length)] loop.  [remaining] is
    [sortedMembers.length - attempts]; the loop leaves either by [break]
    with the candidate's id ([Found]), by its condition ([Exhausted], the
    id is still [null]), or by reading [.userId] of [undefined].
    [currentIndex++] is an addition of doubles: from [2^53] on it may
    leave the index where it is. *)
Inductive scan_result :=
| Found (uid : string) (currentIndex : Z)
| Exhausted (currentIndex : Z)
| Undefined.

Fixpoint scan (sorted : list Member) (skips : list SkipWeek)
    (gid target : string) (remaining : nat) (idx : Z) : scan_result :=
  match remaining with
  | O => Exhausted idx
  | S remaining' =>
      match array_get sorted (Z.rem idx (Z.of_nat (length sorted))) with
      | None => Undefined
      | Some candidate =>
          if hasSkip skips (userId candidate) gid target
          then scan sorted skips gid target remaining' (js_add idx 1)
          else Found (userId candidate) idx
      end
  end.

Definition set_currentIndex (c : Z) (g : Group) : Group :=
  mkGroup (group_id g) (group_name g) (group_description g) (members g)
          (schedule g) c (isActive g).

Definition set_groups (gs : list Group) (d : Data) : Data :=
  mkData (users d) gs (skipWeeks d) (rotations d).

Definition write_currentIndex (gid : string) (c : Z) (d : Data) : Data :=
  set_groups
    (update_first (fun g => String.eqb (group_id g) gid)
                  (set_currentIndex c) (groups d)) d.

Record Assignment := mkAssignment
  { a_userId : string;
    a_weekStartDate : string }.

(** [getNextRotationAssignment(groupId, targetWeekDate)].  The local
    [currentIndex] starts at [group.currentIndex || 0], which is the stored
    number itself; the only write to the store is the last assignment,
    [group.currentIndex = (currentIndex + 1) % sortedMembers.length].
    The remainder of two doubles is exact; the sum is rounded. *)
Definition getNextRotationAssignment (gid targetWeekDate : string)
  : M Data Assignment :=
  (d <- get ;;
   match find_group gid d with
   | None => throw GroupNotFound
   | Some group =>
       if Nat.eqb (length (members group)) 0 then throw EmptyGroup
       else
         let sorted := sortedMembers (members group) in
         match scan sorted (skipWeeks d) gid targetWeekDate
                    (length sorted) (currentIndex group) with
         | Undefined => throw TypeError
         | Exhausted _ => throw AllSkipped
         | Found uid idx =>
             if truthy uid then
               modify (write_currentIndex gid
                         (Z.rem (js_add idx 1) (Z.of_nat (length sorted)))) ;;;
               ret (mkAssignment uid targetWeekDate)
             else throw AllSkipped
         end
   end)%js.

(** ** 5. The outside world

    Everything the server awaits or asks of its host is an [Env]: the
    answers may depend on the calls made so far ([list Call], oldest
    first), so a collaborator may succeed once and fail later.  Reading
    the clock is not a call: the clock is observed to move only across
    awaited calls. *)

Record Reminder := mkReminder
  { method : string;
    minutes : Z }.

Record Event := mkEvent
  { summary : string;
    description : string;
    start_dateTime : string;
    start_timeZone : string;
    end_dateTime : string;
    end_timeZone : string;
    useDefault : bool;
    overrides : list Reminder }.

Inductive Call :=
| CallRefresh (creds : Tokens)                  (* refreshAccessToken() *)
| CallWrite (snapshot : Data)                   (* fs.writeFile(DATA_FILE, ..) *)
| CallInsert (creds : Tokens) (ev : Event)      (* calendar.events.insert *)
| CallDelete (creds : Tokens) (eventId : string) (* calendar.events.delete *)
| CallLog (e : error).                          (* console.log in a catch *)

(** - [Date_now]: [Date.now()] and [new Date()], in milliseconds;
    - [Date_parse s]: the time value of [new Date(s)], [None] for an
      invalid date;
    - [toISOString_now]: [new Date().toISOString()];
    - [generateId prefix]: [generateId(prefix)] (clock and [Math.random]);
    - [addWeeks date numWeeks]: the function of that name, which moves the
      date in the host's time zone; [None] when [toISOString] throws;
    - [getWeekStartDate]: the Monday of the current week;
    - [refreshAccessToken], [events_insert], [events_delete], [writeFile]:
      the awaited promises, [None]/[false] standing for a rejection. *)
Record Env := mkEnv
  { Date_now : list Call -> Z;
    Date_parse : string -> option Z;
    toISOString_now : list Call -> string;
    generateId : string -> list Call -> string;
    addWeeks : string -> nat -> option string;
    getWeekStartDate : list Call -> string;
    refreshAccessToken : list Call -> Tokens -> option Tokens;
    events_insert : list Call -> Tokens -> Event -> option string;
    events_delete : list Call -> Tokens -> string -> bool;
    writeFile : list Call -> Data -> bool }.

Record World := mkWorld
  { data : Data;
    calls : list Call }.

Definition set_data (d : Data) (w : World) : World := mkWorld d (calls w).
Definition log_call (c : Call) (w : World) : World :=
  mkWorld (data w) (calls w ++ [c]).

Definition lift_data {A} (m : M Data A) : M World A :=
  fun w => let (r, d') := m (data w) in (r, set_data d' w).

Definition try_catch {S A} (m : M S A) (handler : error -> M S A) : M S A :=
  fun s => match m s with
           | (Ok a, s') => (Ok a, s')
           | (Throw e, s') => handler e s'
           end.

(** *** String helpers used to build the event *)

Definition LF : string := String (ascii_of_nat 10) EmptyString.

(** [s.split(':')[0]] *)
Fixpoint before_colon (s : string) : string :=
  match s with
  | EmptyString => EmptyString
  | String c s' => if Ascii.eqb c ":"%char then EmptyString
                   else String c (before_colon s')
  end.

Definition is_space (c : ascii) : bool :=
  let n := nat_of_ascii c in
  (Nat.eqb n 32 || (Nat.leb 9 n && Nat.leb n 13))%bool.

Fixpoint skip_spaces (s : string) : string :=
  match s with
  | String c s' => if is_space c then skip_spaces s' else s
  | EmptyString => EmptyString
  end.

Definition digit_value (radix : Z) (c : ascii) : option Z :=
  let n := Z.of_nat (nat_of_ascii c) in
  let v := if (48 <=? n) && (n <=? 57) then Some (n - 48)
           else if (97 <=? n) && (n <=? 122) then Some (n - 87)
           else if (65 <=? n) && (n <=? 90) then Some (n - 55)
           else None in
  match v with
  | Some k => if k <? radix then Some k else None
  | None => None
  end.

(** Longest prefix of digits in [radix], most significant first;
    [None] when there is no digit at all. *)
Fixpoint read_digits (radix : Z) (acc : option Z) (s : string) : option Z :=
  match s with
  | EmptyString => acc
  | String c s' =>
      match digit_value radix c with
      | Some k => read_digits radix (Some (default 0 acc * radix + k)) s'
      | None => acc
      end
  end.

(** [parseInt(s)] without a radix argument; [None] is [NaN]. *)
Definition parseInt (s : string) : option Z :=
  let s1 := skip_spaces s in
  let '(sign, s2) :=
    match s1 with
    | String "-"%char r => (-1, r)
    | String "+"%char r => (1, r)
    | _ => (1, s1)
    end in
  let '(radix, s3) :=
    match s2 with
    | String "0"%char (String "x"%char r) => (16, r)
    | String "0"%char (String "X"%char r) => (16, r)
    | _ => (10, s2)
    end in
  match read_digits radix None s3 with
  | Some v => Some (sign * v)
  | None => None
  end.

(** [n.toString()] of an integer, or of [NaN]. *)
Definition Number_toString (n : option Z) : string :=
  match n with
  | Some z => DecimalString.NilZero.string_of_int (Z.to_int z)
  | None => "NaN"
  end.

(** [s.padStart(2, '0')] *)
Definition padStart2 (s : string) : string :=
  match s with
  | EmptyString => "00"
  | String c EmptyString => String "0"%char s
  | _ => s
  end.

Definition endHour (g : Group) : string :=
  padStart2 (Number_toString
               (option_map (fun h => h + 1)
                           (parseInt (before_colon (timeOfDay (schedule g)))))).

Definition make_event (g : Group) (week : string) : Event :=
  mkEvent
    (group_name g ++ " - Your Turn This Week")
    (group_description g ++ LF ++ LF
       ++ "You are scheduled for this week's rotation." ++ LF ++ LF
       ++ "Week starting: " ++ week)
    (week ++ "T" ++ timeOfDay (schedule g) ++ ":00")
    "America/Los_Angeles"
    (week ++ "T" ++ endHour g ++ ":00:00")
    "America/Los_Angeles"
    false
    [mkReminder "email" 1440; mkReminder "popup" 60].

(** ** 6. Persistence and calendar integration *)

Section Server.

Variable E : Env.

Definition saveData : M World unit :=
  fun w =>
    let w' := log_call (CallWrite (data w)) w in
    if writeFile E (calls w) (data w) then (Ok tt, w') else (Throw WriteFailed, w').

Definition set_googleTokens (t : Tokens) (u : User) : User :=
  mkUser (user_id u) (user_email u) (user_name u) (Some t).

Definition set_users (us : list User) (d : Data) : Data :=
  mkData us (groups d) (skipWeeks d) (rotations d).

Definition write_googleTokens (uid : string) (t : Tokens) (d : Data) : Data :=
  set_users
    (update_first (fun u => String.eqb (user_id u) uid)
                  (set_googleTokens t) (users d)) d.

(** The [if (Date.now() >= user.googleTokens.expiry_date)] block;
    returns the credentials the shared OAuth client holds afterwards. *)
Definition refresh_if_expired (uid : string) (tk : Tokens) : M World Tokens :=
  fun w =>
    if Date_now E (calls w) >=? expiry_date tk then
      let w1 := log_call (CallRefresh tk) w in
      match refreshAccessToken E (calls w) tk with
      | None => (Throw RefreshFailed, w1)
      | Some credentials =>
          (modify (fun w => set_data (write_googleTokens uid credentials (data w)) w) ;;;
           saveData ;;;
           ret credentials)%js w1
      end
    else (Ok tk, w).

Definition calendar_insert (creds : Tokens) (ev : Event) : M World string :=
  fun w =>
    let w' := log_call (CallInsert creds ev) w in
    match events_insert E (calls w) creds ev with
    | Some id => (Ok id, w')
    | None => (Throw InsertFailed, w')
    end.

Definition calendar_delete (creds : Tokens) (eventId : string) : M World unit :=
  fun w =>
    let w' := log_call (CallDelete creds eventId) w in
    if events_delete E (calls w) creds eventId then (Ok tt, w')
    else (Throw DeleteFailed, w').

Definition createCalendarEvent (uid gid week : string) : M World string :=
  (w <- get ;;
   match find_user uid (data w) with
   | None => throw Unauthenticated
   | Some user =>
       match googleTokens user with
       | None => throw Unauthenticated
       | Some tk =>
           match find_group gid (data w) with
           | None => throw GroupNotFound
           | Some group =>
               creds <- refresh_if_expired uid tk ;;
               calendar_insert creds (make_event group week)
           end
       end
   end)%js.

Definition deleteCalendarEvent (uid eventId : string) : M World unit :=
  (w <- get ;;
   match find_user uid (data w) with
   | None => throw Unauthenticated
   | Some user =>
       match googleTokens user with
       | None => throw Unauthenticated
       | Some tk => calendar_delete tk eventId
       end
   end)%js.

End Server.

(** ** 7. Request handlers *)

Inductive response (A : Type) :=
| Json (body : A)                  (* res.json(body) *)
| Status404 (msg : string)         (* res.status(404).json({ error: msg }) *)
| Status500 (e : error).            (* res.status(500).json({ error: e.message }) *)
Arguments Json {A} body.
Arguments Status404 {A} msg.
Arguments Status500 {A} e.

(** [try { ... } catch (error) { res.status(500)... }] around a handler. *)
Definition handle {A} (m : M World (response A)) : World -> response A * World :=
  fun w => match m w with
           | (Ok r, w') => (r, w')
           | (Throw e, w') => (Status500 e, w')
           end.

Definition set_rotations (rs : list Rotation) (d : Data) : Data :=
  mkData (users d) (groups d) (skipWeeks d) rs.

Definition set_members (ms : list Member) (g : Group) : Group :=
  mkGroup (group_id g) (group_name g) (group_description g) ms
          (schedule g) (currentIndex g) (isActive g).

Definition nat_toString (n : nat) : string :=
  DecimalString.NilZero.string_of_uint (Nat.to_uint n).

Record TriggerBody := mkTriggerBody
  { created_rotations : list Rotation;
    trigger_message : string }.

Record SwapBody := mkSwapBody
  { swapped_rotation : Rotation;
    swap_message : string }.

Definition matches_swap (gid week fromUserId : string) (r : Rotation) : bool :=
  String.eqb (groupId r) gid && String.eqb (weekStartDate r) week
  && String.eqb (assignedUserId r) fromUserId.

Definition apply_swap (toUserId newEventId now : string) (r : Rotation) : Rotation :=
  mkRotation (rotation_id r) (groupId r) toUserId (weekStartDate r) newEventId
             (status r) (createdAt r) (Some now).

Definition has_id (rid : string) (r : Rotation) : bool :=
  String.eqb (rotation_id r) rid.

Section Handlers.

Variable E : Env.

(** *** POST /api/trigger/:groupId *)

(** One pass of the [for] body. *)
Definition schedule_one (gid startDate : string) (i : nat) : M World Rotation :=
  (targetDate <- match addWeeks E startDate i with
                 | Some t => ret t
                 | None => throw RangeError
                 end ;;
   a <- lift_data (getNextRotationAssignment gid targetDate) ;;
   eventId <- createCalendarEvent E (a_userId a) gid targetDate ;;
   w <- get ;;
   let rotation :=
     mkRotation (generateId E "rotation" (calls w)) gid (a_userId a) targetDate
                eventId scheduled (toISOString_now E (calls w)) None in
   modify (fun w => set_data (set_rotations (rotations (data w) ++ [rotation])
                                            (data w)) w) ;;;
   ret rotation)%js.

(** [for (let i = ...; i < numWeeks; i++)], with [count = numWeeks - i]. *)
Fixpoint schedule_loop (gid startDate : string) (i count : nat)
  : M World (list Rotation) :=
  match count with
  | O => ret []
  | S count' =>
      (r <- schedule_one gid startDate i ;;
       rest <- schedule_loop gid startDate (S i) count' ;;
       ret (r :: rest))%js
  end.

(** [req.body.numWeeks] is an integer here, [0] standing for an absent
    field as well (both are falsy); the passes are those [i = 0, 1, ..]
    with [i < numWeeks], none when [numWeeks] is negative. *)
Definition post_trigger (gid : string) (numWeeks_req : Z)
    (weekStartDate_req : option string)
  : World -> response TriggerBody * World :=
  handle
    (w0 <- get ;;
     let numWeeks := if numWeeks_req =? 0 then 1 else numWeeks_req in
     let startDate :=
       match weekStartDate_req with
       | Some s => if truthy s then s else getWeekStartDate E (calls w0)
       | None => getWeekStartDate E (calls w0)
       end in
     created <- schedule_loop gid startDate 0 (Z.to_nat numWeeks) ;;
     saveData E ;;;
     w <- get ;;
     match find_group gid (data w) with
     | None => throw TypeError
     | Some group =>
         ret (Json (mkTriggerBody created
                (if numWeeks =? 1
                 then "Assigned rotation for " ++ group_name group
                      ++ " - week of " ++ startDate
                 else "Scheduled " ++ Number_toString (Some numWeeks)
                      ++ " weeks of rotations for " ++ group_name group
                      ++ " starting " ++ startDate)))
     end)%js.

(** *** POST /api/swap *)

Definition delete_if_event (uid : string) (r : Rotation) : M World unit :=
  if truthy (calendarEventId r)
  then deleteCalendarEvent E uid (calendarEventId r)
  else ret tt.

Definition post_swap (gid week fromUserId toUserId : string)
  : World -> response SwapBody * World :=
  handle
    (w <- get ;;
     match List.find (matches_swap gid week fromUserId) (rotations (data w)) with
     | None => ret (Status404 "Rotation not found")
     | Some rotation =>
         delete_if_event fromUserId rotation ;;;
         newEventId <- createCalendarEvent E toUserId gid week ;;
         w1 <- get ;;
         let swap := apply_swap toUserId newEventId (toISOString_now E (calls w1)) in
         let rotation' := swap rotation in
         modify (fun w =>
           set_data (set_rotations
                       (update_first (matches_swap gid week fromUserId) swap
                                     (rotations (data w)))
                       (data w)) w) ;;;
         saveData E ;;;
         w2 <- get ;;
         match find_user toUserId (data w2) with
         | None => throw TypeError
         | Some toUser =>
             ret (Json (mkSwapBody rotation' ("Swapped to " ++ user_name toUser)))
         end
     end)%js.

(** *** DELETE /api/rotations/:rotationId *)

Definition delete_rotation (rid : string) : World -> response string * World :=
  handle
    (w <- get ;;
     match List.find (has_id rid) (rotations (data w)) with
     | None => ret (Status404 "Rotation not found")
     | Some rotation =>
         delete_if_event (assignedUserId rotation) rotation ;;;
         modify (fun w =>
           set_data (set_rotations
                       (List.filter (fun r => negb (has_id rid r))
                                    (rotations (data w)))
                       (data w)) w) ;;;
         saveData E ;;;
         ret (Json "Rotation cancelled")
     end)%js.

(** *** DELETE /api/groups/:groupId/members/:userId *)

(** [new Date(r.weekStartDate) >= new Date()]; a comparison with an
    invalid date is false. *)
Definition is_future (h : list Call) (r : Rotation) : bool :=
  match Date_parse E (weekStartDate r) with
  | Some t => t >=? Date_now E h
  | None => false
  end.

Definition future_of (gid uid : string) (h : list Call) (r : Rotation) : bool :=
  String.eqb (groupId r) gid && String.eqb (assignedUserId r) uid
  && is_future h r.

(** [for (const rotation of futureRotations)] with its inner try/catch. *)
Fixpoint delete_events (uid : string) (rs : list Rotation) : M World unit :=
  match rs with
  | [] => ret tt
  | r :: rs' =>
      ((if truthy (calendarEventId r)
        then try_catch (deleteCalendarEvent E uid (calendarEventId r))
                       (fun e => modify (log_call (CallLog e)))
        else ret tt) ;;;
       delete_events uid rs')%js
  end.

Definition delete_member (gid uid : string) : World -> response string * World :=
  handle
    (w <- get ;;
     match find_group gid (data w) with
     | None => ret (Status404 "Group not found")
     | Some _ =>
         modify (fun w =>
           set_data (set_groups
                       (update_first
                          (fun g => String.eqb (group_id g) gid)
                          (fun g => set_members
                             (List.filter
                                (fun m => negb (String.eqb (userId m) uid))
                                (members g)) g)
                          (groups (data w)))
                       (data w)) w) ;;;
         w1 <- get ;;
         let futureRotations :=
           List.filter (future_of gid uid (calls w1)) (rotations (data w1)) in
         delete_events uid futureRotations ;;;
         modify (fun w =>
           set_data (set_rotations
                       (List.filter (fun r => negb (future_of gid uid (calls w) r))
                                    (rotations (data w)))
                       (data w)) w) ;;;
         saveData E ;;;
         w2 <- get ;;
         match find_user uid (data w2) with
         | None => throw TypeError
         | Some user =>
             ret (Json ("Removed " ++ user_name user
                        ++ " from group and cancelled "
                        ++ nat_toString (length futureRotations)
                        ++ " future rotations"))
         end
     end)%js.

End Handlers.

(** ** 7a. Handlers without a try block

    [POST /api/groups], [POST /api/groups/:groupId/members] and
    [POST /api/skip] answer with [res.json] or with a status and an error
    message; they await [saveData()] outside any [try], so a rejected write
    rejects the handler's promise and the handler sends no answer. *)

Inductive reply (A : Type) :=
| Success (body : A)                       (* res.json({ success: true, .. }) *)
| Failure (code : Z) (msg : string).       (* res.status(code).json({ error: msg }) *)
Arguments Success {A} body.
Arguments Failure {A} code msg.

Inductive outcome (A : Type) :=
| Answered (r : reply A)
| Rejected (e : error).
Arguments Answered {A} r.
Arguments Rejected {A} e.

Definition unguarded {A} (m : M World (reply A)) : World -> outcome A * World :=
  fun w => match m w with
           | (Ok r, w') => (Answered r, w')
           | (Throw e, w') => (Rejected e, w')
           end.

(** [x || dflt] for a string that may be absent. *)
Definition or_default (x : option string) (dflt : string) : string :=
  match x with
  | Some s => if truthy s then s else dflt
  | None => dflt
  end.


(** The skip as it is answered: the stored fields with the generated id
    and the creation time, which the server never reads again. *)
Record SkipAnswer := mkSkipAnswer
  { answered_id : string;
    answered_skip : SkipWeek;
    answered_createdAt : string }.

Definition same_skip_key (uid gid week : string) (s : SkipWeek) : bool :=
  String.eqb (skip_userId s) uid && String.eqb (skip_groupId s) gid
  && String.eqb (skip_weekStartDate s) week.

Definition set_skipWeeks (ss : list SkipWeek) (d : Data) : Data :=
  mkData (users d) (groups d) ss (rotations d).

Definition is_member (uid : string) (g : Group) : bool :=
  existsb (fun m => String.eqb (userId m) uid) (members g).

Section Unguarded.

Variable E : Env.


(** *** POST /api/groups/:groupId/members *)
Definition push_member (uid : string) (g : Group) : Group :=
  set_members (members g ++ [mkMember uid (Z.of_nat (length (members g)))]) g.

Definition post_members (gid uid : string) : World -> outcome Group * World :=
  unguarded
    (w <- get ;;
     match find_group gid (data w) with
     | None => ret (Failure 404 "Group not found")
     | Some group =>
         if is_member uid group then ret (Failure 400 "User already in group")
         else
           modify (fun w =>
             set_data (set_groups
                         (update_first (fun g => String.eqb (group_id g) gid)
                                       (push_member uid) (groups (data w)))
                         (data w)) w) ;;;
           saveData E ;;;
           ret (Success (push_member uid group))
     end)%js.

(** *** POST /api/skip *)
Definition post_skip (uid gid week : string) (reason : option string)
  : World -> outcome SkipAnswer * World :=
  unguarded
    (w <- get ;;
     match List.find (same_skip_key uid gid week) (skipWeeks (data w)) with
     | Some _ => ret (Failure 400 "Skip already exists")
     | None =>
         let skip := mkSkipWeek uid gid week (or_default reason "") in
         let answer := mkSkipAnswer (generateId E "skip" (calls w)) skip
                                    (toISOString_now E (calls w)) in
         modify (fun w => set_data (set_skipWeeks (skipWeeks (data w) ++ [skip])
                                                  (data w)) w) ;;;
         saveData E ;;;
         ret (Success answer)
     end)%js.

(** *** GET /auth/callback

    [exchange] is what [oauth2Client.getToken(code)] resolves to and
    [userInfo] the e-mail and name [oauth2.userinfo.get()] resolves to;
    [None] is a rejection.  The handler answers with a page in both
    cases: the welcome page of the user, or the error page. *)
Inductive page :=
| Welcome (user : User)
| ErrorPage.

Definition has_email (email : string) (u : User) : bool :=
  String.eqb (user_email u) email.

Definition auth_callback (exchange : option Tokens)
    (userInfo : option (string * option string)) : World -> page * World :=
  fun w =>
    match exchange, userInfo with
    | Some tokens, Some (email, name) =>
        let '(user, d') :=
          match List.find (has_email email) (users (data w)) with
          | None =>
              let user := mkUser (generateId E "user" (calls w)) email
                                 (or_default name email) (Some tokens) in
              (user, set_users (users (data w) ++ [user]) (data w))
          | Some user =>
              (set_googleTokens tokens user,
               set_users (update_first (has_email email) (set_googleTokens tokens)
                                       (users (data w))) (data w))
          end in
        match saveData E (set_data d' w) with
        | (Ok _, w') => (Welcome user, w')
        | (Throw _, w') => (ErrorPage, w')
        end
    | _, _ => (ErrorPage, w)
    end.

End Unguarded.

(** ** 8. Calendar dates of the host

    The handlers only see dates through [Env].  The functions below give
    one concrete host, in UTC, for the date strings the server itself
    produces ([YYYY-MM-DD] cut from [toISOString()]); they are used to
    instantiate [Env] in the scenarios and to read the local date-times
    written into an event. *)

Definition days_from_civil (y m d : Z) : Z :=
  let y' := if m <=? 2 then y - 1 else y in
  let era := y' / 400 in
  let yoe := y' - era * 400 in
  let mp := if m <=? 2 then m + 9 else m - 3 in
  let doy := (153 * mp + 2) / 5 + d - 1 in
  let doe := yoe * 365 + yoe / 4 - yoe / 100 + doy in
  era * 146097 + doe - 719468.

Definition civil_from_days (z : Z) : Z * Z * Z :=
  let z' := z + 719468 in
  let era := z' / 146097 in
  let doe := z' - era * 146097 in
  let yoe := (doe - doe / 1460 + doe / 36524 - doe / 146096) / 365 in
  let doy := doe - (365 * yoe + yoe / 4 - yoe / 100) in
  let mp := (5 * doy + 2) / 153 in
  let d := doy - (153 * mp + 2) / 5 + 1 in
  let m := if mp <? 10 then mp + 3 else mp - 9 in
  (if m <=? 2 then yoe + era * 400 + 1 else yoe + era * 400, m, d).

Definition is_digit (c : ascii) : bool :=
  let n := nat_of_ascii c in (Nat.leb 48 n && Nat.leb n 57)%bool.

Fixpoint all_digits (s : string) : bool :=
  match s with
  | EmptyString => true
  | String c s' => is_digit c && all_digits s'
  end.

(** A non-empty run of decimal digits, nothing else. *)
Definition decimal (s : string) : option Z :=
  if all_digits s then read_digits 10 None s else None.

Definition char_at (i : nat) (s : string) : option ascii := String.get i s.

(** Days since 1970-01-01 of a calendar date written [YYYY-MM-DD]. *)
Definition iso_date_days (s : string) : option Z :=
  if (Nat.eqb (String.length s) 10)
     && bool_decide (char_at 4 s = Some "-"%char)
     && bool_decide (char_at 7 s = Some "-"%char)
  then
    match decimal (substring 0 4 s), decimal (substring 5 2 s),
          decimal (substring 8 2 s) with
    | Some y, Some m, Some d =>
        let z := days_from_civil y m d in
        if bool_decide (civil_from_days z = (y, m, d)) then Some z else None
    | _, _, _ => None
    end
  else None.

Definition pad (width : nat) (n : Z) : string :=
  let s := Number_toString (Some n) in
  String.concat "" (repeat "0" (width - String.length s)) ++ s.

Definition format_iso_date (ymd : Z * Z * Z) : string :=
  let '(y, m, d) := ymd in pad 4 y ++ "-" ++ pad 2 m ++ "-" ++ pad 2 d.

Definition msPerDay : Z := 86400000.

(** [new Date("YYYY-MM-DD").getTime()]: midnight UTC of that day. *)
Definition utc_Date_parse (s : string) : option Z :=
  option_map (fun z => z * msPerDay) (iso_date_days s).

(** [addWeeks] on a host whose time zone is UTC. *)
Definition utc_addWeeks (s : string) (numWeeks : nat) : option string :=
  option_map (fun z => format_iso_date (civil_from_days (z + 7 * Z.of_nat numWeeks)))
             (iso_date_days s).

(** Minutes since 1970-01-01T00:00 of a local date-time written
    [YYYY-MM-DDTHH:MM:SS] (seconds must be [00]). *)
Definition local_minutes (s : string) : option Z :=
  if (Nat.eqb (String.length s) 19)
     && bool_decide (char_at 10 s = Some "T"%char)
     && bool_decide (char_at 13 s = Some ":"%char)
     && bool_decide (substring 16 3 s = ":00")
  then
    match iso_date_days (substring 0 10 s), decimal (substring 11 2 s),
          decimal (substring 14 2 s) with
    | Some z, Some h, Some mi =>
        if (h <? 24) && (mi <? 60) then Some (z * 1440 + h * 60 + mi) else None
    | _, _, _ => None
    end
  else None.

(** Minutes after midnight of a time of day written [HH:MM]. *)
Definition minutes_of_day (s : string) : option Z :=
  if (Nat.eqb (String.length s) 5) && bool_decide (char_at 2 s = Some ":"%char)
  then
    match decimal (substring 0 2 s), decimal (substring 3 2 s) with
    | Some h, Some mi => if (h <? 24) && (mi <? 60) then Some (h * 60 + mi) else None
    | _, _ => None
    end
  else None.

(** ** 9. Consecutive selections

    [selections gid targets] calls the selector once per target period, in
    order, and collects the assignees; it stops at the first throw. *)

Fixpoint selections (gid : string) (targets : list string) : M Data (list string) :=
  match targets with
  | [] => ret []
  | t :: ts =>
      (a <- getNextRotationAssignment gid t ;;
       rest <- selections gid ts ;;
       ret (a_userId a :: rest))%js
  end.

Definition by_orderPosition (a b : Member) : Prop :=
  orderPosition a <= orderPosition b.

(** The cursor of every group is a position counted from zero. *)
Definition cursors_nonneg (d : Data) : Prop :=
  Forall (fun g => 0 <= currentIndex g) (groups d).

(** The member at round-robin position [idx] of the sorted list. *)
Definition candidate (sorted : list Member) (idx : Z) : option Member :=
  sorted !! Z.to_nat (idx mod Z.of_nat (length sorted)).

Definition skipped (d : Data) (gid target : string) (m : Member) : bool :=
  hasSkip (skipWeeks d) (userId m) gid target.

(** ** 10. The event times as the specification words them

    Follows the specification, not the code: the visit starts at the
    group's [timeOfDay] on the day of the period given by [dayOfWeek]
    (1 = the period's first day, Monday, as the dashboard's
    [getRotationDate] counts it: [weekStartDate + (dayOfWeek - 1)] days)
    and ends one hour later.  Both are in minutes since 1970-01-01T00:00
    local time. *)

Definition claimed_start_minutes (g : Group) (week : string) : option Z :=
  match iso_date_days week, minutes_of_day (timeOfDay (schedule g)) with
  | Some z, Some t => Some ((z + (dayOfWeek (schedule g) - 1)) * 1440 + t)
  | _, _ => None
  end.

Definition claimed_end_minutes (g : Group) (week : string) : option Z :=
  option_map (fun s => s + 60) (claimed_start_minutes g week).

Definition set_dayOfWeek (dow : Z) (g : Group) : Group :=
  mkGroup (group_id g) (group_name g) (group_description g) (members g)
          (mkSchedule dow (timeOfDay (schedule g))) (currentIndex g) (isActive g).

(** The last thing the handler did was a [saveData()] of its store, and the
    write was rejected. *)
Definition final_save_failed (E : Env) (w' : World) : Prop :=
  exists h, calls w' = (h ++ [CallWrite (data w')])%list
            /\ writeFile E h (data w') = false.



(** The same selection as the handler makes it, at a given instant. *)
Definition future_at (E : Env) (gid uid : string) (now : Z) (r : Rotation) : bool :=
  String.eqb (groupId r) gid && String.eqb (assignedUserId r) uid
  && match Date_parse E (weekStartDate r) with
     | Some t => t >=? now
     | None => false
     end.




Definition removal_message (u : User) (count : nat) : string :=
  "Removed " ++ user_name u ++ " from group and cancelled "
  ++ nat_toString count ++ " future rotations".

(** The calendar event of rotation [r] was created: the call log [h] holds
    an insertion that the calendar answered with [r]'s event id. *)
Definition event_created (E : Env) (r : Rotation) (h : list Call) : Prop :=
  exists h0 creds ev rest,
    h = (h0 ++ CallInsert creds ev :: rest)%list
    /\ events_insert E h0 creds ev = Some (calendarEventId r).

(** The number of passes of a batch: [req.body.numWeeks || 1] when that is
    positive, none otherwise; and [req.body.weekStartDate || getWeekStartDate()]. *)
Definition resolved_numWeeks (numWeeks_req : Z) : nat :=
  Z.to_nat (if numWeeks_req =? 0 then 1 else numWeeks_req).

Definition resolved_startDate (E : Env) (weekStartDate_req : option string)
    (w : World) : string :=
  match weekStartDate_req with
  | Some s => if truthy s then s else getWeekStartDate E (calls w)
  | None => getWeekStartDate E (calls w)
  end.

(** ** 11. The dashboard's member picker

    [addMember(groupId)] of [frontend.js], up to the request it sends:
    [d] is the dashboard's copy of the store and [selection] what
    [prompt] returned ([None] when it was dismissed). *)

Inductive alert := NoUsersAvailable | AllUsersInGroup | InvalidSelection.

Inductive picked :=
| Alerts (a : alert)          (* alert(..); return *)
| Returns                     (* return without a request *)
| Raises (e : error)          (* the async function rejects *)
| Posts (gid uid : string).   (* POST /api/groups/:gid/members { userId } *)

Definition availableUsers (d : Data) (g : Group) : list User :=
  List.filter (fun u => negb (is_member (user_id u) g)) (users d).

Definition addMember (d : Data) (gid : string) (selection : option string) : picked :=
  if Nat.eqb (length (users d)) 0 then Alerts NoUsersAvailable
  else
    match find_group gid d with
    | None => Raises TypeError
    | Some group =>
        let available := availableUsers d group in
        if Nat.eqb (length available) 0 then Alerts AllUsersInGroup
        else
          match selection with
          | None => Returns
          | Some s =>
              if truthy s then
                match parseInt s with
                | None => Raises TypeError
                | Some v =>
                    let index := v - 1 in
                    if (index <? 0) || (index >=? Z.of_nat (length available))
                    then Alerts InvalidSelection
                    else match array_get available index with
                         | Some selectedUser => Posts gid (user_id selectedUser)
                         | None => Raises TypeError
                         end
                end
              else Returns
          end
    end.

(** ** 12. Hours of the day, for checking [endHour] hour by hour *)

Fixpoint no_colon (s : string) : bool :=
  match s with
  | EmptyString => true
  | String c s' => negb (Ascii.eqb c ":"%char) && no_colon s'
  end.

Definition next_hour_ok (k : nat) : bool :=
  let h := Z.of_nat k in
  no_colon (pad 2 h)
  && String.eqb (padStart2 (Number_toString
                              (option_map (fun x => x + 1) (parseInt (pad 2 h)))))
                (pad 2 (h + 1)).

(** ** 13. Invariants of the store *)

(** No user is twice in a group. *)
Definition members_unique (d : Data) : Prop :=
  Forall (fun g => NoDup (map userId (members g))) (groups d).

(** Every member's [orderPosition] is its index in [members]: the state
    of a group that has only gained members. *)
Definition positions_are_indices (g : Group) : Prop :=
  forall (i : nat) (m : Member),
    members g !! i = Some m -> orderPosition m = Z.of_nat i.

Definition skip_key (s : SkipWeek) : string * string * string :=
  (skip_userId s, skip_groupId s, skip_weekStartDate s).

(** No two skip weeks have the same user, group and week. *)
Definition skip_keys_unique (d : Data) : Prop :=
  NoDup (map skip_key (skipWeeks d)).

(** The store [d'] has the users and groups of [d], under the same ids and
    in the same order, and no negative cursor unless [d] had one. *)
Definition keeps_shape (d d' : Data) : Prop :=
  map group_id (groups d') = map group_id (groups d)
  /\ map user_id (users d') = map user_id (users d)
  /\ (cursors_nonneg d -> cursors_nonneg d').

(** ** 14. Scenario data *)

Module Scenario.

Definition slot : Schedule := mkSchedule 1 "09:00".

Definition abc_members : list Member :=
  [mkMember "C" 2; mkMember "A" 0; mkMember "B" 1].

Definition abc_group (cursor : Z) : Group :=
  mkGroup "g1" "Visits" "Weekly visit" abc_members slot cursor true.

Definition skip_B : SkipWeek := mkSkipWeek "B" "g1" "2026-02-16" "away".

Definition abc_data (cursor : Z) (skips : list SkipWeek) : Data :=
  mkData [] [abc_group cursor] skips [].

Definition solo_group : Group :=
  mkGroup "g2" "Solo" "" [mkMember "A" 0] slot 0 true.

Definition skip_solo : SkipWeek := mkSkipWeek "A" "g2" "2026-02-16" "".

Definition solo_data : Data := mkData [] [solo_group] [skip_solo] [].

(** A UTC host whose collaborators answer according to the calls made so
    far. *)
Definition refreshed (tk : Tokens) : Tokens :=
  mkTokens (access_token tk ++ "+") (expiry_date tk + 3600000).

Definition host (now : Z) (insert_ok delete_ok write_ok : list Call -> bool) : Env :=
  mkEnv (fun _ => now) utc_Date_parse (fun _ => "2026-02-10T12:00:00.000Z")
        (fun prefix h => prefix ++ "-" ++ nat_toString (length h))
        utc_addWeeks (fun _ => "2026-02-09")
        (fun _ tk => Some (refreshed tk))
        (fun h _ _ => if insert_ok h then Some ("evt-" ++ nat_toString (length h))
                      else None)
        (fun h _ _ => delete_ok h)
        (fun h _ => write_ok h).

Definition always : list Call -> bool := fun _ => true.
Definition never : list Call -> bool := fun _ => false.

(** 2026-02-10T12:00:00Z in milliseconds. *)
Definition feb10_noon : Z := 1770724800000.

Definition fresh_tokens : Tokens := mkTokens "at" (feb10_noon + 1800000).
Definition stale_tokens : Tokens := mkTokens "old" (feb10_noon - 1).

Definition v1 : User := mkUser "v1" "v1@example.org" "Vera" (Some fresh_tokens).
Definition v3 : User := mkUser "v3" "v3@example.org" "Victor" (Some fresh_tokens).
Definition v9 : User := mkUser "v9" "v9@example.org" "Nina" (Some stale_tokens).
Definition v0 : User := mkUser "v0" "v0@example.org" "Zed" None.

Definition g1 (cursor : Z) : Group :=
  mkGroup "g1" "Visits" "Weekly visit"
          [mkMember "v1" 0; mkMember "v3" 1] slot cursor true.

Definition rot (id uid week ev : string) : Rotation :=
  mkRotation id "g1" uid week ev scheduled "2026-02-01T00:00:00.000Z" None.

Definition store (cursor : Z) (rs : list Rotation) : Data :=
  mkData [v1; v3; v9; v0] [g1 cursor] [] rs.

Definition start_of (d : Data) : World := mkWorld d [].

Definition is_write (c : Call) : bool :=
  match c with CallWrite _ => true | _ => false end.

(** A disk that accepts one write and rejects the following ones. *)
Definition first_write_only (h : list Call) : bool := negb (existsb is_write h).




Definition is_insert (c : Call) : bool :=
  match c with CallInsert _ _ => true | _ => false end.

(** A calendar that accepts two insertions and rejects the following ones. *)
Definition two_inserts_only (h : list Call) : bool :=
  Nat.ltb (length (List.filter is_insert h)) 2.

(** A group that meets on Wednesdays at half past nine. *)
Definition wednesday_group : Group :=
  mkGroup "g1" "Visits" "Weekly visit"
          [mkMember "v1" 0; mkMember "v3" 1] (mkSchedule 3 "09:30") 0 true.

End Scenario.

(** * Properties *)

(** ** Generic facts about [find] and in-place updates *)

Lemma find_update_first {A} (p : A -> bool) (f : A -> A) (l : list A) :
  (forall x, p x = true -> p (f x) = true) ->
  List.find p (update_first p f l) = option_map f (List.find p l).
Proof.
  intros Hp. induction l as [|x l IH]; simpl; [reflexivity|].
  destruct (p x) eqn:Hx; simpl.
  - rewrite (Hp x Hx). reflexivity.
  - rewrite Hx. exact IH.
Qed.

Lemma update_first_twice {A} (p : A -> bool) (f1 f2 : A -> A) (l : list A) :
  (forall x, p x = true -> p (f1 x) = true) ->
  update_first p f2 (update_first p f1 l)
  = update_first p (fun x => f2 (f1 x)) l.
Proof.
  intros Hp. induction l as [|x l IH]; simpl; [reflexivity|].
  destruct (p x) eqn:Hx; simpl.
  - rewrite (Hp x Hx). reflexivity.
  - rewrite Hx, IH. reflexivity.
Qed.

Lemma update_first_ext {A} (p : A -> bool) (f1 f2 : A -> A) (l : list A) :
  (forall x, f1 x = f2 x) -> update_first p f1 l = update_first p f2 l.
Proof.
  intros H. induction l as [|x l IH]; simpl; [reflexivity|].
  rewrite H, IH. reflexivity.
Qed.

Lemma update_first_none {A} (p : A -> bool) (f : A -> A) (l : list A) :
  List.find p l = None -> update_first p f l = l.
Proof.
  induction l as [|x l IH]; simpl; [reflexivity|].
  destruct (p x); [discriminate|]. intros H. rewrite (IH H). reflexivity.
Qed.

Lemma length_update_first {A} (p : A -> bool) (f : A -> A) (l : list A) :
  length (update_first p f l) = length l.
Proof.
  induction l as [|x l IH]; simpl; [reflexivity|].
  destruct (p x); simpl; [reflexivity|]. rewrite IH. reflexivity.
Qed.

(** ** Numbers *)

Lemma round_double_exact (z : Z) : Z.abs z <= 2 ^ 53 -> round_double z = z.
Proof.
  intros Hz. unfold round_double.
  destruct (Z.leb_spec (Z.abs z) (2 ^ 53)) as [_|Hgt]; [reflexivity | lia].
Qed.

Lemma round_double_nonneg (z : Z) : 0 <= z -> 0 <= round_double z.
Proof.
  intros Hz. unfold round_double.
  destruct (Z.abs z <=? 2 ^ 53); [exact Hz|]. cbv zeta.
  set (ulp := 2 ^ (Z.log2 (Z.abs z) - 52)).
  assert (Hulp : 0 <= ulp) by (unfold ulp; apply Z.pow_nonneg; lia).
  assert (Hq : 0 <= Z.abs z / ulp).
  { destruct (Z.eq_dec ulp 0) as [->|Hne]; [rewrite Z.div_0_r; lia|].
    apply Z.div_pos; lia. }
  assert (Hs : 0 <= Z.sgn z) by (apply Z.sgn_nonneg; exact Hz).
  apply Z.mul_nonneg_nonneg; [exact Hs|].
  apply Z.mul_nonneg_nonneg; [|exact Hulp].
  destruct (_ <? _); [exact Hq|].
  destruct (_ <? _); [lia|]. destruct (Z.even _); lia.
Qed.

Lemma js_add_exact (x y : Z) : Z.abs (x + y) <= 2 ^ 53 -> js_add x y = x + y.
Proof. apply round_double_exact. Qed.

Lemma js_add_nonneg (x y : Z) : 0 <= x + y -> 0 <= js_add x y.
Proof. apply round_double_nonneg. Qed.

(** ** The sort *)

Lemma insert_member_perm a l : Permutation (insert_member a l) (a :: l).
Proof.
  induction l as [|b l IH]; simpl; [reflexivity|].
  destruct (orderPosition a <=? orderPosition b); [reflexivity|].
  rewrite IH. apply perm_swap.
Qed.

Lemma sortedMembers_perm ms : Permutation (sortedMembers ms) ms.
Proof.
  induction ms as [|a ms IH]; simpl; [reflexivity|].
  rewrite insert_member_perm. constructor. exact IH.
Qed.

Lemma sortedMembers_length ms : length (sortedMembers ms) = length ms.
Proof. apply Permutation_length, sortedMembers_perm. Qed.

Lemma insert_member_sorted a l :
  StronglySorted by_orderPosition l ->
  StronglySorted by_orderPosition (insert_member a l).
Proof.
  induction 1 as [|b l Hs IH Hb]; simpl.
  - constructor; constructor.
  - destruct (orderPosition a <=? orderPosition b) eqn:Hab.
    + apply Z.leb_le in Hab. constructor.
      * constructor; assumption.
      * constructor; [exact Hab|].
        eapply Forall_impl; [exact Hb|].
        unfold by_orderPosition. intros c Hc. lia.
    + apply Z.leb_gt in Hab. constructor; [exact IH|].
      assert (Hal : Forall (by_orderPosition b) (a :: l))
        by (constructor; [unfold by_orderPosition; lia | exact Hb]).
      revert Hal. apply Permutation_Forall. symmetry. apply insert_member_perm.
Qed.

Lemma sortedMembers_sorted ms : StronglySorted by_orderPosition (sortedMembers ms).
Proof.
  induction ms as [|a ms IH]; simpl; [constructor|].
  apply insert_member_sorted, IH.
Qed.

(** ** The scan *)

Section Scan.

Variables (sorted : list Member) (skips : list SkipWeek) (gid target : string).
Hypothesis nonempty : (0 < length sorted)%nat.

Lemma array_get_rem idx :
  0 <= idx ->
  array_get sorted (Z.rem idx (Z.of_nat (length sorted))) = candidate sorted idx.
Proof.
  intros Hidx. unfold array_get, candidate.
  rewrite Z.rem_mod_nonneg by lia.
  pose proof (Z.mod_pos_bound idx (Z.of_nat (length sorted))) as Hb.
  destruct (_ <? 0) eqn:Hneg; [apply Z.ltb_lt in Hneg; lia | reflexivity].
Qed.

Lemma candidate_is_Some idx : is_Some (candidate sorted idx).
Proof.
  unfold candidate. apply lookup_lt_is_Some.
  pose proof (Z.mod_pos_bound idx (Z.of_nat (length sorted))). lia.
Qed.

Lemma scan_first_eligible remaining : forall idx (k : nat) m,
  0 <= idx -> idx + Z.of_nat remaining <= 2 ^ 53 -> (k < remaining)%nat ->
  (forall (j : nat) m', (j < k)%nat ->
     candidate sorted (idx + Z.of_nat j) = Some m' ->
     hasSkip skips (userId m') gid target = true) ->
  candidate sorted (idx + Z.of_nat k) = Some m ->
  hasSkip skips (userId m) gid target = false ->
  scan sorted skips gid target remaining idx
  = Found (userId m) (idx + Z.of_nat k).
Proof.
  induction remaining as [|r IH]; intros idx k m Hidx Hmax Hk Hskip Hm Hfree; [lia|].
  simpl. rewrite array_get_rem by exact Hidx.
  destruct k as [|k].
  - replace (idx + Z.of_nat 0) with idx in * by lia.
    rewrite Hm, Hfree. reflexivity.
  - destruct (candidate_is_Some idx) as [c Hc].
    rewrite Hc, (Hskip O c); [| lia | rewrite <- Hc; f_equal; lia].
    rewrite js_add_exact by lia.
    rewrite (IH (idx + 1) k m); [f_equal; lia | lia | lia | lia | | | exact Hfree].
    + intros j m' Hj Hm'. apply (Hskip (S j) m'); [lia|].
      rewrite <- Hm'. f_equal. lia.
    + rewrite <- Hm. f_equal. lia.
Qed.

(** When every member has a skip week the scan ends by its condition,
    wherever the index stands and however it moves. *)
Lemma scan_all_skipped remaining : forall idx,
  0 <= idx ->
  (forall m', In m' sorted -> hasSkip skips (userId m') gid target = true) ->
  exists i, scan sorted skips gid target remaining idx = Exhausted i.
Proof.
  induction remaining as [|r IH]; intros idx Hidx Hskip; simpl.
  - eexists. reflexivity.
  - rewrite array_get_rem by exact Hidx.
    destruct (candidate_is_Some idx) as [c Hc].
    rewrite Hc, (Hskip c).
    + apply IH; [apply js_add_nonneg; lia | exact Hskip].
    + unfold candidate in Hc. apply list_elem_of_In.
      eapply list_elem_of_lookup_2. exact Hc.
Qed.

(** The scan never reads outside the array, and a [Found] index is
    the index of a candidate that has no skip. *)
Lemma scan_defined remaining : forall idx,
  0 <= idx ->
  match scan sorted skips gid target remaining idx with
  | Undefined => False
  | Exhausted i => True
  | Found uid i =>
      0 <= i /\
      exists m, candidate sorted i = Some m /\ uid = userId m /\
                hasSkip skips uid gid target = false
  end.
Proof.
  induction remaining as [|r IH]; intros idx Hidx; simpl; [exact I|].
  rewrite array_get_rem by exact Hidx.
  destruct (candidate_is_Some idx) as [c Hc]. rewrite Hc.
  destruct (hasSkip skips (userId c) gid target) eqn:Hs.
  - apply IH. apply js_add_nonneg. lia.
  - split; [lia|]. exists c. auto.
Qed.

End Scan.

(** ** The selector *)

Lemma find_group_write_currentIndex gid c d :
  find_group gid (write_currentIndex gid c d)
  = option_map (set_currentIndex c) (find_group gid d).
Proof.
  unfold find_group, write_currentIndex. simpl.
  apply find_update_first. intros g Hg. exact Hg.
Qed.

Lemma write_currentIndex_twice gid c1 c2 d :
  write_currentIndex gid c2 (write_currentIndex gid c1 d)
  = write_currentIndex gid c2 d.
Proof.
  unfold write_currentIndex, set_groups. simpl. f_equal.
  rewrite update_first_twice by (intros g Hg; exact Hg).
  apply update_first_ext. reflexivity.
Qed.

(** The group found after the cursor was written: the cursor is the one
    written, the rest is as before. *)
Lemma written_cursor gid c d g :
  find_group gid d = Some g ->
  exists g', find_group gid (write_currentIndex gid c d) = Some g'
             /\ currentIndex g' = c /\ members g' = members g.
Proof.
  intros Hg. exists (set_currentIndex c g).
  rewrite find_group_write_currentIndex, Hg. repeat split.
Qed.

Lemma truthy_true s : s <> "" -> truthy s = true.
Proof.
  intros H. unfold truthy. destruct (String.eqb s "") eqn:He; [|reflexivity].
  apply String.eqb_eq in He. contradiction.
Qed.

Lemma candidate_In sorted idx m : candidate sorted idx = Some m -> In m sorted.
Proof.
  unfold candidate. intros H. apply list_elem_of_In.
  eapply list_elem_of_lookup_2. exact H.
Qed.

Section Selector.

Variables (d : Data) (gid target : string) (g : Group).
Hypothesis group_found : find_group gid d = Some g.
Hypothesis has_members : (1 <= length (members g))%nat.
Hypothesis cursor_nonneg : 0 <= currentIndex g.

Local Abbreviation sorted := (sortedMembers (members g)).
Local Abbreviation n := (Z.of_nat (length (members g))).

Lemma sorted_nonempty : (0 < length sorted)%nat.
Proof. rewrite sortedMembers_length. lia. Qed.

Lemma selector_unfold :
  getNextRotationAssignment gid target d
  = match scan sorted (skipWeeks d) gid target (length sorted) (currentIndex g) with
    | Undefined => (Throw TypeError, d)
    | Exhausted _ => (Throw AllSkipped, d)
    | Found uid idx =>
        if truthy uid
        then (Ok (mkAssignment uid target),
              write_currentIndex gid
                (Z.rem (js_add idx 1) (Z.of_nat (length sorted))) d)
        else (Throw AllSkipped, d)
    end.
Proof.
  unfold getNextRotationAssignment. run_js. rewrite group_found.
  destruct (Nat.eqb_spec (length (members g)) 0) as [Hz|_]; [lia|].
  destruct (scan _ _ _ _ _ _) as [uid idx| |]; try reflexivity.
  destruct (truthy uid); reflexivity.
Qed.

Lemma selector_first_eligible (k : nat) (m : Member) :
  (forall x, In x (members g) -> userId x <> "") ->
  currentIndex g + n <= 2 ^ 53 ->
  Z.of_nat k < n ->
  (forall (j : nat) m', (j < k)%nat ->
     candidate sorted (currentIndex g + Z.of_nat j) = Some m' ->
     skipped d gid target m' = true) ->
  candidate sorted (currentIndex g + Z.of_nat k) = Some m ->
  skipped d gid target m = false ->
  getNextRotationAssignment gid target d
  = (Ok (mkAssignment (userId m) target),
     write_currentIndex gid
       (((currentIndex g + Z.of_nat k) mod n + 1) mod n) d).
Proof.
  intros Hids Hmax Hk Hskip Hm Hfree. rewrite selector_unfold.
  pose proof sorted_nonempty as Hne.
  rewrite (scan_first_eligible sorted (skipWeeks d) gid target Hne
             (length sorted) (currentIndex g) k m); try assumption.
  - rewrite truthy_true.
    + f_equal. f_equal. rewrite sortedMembers_length.
      rewrite js_add_exact by lia.
      rewrite Z.rem_mod_nonneg by lia.
      rewrite Z.add_mod_idemp_l by lia. reflexivity.
    + apply Hids. apply (Permutation_in m (sortedMembers_perm (members g))).
      eapply candidate_In. exact Hm.
  - rewrite sortedMembers_length. exact Hmax.
  - rewrite sortedMembers_length. lia.
Qed.

Lemma selector_all_skipped :
  (forall m, In m (members g) -> skipped d gid target m = true) ->
  getNextRotationAssignment gid target d = (Throw AllSkipped, d).
Proof.
  intros Hall. rewrite selector_unfold.
  destruct (scan_all_skipped sorted (skipWeeks d) gid target sorted_nonempty
              (length sorted) (currentIndex g) cursor_nonneg) as [i ->];
    [|reflexivity].
  intros m' Hm'. apply Hall.
  apply (Permutation_in m' (sortedMembers_perm (members g))). exact Hm'.
Qed.

(** Whatever the skip weeks, the selector either throws [AllSkipped] and
    leaves the store as it was, or writes a cursor in [0 .. n-1]. *)
Lemma selector_total :
  getNextRotationAssignment gid target d = (Throw AllSkipped, d)
  \/ exists uid c,
       getNextRotationAssignment gid target d
       = (Ok (mkAssignment uid target), write_currentIndex gid c d)
       /\ 0 <= c < n.
Proof.
  rewrite selector_unfold.
  pose proof (scan_defined sorted (skipWeeks d) gid target sorted_nonempty
                (length sorted) (currentIndex g) cursor_nonneg) as Hs.
  destruct (scan _ _ _ _ _ _) as [uid idx| |]; [|left; reflexivity|contradiction].
  destruct (truthy uid); [|left; reflexivity].
  right. eexists _, _. split; [reflexivity|].
  destruct Hs as [Hidx _].
  rewrite sortedMembers_length.
  pose proof (js_add_nonneg idx 1 ltac:(lia)) as Hnext.
  rewrite Z.rem_mod_nonneg by lia.
  apply Z.mod_pos_bound. lia.
Qed.

End Selector.

(** ** Consecutive selections without skip weeks *)

Lemma candidate_congr sorted i j :
  i mod Z.of_nat (length sorted) = j mod Z.of_nat (length sorted) ->
  candidate sorted i = candidate sorted j.
Proof. unfold candidate. intros ->. reflexivity. Qed.

Lemma selections_no_skips gid : forall targets d g,
  find_group gid d = Some g ->
  (1 <= length (members g))%nat ->
  0 <= currentIndex g ->
  currentIndex g + Z.of_nat (length (members g)) <= 2 ^ 53 ->
  Z.of_nat (length (members g)) < 2 ^ 32 ->
  (forall x, In x (members g) -> userId x <> "") ->
  skipWeeks d = [] ->
  let n := Z.of_nat (length (members g)) in
  exists l,
    selections gid targets d
    = (Ok l,
       match targets with
       | [] => d
       | _ :: _ => write_currentIndex gid
                     ((currentIndex g + Z.of_nat (length targets)) mod n) d
       end)
    /\ length l = length targets
    /\ forall j : nat, (j < length targets)%nat ->
         l !! j = userId <$> candidate (sortedMembers (members g))
                                       (currentIndex g + Z.of_nat j).
Proof.
  induction targets as [|t ts IH]; intros d g Hg Hn Hc Hmax Harr Hids Hskips n.
  - exists []. simpl. unfold ret. repeat split. intros j Hj. lia.
  - pose proof (sorted_nonempty g Hn) as Hne.
    destruct (candidate_is_Some (sortedMembers (members g)) Hne (currentIndex g))
      as [m Hm].
    assert (Hlen : Z.of_nat (length (sortedMembers (members g))) = n)
      by (rewrite sortedMembers_length; reflexivity).
    pose proof (selector_first_eligible d gid t g Hg Hn Hc O m Hids Hmax) as Hsel.
    replace (currentIndex g + Z.of_nat 0) with (currentIndex g) in Hsel by lia.
    specialize (Hsel ltac:(lia) ltac:(intros; lia) Hm).
    unfold skipped in Hsel. rewrite Hskips in Hsel. specialize (Hsel eq_refl).
    fold n in Hsel. rewrite Z.add_mod_idemp_l in Hsel by lia.
    set (c1 := (currentIndex g + 1) mod n) in *.
    set (d1 := write_currentIndex gid c1 d) in *.
    assert (Hc1 : 0 <= c1 < n) by (apply Z.mod_pos_bound; lia).
    destruct (IH d1 (set_currentIndex c1 g)) as (l & Hrun & Hl & Hlook).
    + unfold d1. rewrite find_group_write_currentIndex, Hg. reflexivity.
    + exact Hn.
    + simpl. lia.
    + simpl. fold n. fold n in Harr. lia.
    + exact Harr.
    + exact Hids.
    + exact Hskips.
    + simpl in Hrun, Hlook. fold n in Hrun.
      exists (userId m :: l). split; [|split].
      * simpl. unfold bind at 1. rewrite Hsel. unfold bind at 1.
        rewrite Hrun. unfold ret. f_equal.
        destruct ts as [|t' ts']; simpl length.
        -- unfold d1, c1. reflexivity.
        -- unfold d1. rewrite write_currentIndex_twice. f_equal.
           unfold c1. rewrite Z.add_mod_idemp_l by lia. f_equal. lia.
      * simpl. rewrite Hl. reflexivity.
      * intros [|j] Hj; simpl.
        -- rewrite (candidate_congr _ _ (currentIndex g)) by (f_equal; lia).
           rewrite Hm. reflexivity.
        -- rewrite Hlook by (simpl in Hj; lia). f_equal.
           apply candidate_congr. rewrite Hlen. unfold c1.
           rewrite Z.add_mod_idemp_l by lia. f_equal. lia.
Qed.

Lemma full_round_is_rotation (sorted : list Member) (c : Z) (l : list string) :
  (0 < length sorted)%nat -> 0 <= c ->
  length l = length sorted ->
  (forall j : nat, (j < length sorted)%nat ->
     l !! j = userId <$> candidate sorted (c + Z.of_nat j)) ->
  l = map userId (rotate (Z.to_nat (c mod Z.of_nat (length sorted))) sorted).
Proof.
  intros Hne Hc Hlen Hlook. apply list_eq. intros j.
  destruct (decide (j < length sorted)%nat) as [Hj|Hj].
  - rewrite (Hlook j Hj). change (map userId) with (fmap (M := list) userId).
    rewrite list_lookup_fmap, lookup_rotate_r by exact Hj.
    unfold candidate, rotate_nat_add. f_equal. f_equal. f_equal.
    pose proof (Z.mod_pos_bound c (Z.of_nat (length sorted))).
    rewrite Z2Nat.id by lia. rewrite Z.add_mod_idemp_l by lia. reflexivity.
  - rewrite !lookup_ge_None_2; [reflexivity | | lia].
    rewrite length_map, length_rotate. lia.
Qed.

(** ** First eligible candidate *)

(** Among the candidates at [idx], [idx+1], ..., [idx+remaining-1] either
    all are skipped or there is a first one that is not. *)
Lemma first_eligible_or_none (sorted : list Member) (skips : list SkipWeek)
    (gid target : string) (idx : Z) (remaining : nat) :
  (forall (j : nat) m', (j < remaining)%nat ->
     candidate sorted (idx + Z.of_nat j) = Some m' ->
     hasSkip skips (userId m') gid target = true)
  \/ exists (k : nat) m,
       (k < remaining)%nat
       /\ (forall (j : nat) m', (j < k)%nat ->
             candidate sorted (idx + Z.of_nat j) = Some m' ->
             hasSkip skips (userId m') gid target = true)
       /\ candidate sorted (idx + Z.of_nat k) = Some m
       /\ hasSkip skips (userId m) gid target = false.
Proof.
  induction remaining as [|r [Hall|(k & m & Hk & Hbefore & Hm & Hfree)]].
  - left. intros j m' Hj. lia.
  - destruct (candidate sorted (idx + Z.of_nat r)) as [m|] eqn:Hm.
    + destruct (hasSkip skips (userId m) gid target) eqn:Hs.
      * left. intros j m' Hj Hm'.
        destruct (decide (j = r)) as [->|Hne]; [congruence|].
        apply (Hall j m'); [lia | exact Hm'].
      * right. exists r, m. repeat split; [lia | exact Hall | exact Hm | exact Hs].
    + left. intros j m' Hj Hm'.
      destruct (decide (j = r)) as [->|Hne]; [congruence|].
      apply (Hall j m'); [lia | exact Hm'].
  - right. exists k, m. repeat split; [lia | exact Hbefore | exact Hm | exact Hfree].
Qed.

(** Every member is looked at within [length sorted] steps from any
    non-negative cursor. *)
Lemma candidate_covers (sorted : list Member) (c : Z) (m : Member) :
  In m sorted ->
  exists j : nat, (j < length sorted)%nat
                  /\ candidate sorted (c + Z.of_nat j) = Some m.
Proof.
  intros Hin. apply list_elem_of_In, list_elem_of_lookup_1 in Hin.
  destruct Hin as [i Hi]. pose proof (lookup_lt_Some _ _ _ Hi) as Hlt.
  set (n := Z.of_nat (length sorted)).
  exists (Z.to_nat ((Z.of_nat i - c) mod n)).
  pose proof (Z.mod_pos_bound (Z.of_nat i - c) n ltac:(unfold n; lia)) as Hb.
  split; [unfold n in *; apply Nat2Z.inj_lt; rewrite Z2Nat.id; tauto|].
  unfold candidate. fold n. rewrite Z2Nat.id by lia.
  rewrite Z.add_mod_idemp_r by (unfold n; lia).
  replace (c + (Z.of_nat i - c)) with (Z.of_nat i) by lia.
  rewrite Z.mod_small by (unfold n; lia). rewrite Nat2Z.id. exact Hi.
Qed.

Lemma selector_throw_keeps_store gid target d e d' :
  getNextRotationAssignment gid target d = (Throw e, d') -> d' = d.
Proof.
  unfold getNextRotationAssignment. run_js.
  destruct (find_group gid d) as [g|]; [|intros [= _ <-]; reflexivity].
  destruct (Nat.eqb _ 0); [intros [= _ <-]; reflexivity|].
  destruct (scan _ _ _ _ _ _) as [uid idx| |];
    try (intros [= _ <-]; reflexivity).
  destruct (truthy uid); [discriminate | intros [= _ <-]; reflexivity].
Qed.

(** ** Claims about the selector *)

(** C1, counterexample.  A group whose only member has the empty string
    as user id, no skip week at all: the first candidate has no skip week,
    yet the selector throws 'All users have skip weeks' -- the test
    [!assignedUserId] takes the empty id for [null]. *)
Lemma C1_counterexample :
  let solo := mkMember "" 0 in
  let d := mkData [] [mkGroup "g" "" "" [solo] Scenario.slot 0 true] [] [] in
  candidate (sortedMembers [solo]) 0 = Some solo
  /\ skipped d "g" "2026-02-16" solo = false
  /\ getNextRotationAssignment "g" "2026-02-16" d = (Throw AllSkipped, d).
Proof. repeat split. Qed.

(** C1, as amended.  For a group with [n >= 1] members whose user ids are
    not empty and a stored cursor [c] with [0 <= c] and [c + n <= 2^53]
    (so that every index the selector computes is an exact double; an
    array has fewer than [2^32] elements) the selector works on the
    members sorted by [orderPosition] ascending, looks at the candidates
    at [(c + k) mod n] for [k = 0, 1, ...], returns the first one without
    a matching skip week, and the group then stored has the cursor
    [(index_of_assignee + 1) mod n] and the members it had.  Without skip
    weeks, [n] consecutive selections return the sorted members rotated to
    start at the cursor -- every member exactly once -- and leave the
    stored cursor at [c mod n], where it pointed.  With members A, B, C,
    cursor 1 and B skipped for the target period, the assignee is C and
    the new cursor is 0. *)
Theorem C1_selectNext_round_robin (d : Data) (gid : string) (g : Group) :
  find_group gid d = Some g ->
  (1 <= length (members g))%nat ->
  Z.of_nat (length (members g)) < 2 ^ 32 ->
  0 <= currentIndex g ->
  currentIndex g + Z.of_nat (length (members g)) <= 2 ^ 53 ->
  (forall x, In x (members g) -> userId x <> "") ->
  let sorted := sortedMembers (members g) in
  let n := Z.of_nat (length (members g)) in
  (StronglySorted by_orderPosition sorted /\ Permutation sorted (members g))
  /\ (forall target,
        (exists x, In x (members g) /\ skipped d gid target x = false) ->
        exists (k : nat) (m : Member) (d' : Data) (g' : Group),
          Z.of_nat k < n
          /\ (forall (j : nat) m', (j < k)%nat ->
                candidate sorted (currentIndex g + Z.of_nat j) = Some m' ->
                skipped d gid target m' = true)
          /\ candidate sorted (currentIndex g + Z.of_nat k) = Some m
          /\ skipped d gid target m = false
          /\ getNextRotationAssignment gid target d
             = (Ok (mkAssignment (userId m) target), d')
          /\ d' = write_currentIndex gid
                    (((currentIndex g + Z.of_nat k) mod n + 1) mod n) d
          /\ find_group gid d' = Some g'
          /\ currentIndex g' = ((currentIndex g + Z.of_nat k) mod n + 1) mod n
          /\ members g' = members g)
  /\ (forall targets,
        skipWeeks d = [] -> length targets = length (members g) ->
        let round := map userId (rotate (Z.to_nat (currentIndex g mod n)) sorted) in
        exists (d' : Data) (g' : Group),
          selections gid targets d = (Ok round, d')
          /\ d' = write_currentIndex gid (currentIndex g mod n) d
          /\ find_group gid d' = Some g'
          /\ currentIndex g' = currentIndex g mod n
          /\ members g' = members g
          /\ Permutation round (map userId (members g)))
  /\ getNextRotationAssignment "g1" "2026-02-16"
       (Scenario.abc_data 1 [Scenario.skip_B])
     = (Ok (mkAssignment "C" "2026-02-16"), Scenario.abc_data 0 [Scenario.skip_B]).
Proof.
  intros Hg Hn Harr Hc Hmax Hids sorted n.
  pose proof (sorted_nonempty g Hn) as Hne. fold sorted in Hne.
  assert (Hlen : length sorted = length (members g))
    by apply sortedMembers_length.
  split; [split; [apply sortedMembers_sorted | apply sortedMembers_perm]|].
  split; [|split; [|reflexivity]].
  - intros target (x & Hx & Hfree).
    destruct (first_eligible_or_none sorted (skipWeeks d) gid target
                (currentIndex g) (length sorted))
      as [Hall|(k & m & Hk & Hbefore & Hm & Hm_free)].
    + exfalso.
      destruct (candidate_covers sorted (currentIndex g) x) as (j & Hj & Hcand).
      { apply (Permutation_in x (Permutation_sym (sortedMembers_perm (members g)))).
        exact Hx. }
      unfold skipped in Hfree. rewrite (Hall j x Hj Hcand) in Hfree. discriminate.
    + assert (Hkn : Z.of_nat k < n) by (unfold n; lia).
      destruct (written_cursor gid
                  (((currentIndex g + Z.of_nat k) mod n + 1) mod n) d g Hg)
        as (g' & Hg' & Hcur & Hmem).
      exists k, m, (write_currentIndex gid
                      (((currentIndex g + Z.of_nat k) mod n + 1) mod n) d), g'.
      split; [exact Hkn|]. split; [exact Hbefore|]. split; [exact Hm|].
      split; [exact Hm_free|].
      split; [apply (selector_first_eligible d gid target g); assumption|].
      split; [reflexivity|]. split; [exact Hg'|]. split; [exact Hcur | exact Hmem].
  - intros targets Hskips Hlt round.
    destruct (selections_no_skips gid targets d g Hg Hn Hc Hmax Harr Hids Hskips)
      as (l & Hrun & Hl & Hlook).
    assert (Hround : l = round).
    { unfold round, n. rewrite <- Hlen.
      apply full_round_is_rotation; try assumption; [lia|].
      intros j Hj. apply Hlook. lia. }
    subst l.
    destruct (written_cursor gid (currentIndex g mod n) d g Hg)
      as (g' & Hg' & Hcur & Hmem).
    exists (write_currentIndex gid (currentIndex g mod n) d), g'.
    split; [|split; [reflexivity|split; [exact Hg'|split; [exact Hcur|split; [exact Hmem|]]]]].
    + rewrite Hrun. f_equal.
      destruct targets as [|t ts]; [simpl in Hlt; lia|].
      f_equal. rewrite Hlt. fold n.
      rewrite <- Z.add_mod_idemp_r, Z.mod_same, Z.add_0_r by lia. reflexivity.
    + unfold round. apply Permutation_map.
      transitivity sorted; [|apply sortedMembers_perm].
      unfold rotate. rewrite Permutation_app_comm. rewrite take_drop. reflexivity.
Qed.

Lemma C1_witness :
  exists (k : nat) (m : Member) (g' : Group),
    candidate (sortedMembers Scenario.abc_members) (1 + Z.of_nat k) = Some m
    /\ fst (getNextRotationAssignment "g1" "2026-02-16"
              (Scenario.abc_data 1 [Scenario.skip_B]))
       = Ok (mkAssignment (userId m) "2026-02-16")
    /\ find_group "g1"
         (snd (getNextRotationAssignment "g1" "2026-02-16"
                 (Scenario.abc_data 1 [Scenario.skip_B]))) = Some g'
    /\ currentIndex g' = ((1 + Z.of_nat k) mod 3 + 1) mod 3.
Proof.
  destruct (C1_selectNext_round_robin
              (Scenario.abc_data 1 [Scenario.skip_B]) "g1" (Scenario.abc_group 1))
    as (_ & Hfirst & _).
  - reflexivity.
  - simpl. lia.
  - simpl. lia.
  - simpl. lia.
  - simpl. lia.
  - simpl. intros x [<-|[<-|[<-|[]]]]; discriminate.
  - destruct (Hfirst "2026-02-16")
      as (k & m & d' & g' & _ & _ & Hm & _ & Hrun & _ & Hg' & Hcur & _).
    + exists (mkMember "C" 2). split; [simpl; auto | reflexivity].
    + exists k, m, g'. rewrite Hrun. simpl.
      split; [exact Hm|]. split; [reflexivity|]. split; [exact Hg' | exact Hcur].
Defined.

(** From [2^53] on the cursor is no longer moved by [currentIndex++]: with
    the cursor at [2^53] the selector reads the member at [2^53 mod 3 = 2]
    three times and throws, although A and B have no skip week.  The bound
    on the cursor in C1 cannot be dropped. *)
Lemma cursor_at_2_53_stops_moving :
  let skip_C := mkSkipWeek "C" "g1" "2026-02-16" "" in
  let d := Scenario.abc_data (2 ^ 53) [skip_C] in
  js_add (2 ^ 53) 1 = 2 ^ 53
  /\ skipped d "g1" "2026-02-16" (mkMember "A" 0) = false
  /\ getNextRotationAssignment "g1" "2026-02-16" d = (Throw AllSkipped, d).
Proof. repeat split. Qed.

(** C2. The selector throws 'Group has no members' for a group without
    members and 'All users have skip weeks' when every member has a skip
    week for the target period; whenever it throws, the store -- the
    cursor included -- is exactly the one it was given. *)
Theorem C2_selectNext_failures (d : Data) (gid target : string) (g : Group) :
  find_group gid d = Some g ->
  (members g = [] ->
     getNextRotationAssignment gid target d = (Throw EmptyGroup, d))
  /\ ((1 <= length (members g))%nat -> 0 <= currentIndex g ->
      (forall m, In m (members g) -> skipped d gid target m = true) ->
      getNextRotationAssignment gid target d = (Throw AllSkipped, d))
  /\ (forall e d',
        getNextRotationAssignment gid target d = (Throw e, d') -> d' = d).
Proof.
  intros Hg. split; [|split].
  - intros Hempty. unfold getNextRotationAssignment. run_js.
    rewrite Hg, Hempty. reflexivity.
  - intros Hn Hc Hall. apply (selector_all_skipped d gid target g); assumption.
  - intros e d'. apply selector_throw_keeps_store.
Qed.

Lemma C2_witness :
  getNextRotationAssignment "g2" "2026-02-16" Scenario.solo_data
  = (Throw AllSkipped, Scenario.solo_data).
Proof.
  destruct (C2_selectNext_failures Scenario.solo_data "g2" "2026-02-16"
              Scenario.solo_group) as (_ & Hall & _).
  - reflexivity.
  - apply Hall.
    + simpl. lia.
    + simpl. lia.
    + simpl. intros m [<-|[]]. reflexivity.
Defined.

(** C9. For a group with [n >= 1] members and any stored cursor [>= 0]
    (possibly [>= n]) every candidate read is [sortedMembers[i % n]] with
    [0 <= i % n < n], so no read falls outside the array: the selector
    either throws 'All users have skip weeks' without touching the store
    or succeeds, and then the group stored under that id has a cursor in
    [0 .. n-1] and the members it had. *)
Theorem C9_selectNext_any_cursor (d : Data) (gid target : string) (g : Group) :
  find_group gid d = Some g ->
  (1 <= length (members g))%nat ->
  0 <= currentIndex g ->
  let sorted := sortedMembers (members g) in
  let n := Z.of_nat (length (members g)) in
  (forall idx, currentIndex g <= idx ->
     0 <= Z.rem idx n < n
     /\ is_Some (array_get sorted (Z.rem idx (Z.of_nat (length sorted)))))
  /\ scan sorted (skipWeeks d) gid target (length sorted) (currentIndex g)
     <> Undefined
  /\ (getNextRotationAssignment gid target d = (Throw AllSkipped, d)
      \/ exists uid c,
           getNextRotationAssignment gid target d
           = (Ok (mkAssignment uid target), write_currentIndex gid c d)
           /\ find_group gid (write_currentIndex gid c d)
              = Some (set_currentIndex c g)
           /\ 0 <= c < n)
  /\ (forall a d',
        getNextRotationAssignment gid target d = (Ok a, d') ->
        exists g', find_group gid d' = Some g'
                   /\ 0 <= currentIndex g' < n
                   /\ members g' = members g).
Proof.
  intros Hg Hn Hc sorted n.
  pose proof (sorted_nonempty g Hn) as Hne. fold sorted in Hne.
  split; [|split; [|split]]; cycle 3.
  { intros a d' Hrun.
    destruct (selector_total d gid target g Hg Hn Hc)
      as [Hthrow|(uid & c & Hok & Hrange)]; [congruence|].
    rewrite Hok in Hrun. injection Hrun as _ <-.
    destruct (written_cursor gid c d g Hg) as (g' & Hg' & Hcur & Hmem).
    exists g'. rewrite Hcur. auto. }
  - intros idx Hidx. split.
    + rewrite Z.rem_mod_nonneg by (unfold n; lia).
      apply Z.mod_pos_bound. unfold n. lia.
    + rewrite array_get_rem by (try exact Hne; lia).
      apply candidate_is_Some. exact Hne.
  - pose proof (scan_defined sorted (skipWeeks d) gid target Hne
                  (length sorted) (currentIndex g) Hc) as Hs.
    intros Hundef. rewrite Hundef in Hs. exact Hs.
  - destruct (selector_total d gid target g Hg Hn Hc)
      as [Hthrow|(uid & c & Hrun & Hrange)]; [left; exact Hthrow|].
    right. exists uid, c. split; [exact Hrun|]. split; [|exact Hrange].
    rewrite find_group_write_currentIndex, Hg. reflexivity.
Qed.

Lemma C9_witness :
  let run := getNextRotationAssignment "g1" "2026-02-16" (Scenario.abc_data 7 []) in
  fst run = Ok (mkAssignment "B" "2026-02-16")
  /\ exists g', find_group "g1" (snd run) = Some g'
                /\ 0 <= currentIndex g' < 3
                /\ members g' = Scenario.abc_members.
Proof.
  intros run. split; [reflexivity|].
  destruct (C9_selectNext_any_cursor (Scenario.abc_data 7 []) "g1" "2026-02-16"
              (Scenario.abc_group 7)) as (_ & _ & _ & Hstored).
  - reflexivity.
  - simpl. lia.
  - simpl. lia.
  - apply (Hstored (mkAssignment "B" "2026-02-16") (snd run)). reflexivity.
Defined.

(** With a negative cursor the JavaScript remainder is negative and the
    candidate read is [undefined]: the hypothesis of C9 cannot be dropped. *)
Lemma negative_cursor_reads_undefined :
  getNextRotationAssignment "g1" "2026-02-16" (Scenario.abc_data (-1) [])
  = (Throw TypeError, Scenario.abc_data (-1) []).
Proof. reflexivity. Qed.

(** Every cursor the selector writes is non-negative: stores built by the
    server, where a group starts with cursor 0, never hold a negative one. *)
Lemma selector_keeps_cursors_nonneg gid target d r d' :
  cursors_nonneg d ->
  getNextRotationAssignment gid target d = (r, d') ->
  cursors_nonneg d'.
Proof.
  unfold cursors_nonneg. intros Hd Hrun.
  destruct r as [a|e]; [|apply selector_throw_keeps_store in Hrun; congruence].
  destruct (find_group gid d) as [g|] eqn:Hg;
    [|revert Hrun; unfold getNextRotationAssignment; run_js; rewrite Hg; discriminate].
  assert (Hc : 0 <= currentIndex g).
  { unfold find_group in Hg. apply find_some in Hg. destruct Hg as [Hin _].
    rewrite Forall_forall in Hd. apply Hd. apply list_elem_of_In. exact Hin. }
  destruct (Nat.eq_dec (length (members g)) 0%nat) as [Hz|Hnz].
  { revert Hrun. unfold getNextRotationAssignment. run_js. rewrite Hg, Hz. discriminate. }
  destruct (selector_total d gid target g Hg ltac:(lia) Hc)
    as [Hthrow|(uid & c & Hok & Hrange)]; [congruence|].
  rewrite Hok in Hrun. injection Hrun as _ <-.
  unfold write_currentIndex. simpl.
  clear - Hd Hrange. induction (groups d) as [|x l IH]; simpl; [constructor|].
  inversion Hd; subst.
  destruct (String.eqb (group_id x) gid).
  - constructor; [simpl; lia | assumption].
  - constructor; [assumption | apply IH; assumption].
Qed.

(** ** Claims about the calendar integration *)

Lemma find_user_write_googleTokens uid t d :
  find_user uid (write_googleTokens uid t d)
  = option_map (set_googleTokens t) (find_user uid d).
Proof.
  unfold find_user, write_googleTokens. simpl.
  apply find_update_first. intros u Hu. exact Hu.
Qed.

Lemma find_user_other_write_googleTokens uid other t d :
  other <> uid ->
  find_user other (write_googleTokens uid t d) = find_user other d.
Proof.
  intros Hne. unfold find_user, write_googleTokens. simpl.
  induction (users d) as [|x l IH]; simpl; [reflexivity|].
  destruct (String.eqb_spec (user_id x) uid) as [Hx|Hx]; simpl.
  - destruct (String.eqb_spec (user_id x) other) as [Ho|_]; [congruence|].
    reflexivity.
  - rewrite IH. reflexivity.
Qed.

(** C8. Creating and deleting an event both throw 'User not authenticated',
    before any call and without touching the store, when the user or the
    user's credentials are absent.  When the credentials are present and
    expired (and the group exists), creation first asks for a refresh; a
    refresh that succeeds replaces the stored credentials -- the user found
    under that id afterwards has [googleTokens] equal to the refreshed
    credentials and the id, e-mail and name of before, every other id
    finds what it found, groups, skip weeks and rotations are untouched --
    the store holding them is written to disk, and only then is the event
    inserted, with the refreshed credentials. *)
Theorem C8_credentials (E : Env) (uid gid week eventId : string) (w : World) :
  ((find_user uid (data w) = None
    \/ exists u, find_user uid (data w) = Some u /\ googleTokens u = None) ->
   createCalendarEvent E uid gid week w = (Throw Unauthenticated, w)
   /\ deleteCalendarEvent E uid eventId w = (Throw Unauthenticated, w))
  /\ (forall u tk g,
        find_user uid (data w) = Some u -> googleTokens u = Some tk ->
        find_group gid (data w) = Some g ->
        Date_now E (calls w) >= expiry_date tk ->
        match refreshAccessToken E (calls w) tk with
        | None =>
            createCalendarEvent E uid gid week w
            = (Throw RefreshFailed, mkWorld (data w) (calls w ++ [CallRefresh tk]))
        | Some credentials =>
            let d' := write_googleTokens uid credentials (data w) in
            let h1 := (calls w ++ [CallRefresh tk])%list in
            let h2 := (h1 ++ [CallWrite d'])%list in
            let ev := make_event g week in
            find_user uid d' = Some (set_googleTokens credentials u)
            /\ (exists u', find_user uid d' = Some u'
                           /\ googleTokens u' = Some credentials
                           /\ user_id u' = user_id u
                           /\ user_email u' = user_email u
                           /\ user_name u' = user_name u)
            /\ (forall other, other <> uid ->
                  find_user other d' = find_user other (data w))
            /\ map user_id (users d') = map user_id (users (data w))
            /\ groups d' = groups (data w)
            /\ skipWeeks d' = skipWeeks (data w)
            /\ rotations d' = rotations (data w)
            /\ createCalendarEvent E uid gid week w
               = if writeFile E h1 d'
                 then (match events_insert E h2 credentials ev with
                       | Some id => Ok id
                       | None => Throw InsertFailed
                       end,
                       mkWorld d' (h2 ++ [CallInsert credentials ev]))
                 else (Throw WriteFailed, mkWorld d' h2)
        end).
Proof.
  split.
  - intros Habsent. unfold createCalendarEvent, deleteCalendarEvent. run_js.
    destruct Habsent as [Hu|(u & Hu & Htk)]; rewrite Hu; [|rewrite Htk];
      split; reflexivity.
  - intros u tk g Hu Htk Hg Hexp.
    unfold createCalendarEvent. run_js. rewrite Hu, Htk, Hg.
    unfold refresh_if_expired.
    destruct (Date_now E (calls w) >=? expiry_date tk) eqn:Hge;
      [|apply Z.geb_ge in Hexp; congruence].
    destruct (refreshAccessToken E (calls w) tk) as [credentials|];
      [|reflexivity].
    split; [rewrite find_user_write_googleTokens, Hu; reflexivity|].
    split.
    { exists (set_googleTokens credentials u).
      rewrite find_user_write_googleTokens, Hu. repeat split. }
    split; [intros other Hne; apply find_user_other_write_googleTokens; exact Hne|].
    split.
    { unfold write_googleTokens. simpl.
      induction (users (data w)) as [|x l IH]; simpl; [reflexivity|].
      destruct (String.eqb (user_id x) uid); simpl; [reflexivity|].
      rewrite IH. reflexivity. }
    split; [reflexivity|]. split; [reflexivity|]. split; [reflexivity|].
    unfold saveData, calendar_insert, log_call, set_data. run_js.
    destruct (writeFile E _ _); [|reflexivity].
    destruct (events_insert E _ _ _); reflexivity.
Qed.

Lemma C8_witness :
  let E := Scenario.host Scenario.feb10_noon Scenario.always Scenario.always
                         Scenario.always in
  let w := Scenario.start_of (Scenario.store 0 []) in
  let d' := write_googleTokens "v9" (Scenario.refreshed Scenario.stale_tokens)
                               (data w) in
  let ev := make_event (Scenario.g1 0) "2026-02-16" in
  createCalendarEvent E "v0" "g1" "2026-02-16" w = (Throw Unauthenticated, w)
  /\ createCalendarEvent E "v9" "g1" "2026-02-16" w
     = (Ok "evt-2",
        mkWorld d' [CallRefresh Scenario.stale_tokens; CallWrite d';
                    CallInsert (Scenario.refreshed Scenario.stale_tokens) ev])
  /\ exists u', find_user "v9" d' = Some u'
                /\ googleTokens u' = Some (Scenario.refreshed Scenario.stale_tokens)
                /\ user_name u' = "Nina".
Proof.
  intros E w d' ev.
  destruct (C8_credentials E "v0" "g1" "2026-02-16" "e" w) as [Habsent _].
  destruct (C8_credentials E "v9" "g1" "2026-02-16" "e" w) as [_ Hexpired].
  split.
  - apply Habsent. right. exists Scenario.v0. split; reflexivity.
  - specialize (Hexpired Scenario.v9 Scenario.stale_tokens (Scenario.g1 0)
                  eq_refl eq_refl eq_refl).
    destruct Hexpired
      as (_ & (u' & Hu' & Htk & _ & _ & Hname) & _ & _ & _ & _ & _ & Hrun);
      [vm_compute; discriminate|].
    split; [exact Hrun|]. exists u'.
    split; [exact Hu'|]. split; [exact Htk | exact Hname].
Defined.

(** The event is built from the week's first day, the time of day and the
    group's name and description only: [schedule.dayOfWeek] is never
    read. *)
Lemma make_event_ignores_dayOfWeek (g : Group) (dow : Z) (week : string) :
  make_event (set_dayOfWeek dow g) week = make_event g week.
Proof. reflexivity. Qed.

Lemma make_event_fields (g : Group) (week : string) :
  start_dateTime (make_event g week) = week ++ "T" ++ timeOfDay (schedule g) ++ ":00"
  /\ end_dateTime (make_event g week) = week ++ "T" ++ endHour g ++ ":00:00"
  /\ useDefault (make_event g week) = false
  /\ overrides (make_event g week)
     = [mkReminder "email" 1440; mkReminder "popup" 60].
Proof. repeat split. Qed.

(** C4, at the failing input: for a group that meets on Wednesdays
    ([dayOfWeek = 3]) at 09:30 and the week starting Monday 2026-02-16, the
    event built by [createCalendarEvent] starts on the Monday at 09:30 and
    ends on the Monday at 10:00, thirty minutes later; as the claim words
    it the event starts two days later, on Wednesday 2026-02-18 at 09:30,
    and ends sixty minutes after its start.  The reminders are the two
    fixed ones, 1440 and 60 minutes before. *)
Theorem C4_event_times_at_failing_input :
  let ev := make_event Scenario.wednesday_group "2026-02-16" in
  start_dateTime ev = "2026-02-16T09:30:00"
  /\ end_dateTime ev = "2026-02-16T10:00:00"
  /\ (exists t, local_minutes (start_dateTime ev) = Some t
                /\ local_minutes (end_dateTime ev) = Some (t + 30)
                /\ claimed_start_minutes Scenario.wednesday_group "2026-02-16"
                   = Some (t + 2 * 1440)
                /\ claimed_end_minutes Scenario.wednesday_group "2026-02-16"
                   = Some (t + 2 * 1440 + 60))
  /\ overrides ev = [mkReminder "email" 1440; mkReminder "popup" 60].
Proof.
  repeat split. eexists. repeat split; vm_compute; reflexivity.
Qed.

(** ** Frame facts for the calendar functions *)

Section Frames.

Variable E : Env.

Lemma saveData_cases w :
  saveData E w
  = (if writeFile E (calls w) (data w) then Ok tt else Throw WriteFailed,
     mkWorld (data w) (calls w ++ [CallWrite (data w)])).
Proof. unfold saveData, log_call. destruct (writeFile E _ _); reflexivity. Qed.

Lemma deleteCalendarEvent_keeps_data uid eventId w r w' :
  deleteCalendarEvent E uid eventId w = (r, w') -> data w' = data w.
Proof.
  unfold deleteCalendarEvent, calendar_delete. run_js.
  destruct (find_user uid (data w)) as [u|]; [|intros [= _ <-]; reflexivity].
  destruct (googleTokens u) as [tk|]; [|intros [= _ <-]; reflexivity].
  destruct (events_delete E _ _ _); intros [= _ <-]; reflexivity.
Qed.

Lemma delete_if_event_keeps_data uid rot w r w' :
  delete_if_event E uid rot w = (r, w') -> data w' = data w.
Proof.
  unfold delete_if_event. destruct (truthy _).
  - apply deleteCalendarEvent_keeps_data.
  - unfold ret. intros [= _ <-]. reflexivity.
Qed.

(** Creating an event changes nothing in the store but, after a refresh,
    the credentials of the user the event is for. *)
Lemma createCalendarEvent_frame uid gid week w r w' :
  createCalendarEvent E uid gid week w = (r, w') ->
  data w' = data w
  \/ exists tk credentials,
       option_map googleTokens (find_user uid (data w)) = Some (Some tk)
       /\ Date_now E (calls w) >= expiry_date tk
       /\ refreshAccessToken E (calls w) tk = Some credentials
       /\ data w' = write_googleTokens uid credentials (data w).
Proof.
  unfold createCalendarEvent. run_js.
  destruct (find_user uid (data w)) as [u|] eqn:Hu;
    [|intros [= _ <-]; left; reflexivity].
  destruct (googleTokens u) as [tk|] eqn:Htk;
    [|intros [= _ <-]; left; reflexivity].
  destruct (find_group gid (data w)) as [g|];
    [|intros [= _ <-]; left; reflexivity].
  unfold refresh_if_expired, calendar_insert.
  destruct (Date_now E (calls w) >=? expiry_date tk) eqn:Hge.
  - destruct (refreshAccessToken E (calls w) tk) as [c|] eqn:Hc;
      [|intros [= _ <-]; left; reflexivity].
    run_js. rewrite saveData_cases. simpl. intros Hrun. right. exists tk, c.
    rewrite Htk. apply Z.geb_ge in Hge.
    repeat split; try assumption.
    destruct (writeFile E _ _); [|injection Hrun as _ <-; reflexivity].
    destruct (events_insert E _ _ _); injection Hrun as _ <-; reflexivity.
  - destruct (events_insert E _ _ _); intros [= _ <-]; left; reflexivity.
Qed.

Lemma createCalendarEvent_frame_fields uid gid week w r w' :
  createCalendarEvent E uid gid week w = (r, w') ->
  groups (data w') = groups (data w)
  /\ skipWeeks (data w') = skipWeeks (data w)
  /\ rotations (data w') = rotations (data w).
Proof.
  intros Hrun. destruct (createCalendarEvent_frame _ _ _ _ _ _ Hrun)
    as [->|(tk & c & _ & _ & _ & ->)]; repeat split.
Qed.

Lemma createCalendarEvent_Ok_user uid gid week w id w' :
  createCalendarEvent E uid gid week w = (Ok id, w') ->
  is_Some (find_user uid (data w')).
Proof.
  intros Hrun. pose proof Hrun as Hframe.
  apply createCalendarEvent_frame in Hframe.
  assert (Hu : is_Some (find_user uid (data w))).
  { revert Hrun. unfold createCalendarEvent. run_js.
    destruct (find_user uid (data w)); [eauto | discriminate]. }
  destruct Hframe as [->|(tk & c & _ & _ & _ & ->)]; [exact Hu|].
  rewrite find_user_write_googleTokens. destruct Hu as [u ->]. simpl. eauto.
Qed.

End Frames.

(** ** Swap *)

Lemma update_first_insert {A} (p : A -> bool) (f : A -> A) (l : list A) (x : A) :
  List.find p l = Some x ->
  exists i : nat, l !! i = Some x /\ update_first p f l = <[i := f x]> l.
Proof.
  induction l as [|y l IH]; simpl; [discriminate|].
  destruct (p y) eqn:Hy.
  - intros [= ->]. exists O. split; reflexivity.
  - intros Hx. destruct (IH Hx) as (i & Hi & Hupd).
    exists (S i). split; [exact Hi|]. simpl. rewrite Hupd. reflexivity.
Qed.

Section Swap.

Variables (E : Env) (gid week fromUserId toUserId : string).

Lemma post_swap_unfold w :
  post_swap E gid week fromUserId toUserId w
  = match List.find (matches_swap gid week fromUserId) (rotations (data w)) with
    | None => (Status404 "Rotation not found", w)
    | Some rotation =>
        match delete_if_event E fromUserId rotation w with
        | (Throw e, w1) => (Status500 e, w1)
        | (Ok _, w1) =>
            match createCalendarEvent E toUserId gid week w1 with
            | (Throw e, w2) => (Status500 e, w2)
            | (Ok newEventId, w2) =>
                let swap := apply_swap toUserId newEventId
                                       (toISOString_now E (calls w2)) in
                let d3 := set_rotations
                            (update_first (matches_swap gid week fromUserId) swap
                                          (rotations (data w2))) (data w2) in
                let w4 := mkWorld d3 (calls w2 ++ [CallWrite d3]) in
                if writeFile E (calls w2) d3 then
                  match find_user toUserId d3 with
                  | None => (Status500 TypeError, w4)
                  | Some toUser =>
                      (Json (mkSwapBody (swap rotation)
                                        ("Swapped to " ++ user_name toUser)), w4)
                  end
                else (Status500 WriteFailed, w4)
            end
        end
    end.
Proof.
  unfold post_swap, handle. run_js.
  destruct (List.find _ _) as [rotation|]; [|reflexivity].
  destruct (delete_if_event E fromUserId rotation w) as [[[]|e] w1]; [|reflexivity].
  destruct (createCalendarEvent E toUserId gid week w1) as [[newEventId|e] w2];
    [|reflexivity].
  rewrite saveData_cases. simpl.
  destruct (writeFile E _ _); [|reflexivity].
  destruct (find_user toUserId _); reflexivity.
Qed.

End Swap.

(** C6. A swap that succeeds rewrites one rotation, the first one that
    matches (group, week, fromUserId): its [assignedUserId],
    [calendarEventId] and [swappedAt] are new, its other fields are kept;
    every other rotation, every group (members and cursor included) and
    every skip week is exactly as before. *)
Theorem C6_swap_changes_one_rotation (E : Env)
    (gid week fromUserId toUserId : string) (w w' : World) (body : SwapBody) :
  post_swap E gid week fromUserId toUserId w = (Json body, w') ->
  exists (i : nat) (target : Rotation) (newEventId now : string),
    List.find (matches_swap gid week fromUserId) (rotations (data w)) = Some target
    /\ rotations (data w) !! i = Some target
    /\ swapped_rotation body
       = mkRotation (rotation_id target) (groupId target) toUserId
                    (weekStartDate target) newEventId (status target)
                    (createdAt target) (Some now)
    /\ rotations (data w') = <[i := swapped_rotation body]> (rotations (data w))
    /\ (forall j : nat, j <> i ->
          rotations (data w') !! j = rotations (data w) !! j)
    /\ groups (data w') = groups (data w)
    /\ skipWeeks (data w') = skipWeeks (data w).
Proof.
  rewrite post_swap_unfold.
  destruct (List.find _ _) as [target|] eqn:Hfind; [|discriminate].
  destruct (delete_if_event E fromUserId target w) as [[[]|e] w1] eqn:Hdel;
    [|discriminate].
  destruct (createCalendarEvent E toUserId gid week w1) as [[newEventId|e] w2]
    eqn:Hcreate; [|discriminate].
  apply delete_if_event_keeps_data in Hdel.
  apply createCalendarEvent_frame_fields in Hcreate.
  destruct Hcreate as (Hgroups & Hskips & Hrots).
  rewrite Hdel in Hgroups, Hskips, Hrots.
  cbv zeta. destruct (writeFile E _ _); [|discriminate].
  destruct (find_user toUserId _) as [toUser|]; [|discriminate].
  intros [= <- <-]. simpl. rewrite Hrots.
  destruct (update_first_insert (matches_swap gid week fromUserId)
              (apply_swap toUserId newEventId (toISOString_now E (calls w2)))
              _ _ Hfind) as (i & Hi & Hupd).
  exists i, target, newEventId, (toISOString_now E (calls w2)).
  repeat split; try assumption.
  intros j Hj. rewrite Hupd. apply list_lookup_insert_ne. congruence.
Qed.

Lemma C6_witness :
  let E := Scenario.host Scenario.feb10_noon Scenario.always Scenario.always
                         Scenario.always in
  let r1 := Scenario.rot "r1" "v1" "2026-02-16" "e1" in
  let r2 := Scenario.rot "r2" "v3" "2026-02-23" "e2" in
  let w := Scenario.start_of (Scenario.store 1 [r1; r2]) in
  exists body w',
    post_swap E "g1" "2026-02-16" "v1" "v3" w = (Json body, w')
    /\ assignedUserId (swapped_rotation body) = "v3"
    /\ rotations (data w') = [swapped_rotation body; r2]
    /\ groups (data w') = [Scenario.g1 1].
Proof.
  intros E r1 r2 w.
  destruct (post_swap E "g1" "2026-02-16" "v1" "v3" w) as [resp w'] eqn:Hrun.
  assert (Hjson : exists body, resp = Json body).
  { vm_compute in Hrun. injection Hrun as <- _. eexists. reflexivity. }
  destruct Hjson as [body ->]. exists body, w'. split; [reflexivity|].
  destruct (C6_swap_changes_one_rotation E "g1" "2026-02-16" "v1" "v3" w w' body Hrun)
    as (i & target & ev & now & Hfind & Hi & Hbody & Hrots & _ & Hgroups & _).
  injection Hfind as <-.
  assert (i = O) as ->.
  { destruct i as [|[|i]]; [reflexivity|discriminate Hi|discriminate Hi]. }
  split; [rewrite Hbody; reflexivity|]. split; [exact Hrots | exact Hgroups].
Defined.

(** ** Cancel *)

Lemma delete_rotation_unfold (E : Env) (rid : string) (w : World) :
  delete_rotation E rid w
  = match List.find (has_id rid) (rotations (data w)) with
    | None => (Status404 "Rotation not found", w)
    | Some rotation =>
        match delete_if_event E (assignedUserId rotation) rotation w with
        | (Throw e, w1) => (Status500 e, w1)
        | (Ok _, w1) =>
            let d2 := set_rotations
                        (List.filter (fun r => negb (has_id rid r))
                                     (rotations (data w1))) (data w1) in
            (if writeFile E (calls w1) d2 then Json "Rotation cancelled"
             else Status500 WriteFailed,
             mkWorld d2 (calls w1 ++ [CallWrite d2]))
        end
    end.
Proof.
  unfold delete_rotation, handle. run_js.
  destruct (List.find _ _) as [rotation|]; [|reflexivity].
  destruct (delete_if_event E _ rotation w) as [[[]|e] w1]; [|reflexivity].
  rewrite saveData_cases. simpl.
  destruct (writeFile E _ _); reflexivity.
Qed.

(** ** The ways a swap can end *)

Lemma post_swap_cases (E : Env) (gid week fromUserId toUserId : string)
    (w : World) (resp : response SwapBody) (w' : World) :
  post_swap E gid week fromUserId toUserId w = (resp, w') ->
  (List.find (matches_swap gid week fromUserId) (rotations (data w)) = None
   /\ resp = Status404 "Rotation not found" /\ w' = w)
  \/ exists target,
       List.find (matches_swap gid week fromUserId) (rotations (data w))
       = Some target
       /\ ((exists e, delete_if_event E fromUserId target w = (Throw e, w')
                      /\ resp = Status500 e)
           \/ exists w1,
                delete_if_event E fromUserId target w = (Ok tt, w1)
                /\ ((exists e,
                       createCalendarEvent E toUserId gid week w1 = (Throw e, w')
                       /\ resp = Status500 e)
                    \/ exists newEventId w2,
                         createCalendarEvent E toUserId gid week w1
                         = (Ok newEventId, w2)
                         /\ let swap := apply_swap toUserId newEventId
                                          (toISOString_now E (calls w2)) in
                            let d3 := set_rotations
                                        (update_first
                                           (matches_swap gid week fromUserId) swap
                                           (rotations (data w2))) (data w2) in
                            w' = mkWorld d3 (calls w2 ++ [CallWrite d3])
                            /\ ((writeFile E (calls w2) d3 = false
                                 /\ resp = Status500 WriteFailed)
                                \/ (writeFile E (calls w2) d3 = true
                                    /\ exists toUser,
                                         find_user toUserId d3 = Some toUser
                                         /\ resp = Json (mkSwapBody (swap target)
                                              ("Swapped to " ++ user_name toUser)))))).
Proof.
  rewrite post_swap_unfold.
  destruct (List.find _ _) as [target|];
    [|intros [= <- <-]; left; repeat split].
  intros Hrun. right. exists target. split; [reflexivity|].
  destruct (delete_if_event E fromUserId target w) as [[[]|e] w1];
    [|injection Hrun as <- <-; left; exists e; split; reflexivity].
  right. exists w1. split; [reflexivity|].
  destruct (createCalendarEvent E toUserId gid week w1) as [[newEventId|e] w2]
    eqn:Hcreate;
    [|injection Hrun as <- <-; left; exists e; split; reflexivity].
  right. exists newEventId, w2. split; [reflexivity|].
  cbv zeta in *. apply createCalendarEvent_Ok_user in Hcreate.
  destruct Hcreate as [toUser HtoUser].
  destruct (writeFile E _ _); [|injection Hrun as <- <-; split; [reflexivity|left; split; reflexivity]].
  unfold find_user in Hrun at 1. simpl users in Hrun.
  unfold find_user in HtoUser. rewrite HtoUser in Hrun.
  injection Hrun as <- <-. split; [reflexivity|]. right. split; [reflexivity|].
  exists toUser. split; [exact HtoUser | reflexivity].
Qed.

(** ** Claims about failing swaps and cancellations *)




Lemma createCalendarEvent_refresh_written (E : Env) uid gid week w r w' :
  createCalendarEvent E uid gid week w = (r, w') ->
  data w' = data w
  \/ exists tk credentials,
       option_map googleTokens (find_user uid (data w)) = Some (Some tk)
       /\ refreshAccessToken E (calls w) tk = Some credentials
       /\ data w' = write_googleTokens uid credentials (data w)
       /\ In (CallWrite (data w')) (calls w').
Proof.
  unfold createCalendarEvent. run_js.
  destruct (find_user uid (data w)) as [u|] eqn:Hu;
    [|intros [= _ <-]; left; reflexivity].
  destruct (googleTokens u) as [tk|] eqn:Htk;
    [|intros [= _ <-]; left; reflexivity].
  destruct (find_group gid (data w)) as [g|];
    [|intros [= _ <-]; left; reflexivity].
  unfold refresh_if_expired, calendar_insert.
  destruct (Date_now E (calls w) >=? expiry_date tk).
  - destruct (refreshAccessToken E (calls w) tk) as [c|] eqn:Hc;
      [|intros [= _ <-]; left; reflexivity].
    run_js. rewrite saveData_cases. simpl. intros Hrun. right. exists tk, c.
    rewrite Htk. split; [reflexivity|]. split; [exact Hc|].
    destruct (writeFile E _ _).
    + destruct (events_insert E _ _ _); injection Hrun as _ <-; simpl;
        (split; [reflexivity|]); rewrite !in_app_iff; simpl; tauto.
    + injection Hrun as _ <-. simpl. split; [reflexivity|].
      rewrite !in_app_iff. simpl. tauto.
  - destruct (events_insert E _ _ _); intros [= _ <-]; left; reflexivity.
Qed.

(** C10, counterexample.  The new assignee v9 holds expired credentials
    and the disk accepts one write only.  The swap deletes the old event,
    refreshes and saves v9's credentials, creates the new event, rewrites
    the rotation, and fails in its final [saveData()]: a swap that failed
    after the old event was deleted, with a rotation modified. *)
Lemma C10_counterexample :
  let E := Scenario.host Scenario.feb10_noon Scenario.always Scenario.always
                         Scenario.first_write_only in
  let r1 := Scenario.rot "r1" "v1" "2026-02-16" "e1" in
  let w := Scenario.start_of (Scenario.store 1 [r1]) in
  let out := post_swap E "g1" "2026-02-16" "v1" "v9" w in
  fst out = Status500 WriteFailed
  /\ deleteCalendarEvent E "v1" "e1" w
     = (Ok tt, mkWorld (data w) [CallDelete Scenario.fresh_tokens "e1"])
  /\ head (calls (snd out)) = Some (CallDelete Scenario.fresh_tokens "e1")
  /\ rotations (data (snd out))
     = [apply_swap "v9" "evt-3" "2026-02-10T12:00:00.000Z" r1]
  /\ rotations (data (snd out)) <> rotations (data w).
Proof.
  intros E r1 w out.
  repeat split; vm_compute; try reflexivity; discriminate.
Qed.

(** C10, as amended.  When a swap answers with an error after the old
    calendar event was deleted, no group (members, cursor) and no skip week
    is modified, and either the error was raised while the event for the
    new assignee was being created -- then no rotation is modified and
    the store is the one before the request, except that the new
    assignee's credentials may have been replaced by refreshed ones, the
    store holding them having been handed to the disk -- or the error is
    the rejection of the final [saveData()], reported after the rotation
    was rewritten. *)
Theorem C10_swap_failing_after_the_deletion (E : Env)
    (gid week fromUserId toUserId : string) (w w1 w' : World)
    (target : Rotation) (e : error) :
  List.find (matches_swap gid week fromUserId) (rotations (data w)) = Some target ->
  truthy (calendarEventId target) = true ->
  deleteCalendarEvent E fromUserId (calendarEventId target) w = (Ok tt, w1) ->
  post_swap E gid week fromUserId toUserId w = (Status500 e, w') ->
  groups (data w') = groups (data w)
  /\ skipWeeks (data w') = skipWeeks (data w)
  /\ ((createCalendarEvent E toUserId gid week w1 = (Throw e, w')
       /\ rotations (data w') = rotations (data w)
       /\ (data w' = data w
           \/ exists tk credentials,
                option_map googleTokens (find_user toUserId (data w))
                = Some (Some tk)
                /\ refreshAccessToken E (calls w1) tk = Some credentials
                /\ data w' = write_googleTokens toUserId credentials (data w)
                /\ In (CallWrite (data w')) (calls w')))
      \/ (e = WriteFailed /\ final_save_failed E w'
          /\ exists newEventId now,
               rotations (data w')
               = update_first (matches_swap gid week fromUserId)
                              (apply_swap toUserId newEventId now)
                              (rotations (data w)))).
Proof.
  intros Hfind Hev Hdel Hrun.
  assert (Hdel' : delete_if_event E fromUserId target w = (Ok tt, w1))
    by (unfold delete_if_event; rewrite Hev; exact Hdel).
  apply deleteCalendarEvent_keeps_data in Hdel.
  destruct (post_swap_cases _ _ _ _ _ _ _ _ Hrun)
    as [(Hnone & _)|(target' & Hfind' & Hcases)]; [congruence|].
  rewrite Hfind in Hfind'. injection Hfind' as <-.
  destruct Hcases as [(e' & Hthrow & _)|(w1' & Hok & Hrest)]; [congruence|].
  rewrite Hdel' in Hok. injection Hok as <-.
  destruct Hrest as [(e' & Hcreate & [= <-])|(ev & w2 & Hcreate & Hw' & Hsave)].
  - pose proof (createCalendarEvent_frame_fields _ _ _ _ _ _ _ Hcreate)
      as (Hgroups & Hskips & Hrots).
    rewrite Hdel in Hgroups, Hskips, Hrots.
    split; [exact Hgroups|]. split; [exact Hskips|]. left.
    split; [exact Hcreate|]. split; [exact Hrots|].
    destruct (createCalendarEvent_refresh_written _ _ _ _ _ _ _ Hcreate)
      as [Hsame|(tk & c & Htk & Hc & Hdata & Hwritten)].
    + left. congruence.
    + right. exists tk, c. rewrite Hdel in Htk, Hdata. auto.
  - pose proof (createCalendarEvent_frame_fields _ _ _ _ _ _ _ Hcreate)
      as (Hgroups & Hskips & Hrots).
    rewrite Hdel in Hgroups, Hskips, Hrots. cbv zeta in Hw', Hsave.
    destruct Hsave as [[Hwrite [= ->]]|(_ & toUser & _ & [=])].
    rewrite Hw'. simpl. split; [exact Hgroups|]. split; [exact Hskips|].
    right. split; [reflexivity|]. split.
    + eexists. split; [reflexivity | exact Hwrite].
    + rewrite Hrots. eexists _, _. reflexivity.
Qed.

(** The calendar refuses the new event after v9's credentials were
    refreshed: nothing but those credentials has changed. *)
Lemma C10_witness :
  let E := Scenario.host Scenario.feb10_noon Scenario.never Scenario.always
                         Scenario.always in
  let r1 := Scenario.rot "r1" "v1" "2026-02-16" "e1" in
  let w := Scenario.start_of (Scenario.store 1 [r1]) in
  let w' := snd (post_swap E "g1" "2026-02-16" "v1" "v9" w) in
  fst (post_swap E "g1" "2026-02-16" "v1" "v9" w) = Status500 InsertFailed
  /\ groups (data w') = groups (data w)
  /\ skipWeeks (data w') = skipWeeks (data w)
  /\ rotations (data w') = rotations (data w)
  /\ data w' = write_googleTokens "v9" (Scenario.refreshed Scenario.stale_tokens)
                                  (data w).
Proof.
  intros E r1 w w'.
  destruct (C10_swap_failing_after_the_deletion E "g1" "2026-02-16" "v1" "v9"
              w (mkWorld (data w) [CallDelete Scenario.fresh_tokens "e1"]) w'
              r1 InsertFailed)
    as (Hgroups & Hskips & [(_ & Hrots & _)|([=] & _)]);
    try (vm_compute; reflexivity).
  repeat split; try assumption; vm_compute; reflexivity.
Defined.

(** ** Member removal *)

Section Removal.

Variables (E : Env) (gid uid : string).

(** The loop over the future rotations never throws and never touches the
    store: a deletion that fails is logged and the loop goes on. *)
Lemma delete_events_tolerant rs : forall w,
  exists w', delete_events E uid rs w = (Ok tt, w') /\ data w' = data w.
Proof.
  induction rs as [|r rs IH]; intros w; simpl.
  - exists w. split; reflexivity.
  - unfold bind at 1.
    assert (Hstep : exists w1,
               (if truthy (calendarEventId r)
                then try_catch (deleteCalendarEvent E uid (calendarEventId r))
                               (fun e => modify (log_call (CallLog e)))
                else ret tt) w = (Ok tt, w1) /\ data w1 = data w).
    { destruct (truthy _); [|exists w; split; reflexivity].
      unfold try_catch.
      destruct (deleteCalendarEvent E uid (calendarEventId r) w) as [[[]|e] w1]
        eqn:Hdel; apply deleteCalendarEvent_keeps_data in Hdel.
      - exists w1. split; [reflexivity | exact Hdel].
      - eexists. split; [reflexivity|]. simpl. exact Hdel. }
    destruct Hstep as (w1 & -> & Hdata1).
    destruct (IH w1) as (w' & Hrun & Hdata'). exists w'.
    split; [exact Hrun | congruence].
Qed.

Lemma delete_member_unfold w g :
  find_group gid (data w) = Some g ->
  exists w1,
    data w1 = set_groups
                (update_first (fun g => String.eqb (group_id g) gid)
                   (fun g => set_members
                      (List.filter (fun m => negb (String.eqb (userId m) uid))
                                   (members g)) g)
                   (groups (data w))) (data w)
    /\ let futureRotations :=
         List.filter (future_of E gid uid (calls w)) (rotations (data w)) in
       let d2 := set_rotations
                   (List.filter (fun r => negb (future_of E gid uid (calls w1) r))
                                (rotations (data w))) (data w1) in
       delete_member E gid uid w
       = (if writeFile E (calls w1) d2
          then match find_user uid (data w) with
               | Some user => Json (removal_message user (length futureRotations))
               | None => Status500 TypeError
               end
          else Status500 WriteFailed,
          mkWorld d2 (calls w1 ++ [CallWrite d2])).
Proof.
  intros Hg. unfold delete_member, handle. run_js. rewrite Hg.
  match goal with
  | |- context [delete_events E uid ?rs ?w0] =>
      destruct (delete_events_tolerant rs w0) as (w1 & Hrun & Hdata)
  end.
  exists w1. split; [exact Hdata|]. cbv zeta.
  simpl in Hrun. rewrite Hrun. rewrite saveData_cases. simpl.
  rewrite Hdata. simpl.
  destruct (writeFile E _ _); [|reflexivity].
  unfold find_user. simpl. destruct (List.find _ (users (data w))); reflexivity.
Qed.

End Removal.

Lemma future_of_at (E : Env) gid uid h r :
  future_of E gid uid h r = future_at E gid uid (Date_now E h) r.
Proof. reflexivity. Qed.

Lemma future_at_later E gid uid now now' r :
  now <= now' -> future_at E gid uid now r = false ->
  future_at E gid uid now' r = false.
Proof.
  unfold future_at. intros Hle.
  destruct (String.eqb (groupId r) gid && String.eqb (assignedUserId r) uid);
    [|reflexivity]. simpl.
  destruct (Date_parse E _) as [t|]; [|reflexivity].
  rewrite !Z.geb_leb, !Z.leb_gt. lia.
Qed.






(** ** The scheduling batch *)

Lemma selector_Ok_writes gid target d a d1 :
  getNextRotationAssignment gid target d = (Ok a, d1) ->
  exists c, d1 = write_currentIndex gid c d.
Proof.
  unfold getNextRotationAssignment. run_js.
  destruct (find_group gid d) as [g|]; [|discriminate].
  destruct (Nat.eqb _ 0); [discriminate|].
  destruct (scan _ _ _ _ _ _) as [uid idx| |]; try discriminate.
  destruct (truthy uid); [|discriminate].
  intros [= _ <-]. eexists. reflexivity.
Qed.

Lemma groups_write_currentIndex gid c d d' :
  groups d' = groups d ->
  groups (write_currentIndex gid c d') = groups (write_currentIndex gid c d).
Proof. unfold write_currentIndex. simpl. intros ->. reflexivity. Qed.

Lemma createCalendarEvent_Ok_inserted E uid gid week w id w' :
  createCalendarEvent E uid gid week w = (Ok id, w') ->
  exists creds ev h,
    calls w' = (h ++ [CallInsert creds ev])%list
    /\ events_insert E h creds ev = Some id
    /\ exists suffix, h = (calls w ++ suffix)%list.
Proof.
  unfold createCalendarEvent. run_js.
  destruct (find_user uid (data w)) as [u|]; [|discriminate].
  destruct (googleTokens u) as [tk|]; [|discriminate].
  destruct (find_group gid (data w)) as [g|]; [|discriminate].
  unfold refresh_if_expired, calendar_insert.
  destruct (Date_now E (calls w) >=? expiry_date tk).
  - destruct (refreshAccessToken E (calls w) tk) as [c|]; [|discriminate].
    run_js. rewrite saveData_cases. simpl.
    destruct (writeFile E _ _); [|discriminate].
    destruct (events_insert E _ _ _) as [id'|] eqn:Hins; [|discriminate].
    intros [= <- <-]. simpl. eexists _, _, _. split; [reflexivity|].
    split; [exact Hins|]. eexists. rewrite <- app_assoc. reflexivity.
  - destruct (events_insert E _ _ _) as [id'|] eqn:Hins; [|discriminate].
    intros [= <- <-]. simpl. eexists _, _, _. split; [reflexivity|].
    split; [exact Hins|]. exists []. rewrite app_nil_r. reflexivity.
Qed.

Lemma createCalendarEvent_calls_grow E uid gid week w r w' :
  createCalendarEvent E uid gid week w = (r, w') ->
  exists suffix, calls w' = (calls w ++ suffix)%list.
Proof.
  unfold createCalendarEvent. run_js.
  destruct (find_user uid (data w)) as [u|];
    [|intros [= _ <-]; exists []; rewrite app_nil_r; reflexivity].
  destruct (googleTokens u) as [tk|];
    [|intros [= _ <-]; exists []; rewrite app_nil_r; reflexivity].
  destruct (find_group gid (data w)) as [g|];
    [|intros [= _ <-]; exists []; rewrite app_nil_r; reflexivity].
  unfold refresh_if_expired, calendar_insert.
  destruct (Date_now E (calls w) >=? expiry_date tk).
  - destruct (refreshAccessToken E (calls w) tk) as [c|];
      [|intros [= _ <-]; simpl; eexists; reflexivity].
    run_js. rewrite saveData_cases. simpl.
    destruct (writeFile E _ _);
      [|intros [= _ <-]; simpl; eexists; rewrite <- app_assoc; reflexivity].
    destruct (events_insert E _ _ _); intros [= _ <-]; simpl;
      eexists; rewrite <- !app_assoc; reflexivity.
  - destruct (events_insert E _ _ _); intros [= _ <-]; simpl;
      eexists; reflexivity.
Qed.

Lemma event_created_grows E r h suffix :
  event_created E r h -> event_created E r (h ++ suffix).
Proof.
  intros (h0 & creds & ev & rest & -> & Hins).
  exists h0, creds, ev, (rest ++ suffix)%list. split; [|exact Hins].
  rewrite <- app_assoc. reflexivity.
Qed.

Section Batch.

Variables (E : Env) (gid startDate : string).

(** The ways one pass of the loop can end. *)
Lemma schedule_one_cases i w r w' :
  schedule_one E gid startDate i w = (r, w') ->
  (addWeeks E startDate i = None /\ r = Throw RangeError /\ w' = w)
  \/ exists target,
       addWeeks E startDate i = Some target
       /\ ((exists e d', getNextRotationAssignment gid target (data w) = (Throw e, d')
                         /\ r = Throw e /\ w' = w)
           \/ exists a c,
                getNextRotationAssignment gid target (data w)
                = (Ok a, write_currentIndex gid c (data w))
                /\ let w1 := set_data (write_currentIndex gid c (data w)) w in
                   (exists e,
                      createCalendarEvent E (a_userId a) gid target w1 = (Throw e, w')
                      /\ r = Throw e)
                   \/ exists eventId w2,
                        createCalendarEvent E (a_userId a) gid target w1
                        = (Ok eventId, w2)
                        /\ let rotation :=
                             mkRotation (generateId E "rotation" (calls w2)) gid
                                        (a_userId a) target eventId scheduled
                                        (toISOString_now E (calls w2)) None in
                           r = Ok rotation
                           /\ w' = set_data (set_rotations
                                               (rotations (data w2) ++ [rotation])
                                               (data w2)) w2).
Proof.
  unfold schedule_one. unfold bind at 1.
  destruct (addWeeks E startDate i) as [target|];
    [|unfold throw; intros [= <- <-]; left; repeat split].
  unfold ret at 1. unfold bind at 1, lift_data.
  intros Hrun. right. exists target. split; [reflexivity|].
  destruct (getNextRotationAssignment gid target (data w)) as [[a|e] d1] eqn:Hsel.
  - right. destruct (selector_Ok_writes _ _ _ _ _ Hsel) as [c ->].
    exists a, c. split; [reflexivity|]. cbv zeta.
    unfold bind at 1 in Hrun.
    destruct (createCalendarEvent E (a_userId a) gid target _) as [[id|e] w2].
    + right. exists id, w2. split; [reflexivity|].
      revert Hrun. run_js. intros [= <- <-]. split; reflexivity.
    + left. injection Hrun as <- <-. exists e. split; reflexivity.
  - left. pose proof (selector_throw_keeps_store _ _ _ _ _ Hsel) as ->.
    injection Hrun as <- <-. exists e, (data w).
    split; [reflexivity|]. split; [reflexivity|]. destruct w; reflexivity.
Qed.

(** What a pass that succeeds leaves behind. *)
Lemma schedule_one_Ok i w r w' :
  schedule_one E gid startDate i w = (Ok r, w') ->
  rotations (data w') = (rotations (data w) ++ [r])%list
  /\ groupId r = gid /\ status r = scheduled
  /\ addWeeks E startDate i = Some (weekStartDate r)
  /\ event_created E r (calls w')
  /\ (exists suffix, calls w' = (calls w ++ suffix)%list)
  /\ exists c, groups (data w') = groups (write_currentIndex gid c (data w)).
Proof.
  intros Hrun. destruct (schedule_one_cases _ _ _ _ Hrun)
    as [(_ & [=] & _)|(target & Hweek & [(e & d' & _ & [=] & _)|(a & c & Hsel & Hrest)])].
  cbv zeta in Hrest.
  destruct Hrest as [(e & _ & [=])|(id & w2 & Hcreate & [= ->] & ->)].
  pose proof (createCalendarEvent_frame_fields _ _ _ _ _ _ _ Hcreate)
    as (Hgroups & _ & Hrots).
  destruct (createCalendarEvent_Ok_inserted _ _ _ _ _ _ _ Hcreate)
    as (creds & ev & h & Hcalls & Hins & suffix & Hh).
  simpl in *. rewrite Hrots. repeat split; try assumption.
  - exists h, creds, ev, []. split; assumption.
  - eexists. rewrite Hcalls, Hh, <- app_assoc. reflexivity.
  - exists c. exact Hgroups.
Qed.

Lemma schedule_one_calls_grow i w r w' :
  schedule_one E gid startDate i w = (r, w') ->
  exists suffix, calls w' = (calls w ++ suffix)%list.
Proof.
  intros Hrun. destruct (schedule_one_cases _ _ _ _ Hrun)
    as [(_ & _ & ->)|(target & _ & [(e & d' & _ & _ & ->)|(a & c & _ & Hrest)])];
    try (exists []; rewrite app_nil_r; reflexivity).
  cbv zeta in Hrest.
  destruct Hrest as [(e & Hcreate & _)|(id & w2 & Hcreate & _ & ->)];
    apply createCalendarEvent_calls_grow in Hcreate; exact Hcreate.
Qed.

Lemma schedule_loop_app a : forall b i w,
  schedule_loop E gid startDate i (a + b) w
  = match schedule_loop E gid startDate i a w with
    | (Ok rs, wa) =>
        match schedule_loop E gid startDate (i + a) b wa with
        | (Ok rs', wb) => (Ok (rs ++ rs')%list, wb)
        | (Throw e, wb) => (Throw e, wb)
        end
    | (Throw e, wa) => (Throw e, wa)
    end.
Proof.
  induction a as [|a IH]; intros b i w.
  - simpl. unfold ret. rewrite Nat.add_0_r.
    destruct (schedule_loop E gid startDate i b w) as [[rs'|e] wb]; reflexivity.
  - change (S a + b)%nat with (S (a + b)). simpl. unfold bind at 1 3.
    destruct (schedule_one E gid startDate i w) as [[r|e] w1]; [|reflexivity].
    unfold bind, ret. rewrite IH.
    destruct (schedule_loop E gid startDate (S i) a w1) as [[rs|e] wa];
      [|reflexivity].
    replace (i + S a)%nat with (S i + a)%nat by lia.
    destruct (schedule_loop E gid startDate (S i + a) b wa) as [[rs'|e] wb];
      reflexivity.
Qed.

(** What a run of passes that all succeed leaves behind. *)
Lemma schedule_loop_Ok count : forall i w rs w',
  schedule_loop E gid startDate i count w = (Ok rs, w') ->
  length rs = count
  /\ rotations (data w') = (rotations (data w) ++ rs)%list
  /\ Forall (fun r => groupId r = gid /\ status r = scheduled
                      /\ event_created E r (calls w')) rs
  /\ (exists suffix, calls w' = (calls w ++ suffix)%list)
  /\ ((count = 0%nat /\ w' = w)
      \/ exists c, groups (data w') = groups (write_currentIndex gid c (data w))).
Proof.
  induction count as [|count IH]; intros i w rs w'; simpl.
  - unfold ret. intros [= <- <-]. rewrite app_nil_r.
    repeat split; [constructor | exists []; rewrite app_nil_r; reflexivity | left; auto].
  - unfold bind at 1.
    destruct (schedule_one E gid startDate i w) as [[r|e] w1] eqn:Hone;
      [|discriminate].
    unfold bind at 1.
    destruct (schedule_loop E gid startDate (S i) count w1) as [[rest|e] w2]
      eqn:Hloop; [|discriminate].
    unfold ret. intros [= <- <-].
    destruct (schedule_one_Ok _ _ _ _ Hone)
      as (Hrots1 & Hgid & Hstatus & _ & Hev & (s1 & Hcalls1) & (c1 & Hgroups1)).
    destruct (IH _ _ _ _ Hloop)
      as (Hlen & Hrots & Hall & (s2 & Hcalls2) & Hgroups).
    split; [simpl; lia|].
    split; [rewrite Hrots, Hrots1, <- app_assoc; reflexivity|].
    split; [|split].
    + constructor; [|exact Hall]. repeat split; try assumption.
      rewrite Hcalls2. apply event_created_grows. exact Hev.
    + exists (s1 ++ s2)%list. rewrite Hcalls2, Hcalls1, app_assoc. reflexivity.
    + right. destruct Hgroups as [(_ & ->)|(c2 & Hgroups2)].
      * exists c1. exact Hgroups1.
      * exists c2. rewrite Hgroups2.
        rewrite (groups_write_currentIndex gid c2 (write_currentIndex gid c1 (data w)) (data w1))
          by exact Hgroups1.
        rewrite write_currentIndex_twice. reflexivity.
Qed.

End Batch.

(** ** Claim about the scheduling batch *)

(** C3. Let passes [0 .. i-1] of a batch succeed and pass [i] throw.  The
    request answers with that error and its final state is the state at
    the throw: the [i] rotations of the earlier passes are in the store,
    their events were inserted in the calendar, the cursor is the one the
    selector last wrote -- nothing is rolled back and no later pass runs.
    If pass [i] failed in the selector (or in computing its date), the
    final state is exactly the state after pass [i-1]: the failing pass
    changed nothing and called nothing.  If it failed in the calendar, the
    selector of pass [i] had already advanced the cursor, and no rotation
    was added for it. *)
Theorem C3_batch_is_not_transactional (E : Env) (gid : string)
    (numWeeks_req : Z) (weekStartDate_req : option string)
    (w wi w' : World) (i : nat) (rs : list Rotation) (e : error) :
  let numWeeks := resolved_numWeeks numWeeks_req in
  let startDate := resolved_startDate E weekStartDate_req w in
  (i < numWeeks)%nat ->
  schedule_loop E gid startDate 0 i w = (Ok rs, wi) ->
  schedule_one E gid startDate i wi = (Throw e, w') ->
  post_trigger E gid numWeeks_req weekStartDate_req w = (Status500 e, w')
  /\ (length rs = i
      /\ rotations (data w') = (rotations (data w) ++ rs)%list
      /\ Forall (fun r => groupId r = gid /\ status r = scheduled
                          /\ event_created E r (calls w')) rs
      /\ ((i = 0%nat /\ wi = w)
          \/ exists c, groups (data wi) = groups (write_currentIndex gid c (data w))))
  /\ ((w' = wi
       /\ (addWeeks E startDate i = None
           \/ exists target d',
                addWeeks E startDate i = Some target
                /\ getNextRotationAssignment gid target (data wi) = (Throw e, d')))
      \/ exists target a c,
           addWeeks E startDate i = Some target
           /\ getNextRotationAssignment gid target (data wi)
              = (Ok a, write_currentIndex gid c (data wi))
           /\ createCalendarEvent E (a_userId a) gid target
                (set_data (write_currentIndex gid c (data wi)) wi) = (Throw e, w')
           /\ groups (data w') = groups (write_currentIndex gid c (data wi))
           /\ rotations (data w') = rotations (data wi))
  /\ (forall target e0 d',
        addWeeks E startDate i = Some target ->
        getNextRotationAssignment gid target (data wi) = (Throw e0, d') ->
        e = e0 /\ w' = wi).
Proof.
  intros numWeeks startDate Hi Hprefix Hfail.
  destruct (schedule_loop_Ok E gid startDate i 0%nat w rs wi Hprefix)
    as (Hlen & Hrots & Hall & _ & Hgroups).
  destruct (schedule_one_calls_grow E gid startDate i wi _ _ Hfail)
    as (suffix & Hcalls).
  assert (Hcases := schedule_one_cases E gid startDate i wi _ _ Hfail).
  assert (Hrots' : rotations (data w') = rotations (data wi)).
  { destruct Hcases
      as [(_ & _ & ->)|(target & _ & [(e0 & d' & _ & _ & ->)|(a & c & _ & Hrest)])];
      try reflexivity.
    cbv zeta in Hrest. destruct Hrest as [(e0 & Hcreate & _)|(id & w2 & _ & [=] & _)].
    apply createCalendarEvent_frame_fields in Hcreate.
    destruct Hcreate as (_ & _ & ->). reflexivity. }
  split; [|split; [|split]].
  - unfold post_trigger, handle. run_js.
    fold (resolved_numWeeks numWeeks_req). fold numWeeks.
    change (match weekStartDate_req with
            | Some s => if truthy s then s else getWeekStartDate E (calls w)
            | None => getWeekStartDate E (calls w)
            end) with startDate.
    replace numWeeks with (i + S (numWeeks - S i))%nat by lia.
    rewrite schedule_loop_app, Hprefix. simpl. unfold bind at 1.
    rewrite Hfail. reflexivity.
  - split; [exact Hlen|]. split; [congruence|]. split; [|exact Hgroups].
    eapply Forall_impl; [exact Hall|].
    intros r (Hg & Hs & Hev). repeat split; try assumption.
    rewrite Hcalls. apply event_created_grows. exact Hev.
  - destruct Hcases
      as [(Hweek & _ & ->)|(target & Hweek & [(e0 & d' & Hsel & [= ->] & ->)|(a & c & Hsel & Hrest)])].
    + left. split; [reflexivity | left; exact Hweek].
    + left. split; [reflexivity|]. right. exists target, d'. split; assumption.
    + right. cbv zeta in Hrest.
      destruct Hrest as [(e0 & Hcreate & [= ->])|(id & w2 & _ & [=] & _)].
      exists target, a, c. repeat split; try assumption.
      apply createCalendarEvent_frame_fields in Hcreate.
      destruct Hcreate as (-> & _). reflexivity.
  - intros target e0 d' Hweek Hsel.
    destruct Hcases
      as [(Hnone & _)|(target' & Hweek' & [(e1 & d1 & Hsel' & [= ->] & ->)|(a & c & Hsel' & _)])];
      [congruence| |].
    + rewrite Hweek in Hweek'. injection Hweek' as <-.
      rewrite Hsel in Hsel'. injection Hsel' as <- _. split; reflexivity.
    + rewrite Hweek in Hweek'. injection Hweek' as <-. congruence.
Qed.

(** Three weeks are asked for v1 and v3 and the calendar rejects the
    third insertion: the request fails, the rotations of the first two
    weeks stay, and the cursor has been advanced three times. *)
Lemma C3_witness :
  let E := Scenario.host Scenario.feb10_noon Scenario.two_inserts_only
                         Scenario.always Scenario.always in
  let w := Scenario.start_of (Scenario.store 0 []) in
  let out := post_trigger E "g1" 3 (Some "2026-02-16") w in
  fst out = Status500 InsertFailed
  /\ map (fun r => (assignedUserId r, weekStartDate r)) (rotations (data (snd out)))
     = [("v1", "2026-02-16"); ("v3", "2026-02-23")]
  /\ map currentIndex (groups (data (snd out))) = [1].
Proof.
  intros E w out.
  pose (prefix := schedule_loop E "g1" "2026-02-16" 0 2 w).
  destruct (C3_batch_is_not_transactional E "g1" 3 (Some "2026-02-16") w
              (snd prefix) (snd out) 2
              (match fst prefix with Ok rs => rs | Throw _ => [] end)
              InsertFailed)
    as (Hrun & (_ & Hrots & _) & _).
  - vm_compute. lia.
  - vm_compute. reflexivity.
  - vm_compute. reflexivity.
  - split; [unfold out; rewrite Hrun; reflexivity|].
    split; [rewrite Hrots|]; vm_compute; reflexivity.
Defined.

(** * Further properties of the server *)

(** ** The selector assigns eligible members only *)

Lemma array_get_In {A} (arr : list A) (i : Z) (x : A) :
  array_get arr i = Some x -> In x arr.
Proof.
  unfold array_get. destruct (i <? 0); [discriminate|].
  intros H. apply list_elem_of_In. eapply list_elem_of_lookup_2. exact H.
Qed.

Lemma scan_Found_eligible sorted skips gid target remaining : forall idx uid i,
  scan sorted skips gid target remaining idx = Found uid i ->
  exists m, In m sorted /\ uid = userId m
            /\ hasSkip skips uid gid target = false.
Proof.
  induction remaining as [|r IH]; intros idx uid i; simpl; [discriminate|].
  destruct (array_get sorted _) as [c|] eqn:Hc; [|discriminate].
  destruct (hasSkip skips (userId c) gid target) eqn:Hs.
  - apply IH.
  - intros [= <- <-]. exists c. split; [eapply array_get_In; exact Hc | auto].
Qed.

(** X1. Whenever the selector returns an assignment, whatever the store
    and the cursor, the assignee is a member of the group, has a non-empty
    id and no skip week for the target week, the assignment is for the
    target week, and the store differs from the one before by the cursor
    of that group only. *)
Theorem selector_assigns_eligible_member (gid target : string) (d d' : Data)
    (a : Assignment) :
  getNextRotationAssignment gid target d = (Ok a, d') ->
  exists g m c,
    find_group gid d = Some g
    /\ In m (members g) /\ a_userId a = userId m /\ a_userId a <> ""
    /\ hasSkip (skipWeeks d) (a_userId a) gid target = false
    /\ a_weekStartDate a = target
    /\ d' = write_currentIndex gid c d.
Proof.
  unfold getNextRotationAssignment. run_js.
  destruct (find_group gid d) as [g|]; [|discriminate].
  destruct (Nat.eqb _ 0); [discriminate|].
  destruct (scan _ _ _ _ _ _) as [uid idx| |] eqn:Hscan; try discriminate.
  destruct (truthy uid) eqn:Ht; [|discriminate].
  intros [= <- <-]. simpl.
  destruct (scan_Found_eligible _ _ _ _ _ _ _ _ Hscan) as (m & Hin & -> & Hfree).
  exists g, m, (Z.rem (js_add idx 1) (Z.of_nat (length (sortedMembers (members g))))).
  repeat split; try assumption; try reflexivity.
  - apply (Permutation_in m (sortedMembers_perm (members g))). exact Hin.
  - intros Hempty. rewrite Hempty in Ht. discriminate.
Qed.

Lemma selector_assigns_eligible_member_witness :
  exists g m c,
    find_group "g1" (Scenario.abc_data 1 [Scenario.skip_B]) = Some g
    /\ In m (members g) /\ "C" = userId m /\ "C" <> ""
    /\ hasSkip [Scenario.skip_B] "C" "g1" "2026-02-16" = false
    /\ "2026-02-16" = "2026-02-16"
    /\ Scenario.abc_data 0 [Scenario.skip_B]
       = write_currentIndex "g1" c (Scenario.abc_data 1 [Scenario.skip_B]).
Proof.
  apply (selector_assigns_eligible_member "g1" "2026-02-16"
           (Scenario.abc_data 1 [Scenario.skip_B])
           (Scenario.abc_data 0 [Scenario.skip_B])
           (mkAssignment "C" "2026-02-16")).
  reflexivity.
Defined.

(** ** The sort is stable *)

Lemma insert_member_stable (k : Z) (a : Member) (l : list Member) :
  List.filter (fun m => orderPosition m =? k) (insert_member a l)
  = List.filter (fun m => orderPosition m =? k) (a :: l).
Proof.
  induction l as [|b l IH]; [reflexivity|].
  simpl insert_member.
  destruct (orderPosition a <=? orderPosition b) eqn:Hab; [reflexivity|].
  apply Z.leb_gt in Hab.
  change (List.filter (fun m => orderPosition m =? k) (b :: insert_member a l))
    with (if orderPosition b =? k
          then b :: List.filter (fun m => orderPosition m =? k) (insert_member a l)
          else List.filter (fun m => orderPosition m =? k) (insert_member a l)).
  rewrite IH. simpl.
  destruct (Z.eqb_spec (orderPosition a) k) as [Ha|Ha];
    destruct (Z.eqb_spec (orderPosition b) k) as [Hb|Hb]; try reflexivity.
  lia.
Qed.

Lemma insert_member_sorted_head (a : Member) (l : list Member) :
  Forall (by_orderPosition a) l -> insert_member a l = a :: l.
Proof.
  destruct l as [|b l]; [reflexivity|].
  intros Hall. inversion Hall as [|? ? Hab _]; subst. simpl.
  unfold by_orderPosition in Hab.
  destruct (Z.leb_spec (orderPosition a) (orderPosition b)); [reflexivity | lia].
Qed.

(** X2. The sort keeps members with equal [orderPosition] in the order in
    which they stand in [group.members], and it returns a list that is
    already in ascending order as it is. *)
Theorem sortedMembers_stable (ms : list Member) :
  (forall k : Z,
     List.filter (fun m => orderPosition m =? k) (sortedMembers ms)
     = List.filter (fun m => orderPosition m =? k) ms)
  /\ (StronglySorted by_orderPosition ms -> sortedMembers ms = ms).
Proof.
  split.
  - intros k. induction ms as [|a ms IH]; [reflexivity|].
    simpl sortedMembers. rewrite insert_member_stable. simpl. rewrite IH.
    reflexivity.
  - induction 1 as [|a ms Hs IH Ha]; [reflexivity|].
    simpl. rewrite IH. apply insert_member_sorted_head. exact Ha.
Qed.

Lemma sortedMembers_stable_witness :
  sortedMembers [mkMember "A" 0; mkMember "B" 1; mkMember "C" 1]
  = [mkMember "A" 0; mkMember "B" 1; mkMember "C" 1].
Proof.
  apply (sortedMembers_stable [mkMember "A" 0; mkMember "B" 1; mkMember "C" 1]).
  repeat constructor; unfold by_orderPosition; simpl; lia.
Defined.

(** ** Membership *)

Lemma selector_Ok_member_no_skip gid target d a d' :
  getNextRotationAssignment gid target d = (Ok a, d') ->
  exists g m, find_group gid d = Some g /\ In m (members g)
              /\ a_userId a = userId m
              /\ hasSkip (skipWeeks d) (a_userId a) gid target = false.
Proof.
  unfold getNextRotationAssignment. run_js.
  destruct (find_group gid d) as [g|]; [|discriminate].
  destruct (Nat.eqb _ 0); [discriminate|].
  destruct (scan _ _ _ _ _ _) as [uid idx| |] eqn:Hscan; try discriminate.
  destruct (truthy uid); [|discriminate].
  intros [= <- <-]. simpl.
  destruct (scan_Found_eligible _ _ _ _ _ _ _ _ Hscan) as (m & Hin & -> & Hfree).
  exists g, m. repeat split; try assumption.
  apply (Permutation_in m (sortedMembers_perm (members g))). exact Hin.
Qed.

Lemma Forall_update_first {A} (P : A -> Prop) (p : A -> bool) (f : A -> A)
    (l : list A) :
  Forall P l ->
  (forall x, List.find p l = Some x -> P (f x)) ->
  Forall P (update_first p f l).
Proof.
  induction 1 as [|x l Hx Hl IH]; simpl; intros Hf; [constructor|].
  destruct (p x) eqn:Hpx.
  - constructor; [apply Hf; reflexivity | exact Hl].
  - constructor; [exact Hx | apply IH; exact Hf].
Qed.

Lemma map_update_first {A B} (k : A -> B) (p : A -> bool) (f : A -> A)
    (l : list A) :
  (forall x, k (f x) = k x) -> map k (update_first p f l) = map k l.
Proof.
  intros Hk. induction l as [|x l IH]; simpl; [reflexivity|].
  destruct (p x); simpl; [rewrite Hk | rewrite IH]; reflexivity.
Qed.

Lemma is_member_In uid g :
  is_member uid g = true <-> In uid (map userId (members g)).
Proof.
  unfold is_member. rewrite existsb_exists, in_map_iff. split.
  - intros (m & Hin & Heq). apply String.eqb_eq in Heq. eauto.
  - intros (m & Heq & Hin). exists m. split; [exact Hin|].
    apply String.eqb_eq. exact Heq.
Qed.

Lemma post_members_unfold (E : Env) gid uid w :
  post_members E gid uid w
  = match find_group gid (data w) with
    | None => (Answered (Failure 404 "Group not found"), w)
    | Some g =>
        if is_member uid g
        then (Answered (Failure 400 "User already in group"), w)
        else
          let d' := set_groups
                      (update_first (fun g => String.eqb (group_id g) gid)
                                    (push_member uid) (groups (data w)))
                      (data w) in
          (if writeFile E (calls w) d'
           then Answered (Success (push_member uid g))
           else Rejected WriteFailed,
           mkWorld d' (calls w ++ [CallWrite d']))
    end.
Proof.
  unfold post_members, unguarded. run_js.
  destruct (find_group gid (data w)) as [g|]; [|reflexivity].
  destruct (is_member uid g); [reflexivity|].
  rewrite saveData_cases. simpl. destruct (writeFile E _ _); reflexivity.
Qed.

(** X3. Adding a member answers 404 for an unknown group and 400 for a
    user who is already in the group, in both cases without touching the
    store or calling anything, and it answers with an error in no other
    case.  Otherwise the group found under that id becomes the same group
    with the user appended to its members at [orderPosition] = the old
    number of members; every other group, the users, the skip weeks and
    the rotations are as before; the store is written, and the answer is
    the new group, unless the write is rejected, in which case nothing is
    answered.  Hence a store in which no user is twice in a group stays
    so. *)
Theorem post_members_keeps_members_unique (E : Env) (gid uid : string)
    (w w' : World) (out : outcome Group) :
  post_members E gid uid w = (out, w') ->
  (find_group gid (data w) = None ->
     out = Answered (Failure 404 "Group not found") /\ w' = w)
  /\ (forall g, find_group gid (data w) = Some g -> is_member uid g = true ->
        out = Answered (Failure 400 "User already in group") /\ w' = w)
  /\ (forall g, find_group gid (data w) = Some g -> is_member uid g = false ->
        let g' := mkGroup (group_id g) (group_name g) (group_description g)
                          (members g
                             ++ [mkMember uid (Z.of_nat (length (members g)))])
                          (schedule g) (currentIndex g) (isActive g) in
        (exists i : nat,
           groups (data w) !! i = Some g
           /\ groups (data w') = <[i := g']> (groups (data w)))
        /\ find_group gid (data w') = Some g'
        /\ is_member uid g' = true
        /\ users (data w') = users (data w)
        /\ skipWeeks (data w') = skipWeeks (data w)
        /\ rotations (data w') = rotations (data w)
        /\ calls w' = (calls w ++ [CallWrite (data w')])%list
        /\ out = (if writeFile E (calls w) (data w')
                  then Answered (Success g') else Rejected WriteFailed))
  /\ (forall code msg, out = Answered (Failure code msg) ->
        w' = w
        /\ ((code = 404 /\ find_group gid (data w) = None)
            \/ (code = 400 /\ exists g, find_group gid (data w) = Some g
                                        /\ is_member uid g = true)))
  /\ (members_unique (data w) -> members_unique (data w')).
Proof.
  rewrite post_members_unfold.
  destruct (find_group gid (data w)) as [g|] eqn:Hg.
  2:{ intros [= <- <-].
      split; [auto|]. split; [intros; discriminate|]. split; [intros; discriminate|].
      split; [|auto].
      intros code msg [= <- <-]. split; [reflexivity | left; auto]. }
  destruct (is_member uid g) eqn:Hmem.
  { intros [= <- <-].
    split; [intros; discriminate|].
    split; [intros g0 [= <-] _; auto|].
    split; [intros g0 [= <-] Hno; congruence|]. split; [|auto].
    intros code msg [= <- <-]. split; [reflexivity|]. right. eauto. }
  cbv zeta. intros [= <- <-].
  split; [intros; discriminate|].
  split; [intros g0 [= <-] Hyes; congruence|].
  split; [|split].
  - intros g0 [= <-] _. simpl.
    split.
    { unfold find_group in Hg.
      destruct (update_first_insert (fun g0 => String.eqb (group_id g0) gid)
                  (push_member uid) _ _ Hg) as (i & Hi & Hupd).
      exists i. split; [exact Hi | exact Hupd]. }
    split.
    { unfold find_group in *. simpl. rewrite find_update_first, Hg by auto.
      reflexivity. }
    split.
    { apply is_member_In. simpl. rewrite map_app, in_app_iff. simpl. auto. }
    repeat (split; [reflexivity|]).
    destruct (writeFile E _ _); reflexivity.
  - intros code msg. destruct (writeFile E _ _); discriminate.
  - unfold members_unique. simpl. intros Huniq.
    apply Forall_update_first; [exact Huniq|].
    intros x Hx. unfold find_group in Hg. rewrite Hg in Hx. injection Hx as <-.
    simpl. rewrite map_app. simpl.
    apply NoDup_app.
    assert (Hg_in : In g (groups (data w))) by (apply find_some in Hg; tauto).
    rewrite Forall_forall in Huniq.
    specialize (Huniq g ltac:(apply list_elem_of_In; exact Hg_in)).
    split; [exact Huniq|]. split.
    + intros u Hu [Heq|[]]%list_elem_of_In. subst u.
      apply list_elem_of_In in Hu. apply is_member_In in Hu. congruence.
    + apply NoDup_singleton.
Qed.

Lemma post_members_keeps_members_unique_witness :
  let E := Scenario.host Scenario.feb10_noon Scenario.always Scenario.always
                         Scenario.always in
  let w := Scenario.start_of (Scenario.store 0 []) in
  (fst (post_members E "g1" "v1" w)
   = Answered (Failure 400 "User already in group")
   /\ snd (post_members E "g1" "v1" w) = w)
  /\ members_unique (data (snd (post_members E "g1" "v9" w))).
Proof.
  intros E w. split.
  - refine (proj1 (proj2 (post_members_keeps_members_unique E "g1" "v1" w _ _ _))
                  (Scenario.g1 0) _ _).
    + apply surjective_pairing.
    + reflexivity.
    + reflexivity.
  - refine (proj2 (proj2 (proj2 (proj2
              (post_members_keeps_members_unique E "g1" "v9" w _ _ _)))) _).
    + apply surjective_pairing.
    + unfold members_unique. simpl. apply Forall_cons_2; [|apply Forall_nil_2].
      repeat (apply NoDup_cons_2;
              [intros H; apply list_elem_of_In in H; simpl in H;
               intuition discriminate|]).
      apply NoDup_nil_2.
Defined.

Lemma sortedMembers_of_sorted (ms : list Member) :
  StronglySorted by_orderPosition ms -> sortedMembers ms = ms.
Proof.
  induction 1 as [|a ms Hs IH Ha]; [reflexivity|].
  simpl. rewrite IH. apply insert_member_sorted_head. exact Ha.
Qed.

Lemma indexed_positions_sorted (ms : list Member) : forall off : Z,
  (forall (i : nat) m, ms !! i = Some m -> orderPosition m = off + Z.of_nat i) ->
  StronglySorted by_orderPosition ms.
Proof.
  induction ms as [|a ms IH]; intros off Hpos; constructor.
  - apply (IH (off + 1)). intros i m Hm.
    rewrite (Hpos (S i) m Hm). lia.
  - apply Forall_forall. intros m Hin.
    apply list_elem_of_lookup_1 in Hin. destruct Hin as [i Hi].
    unfold by_orderPosition.
    rewrite (Hpos O a eq_refl), (Hpos (S i) m Hi). lia.
Qed.

(** X4. In a group where every member's [orderPosition] is its index --
    a new group, or one that has only gained members -- the rotation order
    is the order of joining, and adding a member keeps it so: the new
    member comes last in the rotation. *)
Theorem joining_order_is_rotation_order (E : Env) (gid uid : string)
    (w w' : World) (g g' : Group) :
  find_group gid (data w) = Some g ->
  positions_are_indices g ->
  post_members E gid uid w = (Answered (Success g'), w') ->
  sortedMembers (members g) = members g
  /\ positions_are_indices g'
  /\ sortedMembers (members g')
     = (members g ++ [mkMember uid (Z.of_nat (length (members g)))])%list
  /\ find_group gid (data w') = Some g'.
Proof.
  intros Hg Hpos. rewrite post_members_unfold, Hg.
  destruct (is_member uid g); [discriminate|]. cbv zeta.
  destruct (writeFile E _ _); [|discriminate]. intros [= <- <-].
  assert (Hpos' : positions_are_indices (push_member uid g)).
  { intros i m. simpl. intros Hm.
    apply lookup_app_Some in Hm. destruct Hm as [Hm|[Hge Hm]].
    - apply Hpos. exact Hm.
    - destruct (i - length (members g))%nat as [|k] eqn:Hk; [|discriminate].
      injection Hm as <-. simpl. f_equal. lia. }
  split; [|split; [exact Hpos'|split]].
  - apply sortedMembers_of_sorted. apply (indexed_positions_sorted _ 0).
    intros i m Hm. rewrite (Hpos i m Hm). lia.
  - change (members g ++ [mkMember uid (Z.of_nat (length (members g)))])%list
      with (members (push_member uid g)).
    apply sortedMembers_of_sorted. apply (indexed_positions_sorted _ 0).
    intros i m Hm. rewrite (Hpos' i m Hm). lia.
  - unfold find_group in *. simpl. rewrite find_update_first, Hg by auto.
    reflexivity.
Qed.

Lemma joining_order_is_rotation_order_witness :
  let E := Scenario.host Scenario.feb10_noon Scenario.always Scenario.always
                         Scenario.always in
  let w := Scenario.start_of (Scenario.store 0 []) in
  sortedMembers (members (push_member "v9" (Scenario.g1 0)))
  = [mkMember "v1" 0; mkMember "v3" 1; mkMember "v9" 2].
Proof.
  intros E w.
  refine (proj1 (proj2 (proj2
            (joining_order_is_rotation_order E "g1" "v9" w
               (snd (post_members E "g1" "v9" w)) (Scenario.g1 0)
               (push_member "v9" (Scenario.g1 0)) _ _ _)))).
  - reflexivity.
  - intros [|[|i]] m; simpl; intros [= <-]; reflexivity.
  - vm_compute. reflexivity.
Defined.

(** ** Removing a member *)

Lemma find_group_set_rotations gid rs d :
  find_group gid (set_rotations rs d) = find_group gid d.
Proof. reflexivity. Qed.

(** X5. Once a member has been removed from an existing group, whatever
    the calendar and the disk answered, the group is the one before
    without that user -- same cursor, same schedule, the other members in
    their order -- the other groups, the users and the skip weeks are
    untouched, and the selector never assigns that user in that group
    again. *)
Theorem removed_member_is_never_assigned (E : Env) (gid uid : string)
    (w w' : World) (g : Group) (resp : response string) :
  find_group gid (data w) = Some g ->
  delete_member E gid uid w = (resp, w') ->
  find_group gid (data w')
  = Some (set_members
            (List.filter (fun m => negb (String.eqb (userId m) uid)) (members g)) g)
  /\ groups (data w')
     = update_first (fun g => String.eqb (group_id g) gid)
         (fun g => set_members
            (List.filter (fun m => negb (String.eqb (userId m) uid)) (members g)) g)
         (groups (data w))
  /\ users (data w') = users (data w)
  /\ skipWeeks (data w') = skipWeeks (data w)
  /\ (forall target a d'',
        getNextRotationAssignment gid target (data w') = (Ok a, d'') ->
        a_userId a <> uid).
Proof.
  intros Hg Hrun.
  destruct (delete_member_unfold E gid uid w g Hg) as (w1 & Hdata1 & Hrun').
  cbv zeta in Hrun'. rewrite Hrun in Hrun'. injection Hrun' as _ ->.
  simpl. rewrite Hdata1. simpl.
  assert (Hfind : find_group gid
            (set_rotations
               (List.filter (fun r => negb (future_of E gid uid (calls w1) r))
                            (rotations (data w)))
               (set_groups
                  (update_first (fun g0 => String.eqb (group_id g0) gid)
                     (fun g0 => set_members
                        (List.filter (fun m => negb (String.eqb (userId m) uid))
                                     (members g0)) g0)
                     (groups (data w))) (data w)))
          = Some (set_members
                    (List.filter (fun m => negb (String.eqb (userId m) uid))
                                 (members g)) g)).
  { unfold find_group in *. simpl. rewrite find_update_first, Hg by auto.
    reflexivity. }
  split; [exact Hfind|]. repeat split.
  intros target a d'' Hsel.
  destruct (selector_Ok_member_no_skip _ _ _ _ _ Hsel)
    as (g' & m & Hg' & Hin & Hid & _).
  rewrite Hfind in Hg'. injection Hg' as <-. simpl in Hin.
  apply filter_In in Hin. destruct Hin as [_ Hne].
  rewrite Hid. intros Heq. rewrite Heq, String.eqb_refl in Hne. discriminate.
Qed.

Lemma removed_member_is_never_assigned_witness :
  let E := Scenario.host Scenario.feb10_noon Scenario.always Scenario.always
                         Scenario.always in
  let w := Scenario.start_of (Scenario.store 0 []) in
  let w' := snd (delete_member E "g1" "v1" w) in
  map (fun g => (map userId (members g), currentIndex g)) (groups (data w'))
  = [(["v3"], 0)]
  /\ forall a d'',
       getNextRotationAssignment "g1" "2026-02-16" (data w') = (Ok a, d'') ->
       a_userId a <> "v1".
Proof.
  intros E w w'.
  destruct (removed_member_is_never_assigned E "g1" "v1" w w' (Scenario.g1 0)
              (fst (delete_member E "g1" "v1" w)))
    as (_ & Hgroups & _ & _ & Hnever).
  - reflexivity.
  - apply surjective_pairing.
  - split; [rewrite Hgroups; reflexivity | apply Hnever].
Defined.

(** ** Skip weeks *)

Lemma post_skip_unfold (E : Env) uid gid week reason w :
  post_skip E uid gid week reason w
  = match List.find (same_skip_key uid gid week) (skipWeeks (data w)) with
    | Some _ => (Answered (Failure 400 "Skip already exists"), w)
    | None =>
        let skip := mkSkipWeek uid gid week (or_default reason "") in
        let d' := set_skipWeeks (skipWeeks (data w) ++ [skip]) (data w) in
        (if writeFile E (calls w) d'
         then Answered (Success (mkSkipAnswer (generateId E "skip" (calls w)) skip
                                              (toISOString_now E (calls w))))
         else Rejected WriteFailed,
         mkWorld d' (calls w ++ [CallWrite d']))
    end.
Proof.
  unfold post_skip, unguarded. run_js.
  destruct (List.find _ _); [reflexivity|].
  rewrite saveData_cases. simpl. destruct (writeFile E _ _); reflexivity.
Qed.

Lemma hasSkip_find skips uid gid week :
  hasSkip skips uid gid week = true
  <-> exists s, List.find (same_skip_key uid gid week) skips = Some s.
Proof.
  unfold hasSkip. induction skips as [|s skips IH]; simpl.
  - split; [discriminate | intros [s [=]]].
  - change (String.eqb (skip_userId s) uid && String.eqb (skip_groupId s) gid
            && String.eqb (skip_weekStartDate s) week)
      with (same_skip_key uid gid week s).
    destruct (same_skip_key uid gid week s); simpl; [|exact IH].
    split; eauto.
Qed.

Lemma same_skip_key_spec uid gid week s :
  same_skip_key uid gid week s = true <-> skip_key s = (uid, gid, week).
Proof.
  unfold same_skip_key, skip_key. rewrite !andb_true_iff, !String.eqb_eq.
  split; [intros [[-> ->] ->]; reflexivity | intros [= -> -> ->]; auto].
Qed.

(** X6. Recording a skip week for a user, group and week that already has
    one answers 400 and leaves the store as it is, with no call; otherwise
    the skip is appended, with an empty reason when none is given.  Hence
    no two skip weeks ever share user, group and week. *)
Theorem post_skip_keeps_keys_unique (E : Env) (uid gid week : string)
    (reason : option string) (w w' : World) (out : outcome SkipAnswer) :
  post_skip E uid gid week reason w = (out, w') ->
  (hasSkip (skipWeeks (data w)) uid gid week = true ->
     out = Answered (Failure 400 "Skip already exists") /\ w' = w)
  /\ (hasSkip (skipWeeks (data w)) uid gid week = false ->
        skipWeeks (data w')
        = (skipWeeks (data w) ++ [mkSkipWeek uid gid week (or_default reason "")])%list
        /\ users (data w') = users (data w)
        /\ groups (data w') = groups (data w)
        /\ rotations (data w') = rotations (data w)
        /\ ((exists answer, out = Answered (Success answer)
                            /\ answered_skip answer
                               = mkSkipWeek uid gid week (or_default reason ""))
            \/ out = Rejected WriteFailed))
  /\ (skip_keys_unique (data w) -> skip_keys_unique (data w')).
Proof.
  rewrite post_skip_unfold.
  destruct (List.find _ _) as [s|] eqn:Hfind.
  - intros [= <- <-]. split; [intros _; split; reflexivity|].
    split; [|intros Huniq; exact Huniq].
    intros Hno. exfalso.
    assert (Hyes : hasSkip (skipWeeks (data w)) uid gid week = true)
      by (apply hasSkip_find; eauto).
    congruence.
  - cbv zeta. intros [= <- <-]. split; [|split].
    + intros Hyes. apply hasSkip_find in Hyes. destruct Hyes as [s Hs]. congruence.
    + intros _. simpl. repeat split.
      destruct (writeFile E _ _); [left; eexists; split; reflexivity | right; reflexivity].
    + unfold skip_keys_unique. simpl. rewrite map_app. simpl. intros Huniq.
      apply NoDup_app. split; [exact Huniq|]. split; [|apply NoDup_singleton].
      intros k Hk Hnew. apply list_elem_of_singleton in Hnew. subst k.
      apply list_elem_of_In, in_map_iff in Hk. destruct Hk as (s & Hkey & Hin).
      apply (find_none _ _ Hfind) in Hin.
      change (skip_key s = (uid, gid, week)) in Hkey.
      apply same_skip_key_spec in Hkey. congruence.
Qed.

Lemma post_skip_keeps_keys_unique_witness :
  let E := Scenario.host Scenario.feb10_noon Scenario.always Scenario.always
                         Scenario.always in
  let w := Scenario.start_of (Scenario.abc_data 1 [Scenario.skip_B]) in
  post_skip E "B" "g1" "2026-02-16" None w
  = (Answered (Failure 400 "Skip already exists"), w)
  /\ skip_keys_unique (data (snd (post_skip E "A" "g1" "2026-02-16" None w))).
Proof.
  intros E w. split.
  - destruct (post_skip E "B" "g1" "2026-02-16" None w) as [out w'] eqn:Hrun.
    destruct (proj1 (post_skip_keeps_keys_unique E "B" "g1" "2026-02-16" None
                       w w' out Hrun) eq_refl) as [-> ->].
    reflexivity.
  - refine (proj2 (proj2 (post_skip_keeps_keys_unique E "A" "g1" "2026-02-16" None
                            w _ _ _)) _).
    + apply surjective_pairing.
    + unfold skip_keys_unique. simpl. apply NoDup_singleton.
Defined.

(** X7. After a request to record a skip week, whatever its answer -- the
    skip was recorded, it existed already, or the write to disk was
    rejected -- the selector never assigns that user in that group for
    that week. *)
Theorem skipped_user_is_not_assigned (E : Env) (uid gid week : string)
    (reason : option string) (w w' : World) (out : outcome SkipAnswer) :
  post_skip E uid gid week reason w = (out, w') ->
  hasSkip (skipWeeks (data w')) uid gid week = true
  /\ forall a d'',
       getNextRotationAssignment gid week (data w') = (Ok a, d'') ->
       a_userId a <> uid.
Proof.
  intros Hrun.
  assert (Hskip : hasSkip (skipWeeks (data w')) uid gid week = true).
  { revert Hrun. rewrite post_skip_unfold.
    destruct (List.find _ _) as [s|] eqn:Hfind.
    - intros [= _ <-]. apply hasSkip_find. eauto.
    - cbv zeta. intros [= _ <-]. simpl. unfold hasSkip.
      rewrite existsb_app. simpl. rewrite !String.eqb_refl.
      apply orb_true_r. }
  split; [exact Hskip|].
  intros a d'' Hsel.
  destruct (selector_Ok_member_no_skip _ _ _ _ _ Hsel) as (g & m & _ & _ & _ & Hfree).
  intros Heq. rewrite Heq in Hfree. congruence.
Qed.

Lemma skipped_user_is_not_assigned_witness :
  let E := Scenario.host Scenario.feb10_noon Scenario.always Scenario.always
                         Scenario.never in
  let w := Scenario.start_of (Scenario.abc_data 0 []) in
  let w' := snd (post_skip E "A" "g1" "2026-02-16" None w) in
  fst (post_skip E "A" "g1" "2026-02-16" None w) = Rejected WriteFailed
  /\ hasSkip (skipWeeks (data w')) "A" "g1" "2026-02-16" = true.
Proof.
  intros E w w'. split; [vm_compute; reflexivity|].
  refine (proj1 (skipped_user_is_not_assigned E "A" "g1" "2026-02-16" None w w'
                   (fst (post_skip E "A" "g1" "2026-02-16" None w)) _)).
  apply surjective_pairing.
Defined.

(** ** New groups *)





Lemma resolved_numWeeks_pos (z : Z) :
  0 <= z -> exists k, resolved_numWeeks z = S k.
Proof.
  intros Hz. unfold resolved_numWeeks. destruct (Z.eqb_spec z 0) as [->|Hne].
  - exists 0%nat. reflexivity.
  - exists (Z.to_nat z - 1)%nat. lia.
Qed.

Lemma resolved_numWeeks_neg (z : Z) : z < 0 -> resolved_numWeeks z = 0%nat.
Proof.
  intros Hz. unfold resolved_numWeeks. destruct (Z.eqb_spec z 0); lia.
Qed.





(** ** Cancelling *)

(** X9. A cancellation that succeeds removes every rotation with that id
    and nothing else: the other rotations keep their order, and users,
    groups (cursors included) and skip weeks are untouched -- the turn is
    not given back.  The rotation is then gone: cancelling it again
    answers 404 without any call. *)
Theorem cancelled_rotation_is_gone (E : Env) (rid : string) (w w' : World)
    (body : string) :
  delete_rotation E rid w = (Json body, w') ->
  rotations (data w')
  = List.filter (fun r => negb (has_id rid r)) (rotations (data w))
  /\ (forall r, In r (rotations (data w')) -> rotation_id r <> rid)
  /\ users (data w') = users (data w)
  /\ groups (data w') = groups (data w)
  /\ skipWeeks (data w') = skipWeeks (data w)
  /\ delete_rotation E rid w' = (Status404 "Rotation not found", w').
Proof.
  rewrite delete_rotation_unfold.
  destruct (List.find _ _) as [target|]; [|discriminate].
  destruct (delete_if_event E _ target w) as [[[]|e] w1] eqn:Hdel; [|discriminate].
  apply delete_if_event_keeps_data in Hdel. cbv zeta.
  destruct (writeFile E _ _); [|discriminate].
  intros [= _ <-]. simpl. rewrite Hdel.
  assert (Hgone : forall r,
             In r (List.filter (fun r => negb (has_id rid r)) (rotations (data w))) ->
             rotation_id r <> rid).
  { intros r Hin. apply filter_In in Hin. destruct Hin as [_ Hne].
    unfold has_id in Hne. apply negb_true_iff, String.eqb_neq in Hne. exact Hne. }
  repeat split; try exact Hgone.
  rewrite delete_rotation_unfold. simpl.
  destruct (List.find (has_id rid) _) as [r|] eqn:Hfind; [|reflexivity].
  exfalso. apply find_some in Hfind. destruct Hfind as [Hin Hid].
  apply Hgone in Hin. unfold has_id in Hid. apply String.eqb_eq in Hid. contradiction.
Qed.

Lemma cancelled_rotation_is_gone_witness :
  let E := Scenario.host Scenario.feb10_noon Scenario.always Scenario.always
                         Scenario.always in
  let r1 := Scenario.rot "r1" "v1" "2026-02-16" "e1" in
  let r2 := Scenario.rot "r2" "v3" "2026-02-23" "e2" in
  let w := Scenario.start_of (Scenario.store 1 [r1; r2]) in
  let w' := snd (delete_rotation E "r1" w) in
  rotations (data w') = [r2]
  /\ groups (data w') = [Scenario.g1 1]
  /\ delete_rotation E "r1" w' = (Status404 "Rotation not found", w').
Proof.
  intros E r1 r2 w w'.
  destruct (cancelled_rotation_is_gone E "r1" w w' "Rotation cancelled")
    as (Hrots & _ & _ & Hgroups & _ & Hagain).
  - vm_compute. reflexivity.
  - split; [rewrite Hrots; reflexivity|]. split; [exact Hgroups | exact Hagain].
Defined.

(** ** What no request changes *)

Lemma keeps_shape_refl d : keeps_shape d d.
Proof. repeat split. auto. Qed.

Lemma keeps_shape_trans d1 d2 d3 :
  keeps_shape d1 d2 -> keeps_shape d2 d3 -> keeps_shape d1 d3.
Proof.
  intros (Hg1 & Hu1 & Hc1) (Hg2 & Hu2 & Hc2).
  repeat split; [congruence | congruence | auto].
Qed.

Lemma keeps_shape_same_groups_users d d' :
  groups d' = groups d -> users d' = users d -> keeps_shape d d'.
Proof.
  intros Hg Hu. unfold keeps_shape, cursors_nonneg. rewrite Hg, Hu. auto.
Qed.

Lemma keeps_shape_write_googleTokens uid t d :
  keeps_shape d (write_googleTokens uid t d).
Proof.
  unfold keeps_shape, cursors_nonneg, write_googleTokens. simpl.
  repeat split; [|auto]. apply map_update_first. reflexivity.
Qed.

Lemma keeps_shape_selector gid target d r d' :
  getNextRotationAssignment gid target d = (r, d') -> keeps_shape d d'.
Proof.
  intros Hrun. split; [|split].
  - destruct r as [a|e].
    + destruct (selector_Ok_writes _ _ _ _ _ Hrun) as [c ->].
      unfold write_currentIndex. simpl. apply map_update_first. reflexivity.
    + apply selector_throw_keeps_store in Hrun. subst. reflexivity.
  - destruct r as [a|e].
    + destruct (selector_Ok_writes _ _ _ _ _ Hrun) as [c ->]. reflexivity.
    + apply selector_throw_keeps_store in Hrun. subst. reflexivity.
  - intros Hd. eapply selector_keeps_cursors_nonneg; eassumption.
Qed.

Lemma keeps_shape_createCalendarEvent E uid gid week w r w' :
  createCalendarEvent E uid gid week w = (r, w') -> keeps_shape (data w) (data w').
Proof.
  intros Hrun. destruct (createCalendarEvent_frame _ _ _ _ _ _ _ Hrun)
    as [->|(tk & c & _ & _ & _ & ->)];
    [apply keeps_shape_refl | apply keeps_shape_write_googleTokens].
Qed.

Lemma keeps_shape_schedule_one E gid startDate i w r w' :
  schedule_one E gid startDate i w = (r, w') -> keeps_shape (data w) (data w').
Proof.
  intros Hrun. destruct (schedule_one_cases _ _ _ _ _ _ _ Hrun)
    as [(_ & _ & ->)|(t & _ & [(e & d' & _ & _ & ->)|(a & c & Hsel & Hrest)])];
    try apply keeps_shape_refl.
  apply keeps_shape_selector in Hsel. cbv zeta in Hrest.
  destruct Hrest as [(e & Hcreate & _)|(id & w2 & Hcreate & _ & ->)];
    apply keeps_shape_createCalendarEvent in Hcreate; simpl in Hcreate.
  - eapply keeps_shape_trans; eassumption.
  - eapply keeps_shape_trans; [eassumption|].
    eapply keeps_shape_trans; [eassumption|].
    apply keeps_shape_same_groups_users; reflexivity.
Qed.

Lemma keeps_shape_schedule_loop E gid startDate count : forall i w r w',
  schedule_loop E gid startDate i count w = (r, w') ->
  keeps_shape (data w) (data w').
Proof.
  induction count as [|count IH]; intros i w r w'; simpl.
  - unfold ret. intros [= _ <-]. apply keeps_shape_refl.
  - unfold bind at 1.
    destruct (schedule_one E gid startDate i w) as [[ro|e] w1] eqn:Hone;
      apply keeps_shape_schedule_one in Hone.
    + unfold bind at 1.
      destruct (schedule_loop E gid startDate (S i) count w1) as [[rest|e] w2]
        eqn:Hloop; apply IH in Hloop; unfold ret; intros [= _ <-];
        eapply keeps_shape_trans; eassumption.
    + intros [= _ <-]. exact Hone.
Qed.

Lemma post_trigger_data E gid numWeeks_req week_req w :
  data (snd (post_trigger E gid numWeeks_req week_req w))
  = data (snd (schedule_loop E gid (resolved_startDate E week_req w) 0
                             (resolved_numWeeks numWeeks_req) w)).
Proof.
  unfold post_trigger, handle. run_js.
  fold (resolved_startDate E week_req w). fold (resolved_numWeeks numWeeks_req).
  destruct (schedule_loop E gid _ 0 _ w) as [[created|e] w1]; [|reflexivity].
  rewrite saveData_cases. simpl.
  destruct (writeFile E _ _); [|reflexivity].
  destruct (find_group gid (data w1)); reflexivity.
Qed.

Lemma post_swap_data_shape E gid week fromUserId toUserId w resp w' :
  post_swap E gid week fromUserId toUserId w = (resp, w') ->
  keeps_shape (data w) (data w').
Proof.
  intros Hrun.
  destruct (post_swap_cases _ _ _ _ _ _ _ _ Hrun)
    as [(_ & _ & ->)|(target & _ & [(e & Hdel & _)|(w1 & Hdel & Hrest)])];
    [apply keeps_shape_refl
    |apply delete_if_event_keeps_data in Hdel; rewrite Hdel; apply keeps_shape_refl|].
  apply delete_if_event_keeps_data in Hdel. rewrite <- Hdel.
  destruct Hrest as [(e & Hcreate & _)|(ev & w2 & Hcreate & Hw' & _)];
    apply keeps_shape_createCalendarEvent in Hcreate; [exact Hcreate|].
  cbv zeta in Hw'. subst w'. simpl.
  eapply keeps_shape_trans; [exact Hcreate|].
  apply keeps_shape_same_groups_users; reflexivity.
Qed.

Lemma post_trigger_shape E gid numWeeks_req week_req w :
  keeps_shape (data w) (data (snd (post_trigger E gid numWeeks_req week_req w))).
Proof.
  rewrite post_trigger_data.
  destruct (schedule_loop E gid _ 0 _ w) as [r w'] eqn:Hloop.
  apply keeps_shape_schedule_loop in Hloop. exact Hloop.
Qed.

Lemma delete_rotation_shape E rid w :
  keeps_shape (data w) (data (snd (delete_rotation E rid w))).
Proof.
  rewrite delete_rotation_unfold.
  destruct (List.find _ _) as [target|]; [|apply keeps_shape_refl].
  destruct (delete_if_event E _ target w) as [[[]|e] w1] eqn:Hdel;
    apply delete_if_event_keeps_data in Hdel; simpl.
  - apply keeps_shape_same_groups_users; simpl; rewrite Hdel; reflexivity.
  - rewrite Hdel. apply keeps_shape_refl.
Qed.

Lemma keeps_shape_update_members gid (f : Group -> list Member) d :
  keeps_shape d
    (set_groups (update_first (fun g => String.eqb (group_id g) gid)
                              (fun g => set_members (f g) g) (groups d)) d).
Proof.
  unfold keeps_shape, cursors_nonneg. simpl. repeat split.
  - apply map_update_first. reflexivity.
  - intros Hd. apply Forall_update_first; [exact Hd|].
    intros g Hg. simpl. apply find_some in Hg. destruct Hg as [Hin _].
    rewrite Forall_forall in Hd. apply Hd. apply list_elem_of_In. exact Hin.
Qed.

Lemma delete_member_shape E gid uid w :
  keeps_shape (data w) (data (snd (delete_member E gid uid w))).
Proof.
  destruct (find_group gid (data w)) as [g|] eqn:Hg.
  - destruct (delete_member_unfold E gid uid w g Hg) as (w1 & Hdata1 & Hrun).
    cbv zeta in Hrun. rewrite Hrun. simpl.
    eapply keeps_shape_trans;
      [|apply keeps_shape_same_groups_users; reflexivity].
    rewrite Hdata1. apply keeps_shape_update_members.
  - unfold delete_member, handle. run_js. rewrite Hg. apply keeps_shape_refl.
Qed.

Lemma post_members_shape E gid uid w :
  keeps_shape (data w) (data (snd (post_members E gid uid w))).
Proof.
  rewrite post_members_unfold.
  destruct (find_group gid (data w)) as [g|]; [|apply keeps_shape_refl].
  destruct (is_member uid g); [apply keeps_shape_refl|]. cbv zeta. simpl.
  apply (keeps_shape_update_members gid
           (fun g => (members g ++ [mkMember uid (Z.of_nat (length (members g)))])%list)).
Qed.

Lemma post_skip_shape E uid gid week reason w :
  keeps_shape (data w) (data (snd (post_skip E uid gid week reason w))).
Proof.
  rewrite post_skip_unfold.
  destruct (List.find _ _); [apply keeps_shape_refl|]. cbv zeta. simpl.
  apply keeps_shape_same_groups_users; reflexivity.
Qed.

(** X10. No scheduling, swap, cancellation, member removal, member
    addition or skip request ever adds, removes or reorders a user or a
    group, and none makes a cursor negative: a store whose cursors are all
    non-negative stays so whatever the outcome of the request. *)
Theorem requests_keep_users_groups_and_cursors (E : Env) (w : World) :
  (forall gid numWeeks_req week_req,
     keeps_shape (data w) (data (snd (post_trigger E gid numWeeks_req week_req w))))
  /\ (forall gid week fromUserId toUserId,
        keeps_shape (data w) (data (snd (post_swap E gid week fromUserId toUserId w))))
  /\ (forall rid, keeps_shape (data w) (data (snd (delete_rotation E rid w))))
  /\ (forall gid uid, keeps_shape (data w) (data (snd (delete_member E gid uid w))))
  /\ (forall gid uid, keeps_shape (data w) (data (snd (post_members E gid uid w))))
  /\ (forall uid gid week reason,
        keeps_shape (data w) (data (snd (post_skip E uid gid week reason w)))).
Proof.
  split; [intros; apply post_trigger_shape|].
  split.
  { intros gid week fromUserId toUserId.
    destruct (post_swap E gid week fromUserId toUserId w) as [r w'] eqn:Hrun.
    apply post_swap_data_shape in Hrun. exact Hrun. }
  split; [intros; apply delete_rotation_shape|].
  split; [intros; apply delete_member_shape|].
  split; [intros; apply post_members_shape | intros; apply post_skip_shape].
Qed.

(** ** A batch that succeeds *)

Lemma schedule_loop_weeks (E : Env) gid startDate count : forall i w rs w',
  schedule_loop E gid startDate i count w = (Ok rs, w') ->
  forall (j : nat) r, rs !! j = Some r ->
    addWeeks E startDate (i + j) = Some (weekStartDate r).
Proof.
  induction count as [|count IH]; intros i w rs w'; simpl.
  - unfold ret. intros [= <- _] j r Hr. destruct j; discriminate.
  - unfold bind at 1.
    destruct (schedule_one E gid startDate i w) as [[r0|e] w1] eqn:Hone;
      [|discriminate].
    unfold bind at 1.
    destruct (schedule_loop E gid startDate (S i) count w1) as [[rest|e] w2]
      eqn:Hloop; [|discriminate].
    unfold ret. intros [= <- _] j r Hr.
    destruct j as [|j]; simpl in Hr.
    + injection Hr as <-. rewrite Nat.add_0_r.
      apply schedule_one_Ok in Hone. tauto.
    + replace (i + S j)%nat with (S i + j)%nat by lia.
      eapply IH; eassumption.
Qed.

Lemma post_trigger_Json (E : Env) gid numWeeks_req week_req w body w' :
  post_trigger E gid numWeeks_req week_req w = (Json body, w') ->
  exists w1,
    schedule_loop E gid (resolved_startDate E week_req w) 0
                  (resolved_numWeeks numWeeks_req) w
    = (Ok (created_rotations body), w1)
    /\ w' = mkWorld (data w1) (calls w1 ++ [CallWrite (data w1)])
    /\ writeFile E (calls w1) (data w1) = true.
Proof.
  unfold post_trigger, handle. run_js.
  fold (resolved_startDate E week_req w). fold (resolved_numWeeks numWeeks_req).
  destruct (schedule_loop E gid _ 0 _ w) as [[created|e] w1]; [|discriminate].
  rewrite saveData_cases. simpl.
  destruct (writeFile E _ _) eqn:Hwrite; [|discriminate].
  destruct (find_group gid (data w1)); [|discriminate].
  intros [= <- <-]. exists w1. simpl. auto.
Qed.

(** X11. A scheduling request whose [numWeeks] is an integer (or absent,
    which reads as 0) and that answers with success has run one pass for
    each [i = 0, 1, ..] below [numWeeks || 1]: it created one rotation when
    [numWeeks] is 0 or absent, [numWeeks] rotations when it is positive
    and none when it is negative.  The rotations are appended to the
    stored ones in week order; the [i]-th is for the week
    [addWeeks(startDate, i)], belongs to the group, is [scheduled] and has
    its calendar event; and the last thing done was an accepted write of
    the final store. *)
Theorem batch_success_creates_every_week (E : Env) (gid : string)
    (numWeeks_req : Z) (week_req : option string) (w w' : World)
    (body : TriggerBody) :
  post_trigger E gid numWeeks_req week_req w = (Json body, w') ->
  let startDate := resolved_startDate E week_req w in
  (numWeeks_req = 0 -> length (created_rotations body) = 1%nat)
  /\ (0 < numWeeks_req -> Z.of_nat (length (created_rotations body)) = numWeeks_req)
  /\ (numWeeks_req < 0 -> created_rotations body = [])
  /\ rotations (data w') = (rotations (data w) ++ created_rotations body)%list
  /\ (forall (i : nat) r, created_rotations body !! i = Some r ->
        addWeeks E startDate i = Some (weekStartDate r)
        /\ groupId r = gid /\ status r = scheduled
        /\ event_created E r (calls w'))
  /\ (exists h, calls w' = (h ++ [CallWrite (data w')])%list
                /\ writeFile E h (data w') = true).
Proof.
  intros Hrun startDate.
  destruct (post_trigger_Json _ _ _ _ _ _ _ Hrun) as (w1 & Hloop & -> & Hwrite).
  destruct (schedule_loop_Ok _ _ _ _ _ _ _ _ Hloop)
    as (Hlen & Hrots & Hall & _ & _).
  split; [intros ->; rewrite Hlen; reflexivity|].
  split.
  { intros Hpos. rewrite Hlen. unfold resolved_numWeeks.
    destruct (Z.eqb_spec numWeeks_req 0); lia. }
  split.
  { intros Hneg. rewrite (resolved_numWeeks_neg _ Hneg) in Hlen.
    destruct (created_rotations body); [reflexivity | discriminate]. }
  split; [exact Hrots|]. split.
  - intros i r Hr.
    split; [apply (schedule_loop_weeks _ _ _ _ _ _ _ _ Hloop i r Hr)|].
    rewrite Forall_forall in Hall.
    destruct (Hall r) as (Hg & Hs & Hev);
      [eapply list_elem_of_lookup_2; exact Hr|].
    repeat split; try assumption. simpl. apply event_created_grows. exact Hev.
  - exists (calls w1). simpl. auto.
Qed.

Lemma batch_success_creates_every_week_witness :
  let E := Scenario.host Scenario.feb10_noon Scenario.always Scenario.always
                         Scenario.always in
  let w := Scenario.start_of (Scenario.store 0 []) in
  let out := post_trigger E "g1" 2 (Some "2026-02-16") w in
  exists body, fst out = Json body
               /\ Z.of_nat (length (created_rotations body)) = 2
               /\ rotations (data (snd out)) = created_rotations body.
Proof.
  intros E w out.
  destruct out as [resp w'] eqn:Hout.
  assert (Hjson : exists body, resp = Json body).
  { vm_compute in Hout. injection Hout as <- _. eexists. reflexivity. }
  destruct Hjson as [body ->]. exists body. split; [reflexivity|].
  destruct (batch_success_creates_every_week E "g1" 2 (Some "2026-02-16") w w'
              body Hout) as (_ & Hlen & _ & Hrots & _).
  split; [apply Hlen; lia | exact Hrots].
Defined.

(** ** Round robin across a batch *)

Lemma find_group_same_groups gid d d' :
  groups d' = groups d -> find_group gid d' = find_group gid d.
Proof. unfold find_group. intros ->. reflexivity. Qed.

Lemma schedule_loop_round_robin (E : Env) gid startDate count :
  forall i w rs w' g,
    schedule_loop E gid startDate i count w = (Ok rs, w') ->
    find_group gid (data w) = Some g ->
    skipWeeks (data w) = [] ->
    (forall x, In x (members g) -> userId x <> "") ->
    0 <= currentIndex g ->
    currentIndex g + Z.of_nat (length (members g)) <= 2 ^ 53 ->
    Z.of_nat (length (members g)) < 2 ^ 32 ->
    let n := Z.of_nat (length (members g)) in
    (forall (j : nat) r, rs !! j = Some r ->
       Some (assignedUserId r)
       = userId <$> candidate (sortedMembers (members g))
                              (currentIndex g + Z.of_nat j))
    /\ ((count = 0%nat /\ w' = w)
        \/ ((1 <= count)%nat /\ 1 <= n
            /\ find_group gid (data w')
               = Some (set_currentIndex
                         ((currentIndex g + Z.of_nat count) mod n) g))).
Proof.
  induction count as [|count IH]; intros i w rs w' g; simpl.
  - unfold ret. intros [= <- <-] _ _ _ _ _ _. split; [|left; auto].
    intros j r Hr. destruct j; discriminate.
  - unfold bind at 1.
    destruct (schedule_one E gid startDate i w) as [[r0|e] w1] eqn:Hone;
      [|discriminate].
    unfold bind at 1.
    destruct (schedule_loop E gid startDate (S i) count w1) as [[rest|e] w2]
      eqn:Hloop; [|discriminate].
    unfold ret. intros [= <- <-] Hg Hskips Hids Hc Hmax Harr.
    destruct (schedule_one_cases _ _ _ _ _ _ _ Hone)
      as [(_ & [=] & _)|(t & _ & [(e & d' & _ & [=] & _)|(a & c & Hsel & Hrest)])].
    cbv zeta in Hrest.
    destruct Hrest as [(e & _ & [=])|(id & w2' & Hcreate & [= ->] & ->)].
    destruct (selector_Ok_member_no_skip _ _ _ _ _ Hsel) as (g0 & m0 & Hg0 & Hin0 & _).
    rewrite Hg in Hg0. injection Hg0 as <-.
    assert (Hn : (1 <= length (members g))%nat)
      by (destruct (members g); [destruct Hin0 | simpl; lia]).
    pose proof (sorted_nonempty g Hn) as Hne.
    destruct (candidate_is_Some (sortedMembers (members g)) Hne (currentIndex g))
      as [m Hm].
    pose proof (selector_first_eligible (data w) gid t g Hg Hn Hc O m Hids Hmax)
      as Hfirst.
    replace (currentIndex g + Z.of_nat 0) with (currentIndex g) in Hfirst by lia.
    specialize (Hfirst ltac:(lia) ltac:(intros; lia) Hm).
    unfold skipped in Hfirst. rewrite Hskips in Hfirst. specialize (Hfirst eq_refl).
    rewrite Z.add_mod_idemp_l in Hfirst by lia.
    rewrite Hsel in Hfirst. injection Hfirst as Ha Hd1.
    set (c1 := (currentIndex g + 1) mod Z.of_nat (length (members g))) in *.
    assert (Hc1 : 0 <= c1 < Z.of_nat (length (members g)))
      by (apply Z.mod_pos_bound; lia).
    pose proof (createCalendarEvent_frame_fields _ _ _ _ _ _ _ Hcreate)
      as (Hgroups & Hskips' & _).
    simpl in Hgroups, Hskips'.
    destruct (IH (S i) _ rest w2 (set_currentIndex c1 g) Hloop)
      as (Hlook & Hfinal).
    + rewrite (find_group_same_groups gid (write_currentIndex gid c1 (data w))).
      * rewrite find_group_write_currentIndex, Hg. reflexivity.
      * simpl. rewrite Hgroups, Hd1. reflexivity.
    + simpl. rewrite Hskips'. exact Hskips.
    + exact Hids.
    + simpl. lia.
    + simpl. lia.
    + exact Harr.
    + simpl in Hlook, Hfinal. split.
      * intros [|j] r Hr; simpl in Hr.
        -- injection Hr as <-. simpl. rewrite Ha.
           rewrite (candidate_congr _ _ (currentIndex g)) by (f_equal; lia).
           rewrite Hm. reflexivity.
        -- rewrite (Hlook j r Hr). f_equal. apply candidate_congr.
           rewrite sortedMembers_length. unfold c1.
           rewrite Z.add_mod_idemp_l by lia. f_equal. lia.
      * right. split; [lia|]. split; [lia|].
        destruct Hfinal as [(-> & ->)|(_ & _ & Hfinal)].
        -- simpl.
           rewrite (find_group_same_groups gid (write_currentIndex gid c1 (data w))).
           ++ rewrite find_group_write_currentIndex, Hg. simpl. reflexivity.
           ++ simpl. rewrite Hgroups, Hd1. reflexivity.
        -- rewrite Hfinal. f_equal. unfold set_currentIndex. simpl. f_equal.
           unfold c1. rewrite Z.add_mod_idemp_l by lia. f_equal. lia.
Qed.

(** X12. Take a group with non-empty user ids, no skip week in the store,
    and a cursor [c] with [0 <= c] and [c + n <= 2^53] (all indices are
    then exact doubles; an array has fewer than [2^32] elements).  A batch
    with an integer [numWeeks] that succeeds assigns the weeks in
    round-robin order: the [i]-th rotation goes to the member at position
    [(c + i) mod n] of the sorted members, and the group then stored has
    the members it had and the cursor [(c + passes) mod n], where [passes]
    is the number of rotations created; with a negative [numWeeks] no
    rotation is created and the cursor stays [c]. *)
Theorem batch_follows_the_rotation (E : Env) (gid : string)
    (numWeeks_req : Z) (week_req : option string) (w w' : World)
    (body : TriggerBody) (g : Group) :
  post_trigger E gid numWeeks_req week_req w = (Json body, w') ->
  find_group gid (data w) = Some g ->
  skipWeeks (data w) = [] ->
  (forall x, In x (members g) -> userId x <> "") ->
  0 <= currentIndex g ->
  currentIndex g + Z.of_nat (length (members g)) <= 2 ^ 53 ->
  Z.of_nat (length (members g)) < 2 ^ 32 ->
  let n := Z.of_nat (length (members g)) in
  let passes := Z.of_nat (length (created_rotations body)) in
  (forall (i : nat) r, created_rotations body !! i = Some r ->
     Some (assignedUserId r)
     = userId <$> candidate (sortedMembers (members g))
                            (currentIndex g + Z.of_nat i))
  /\ exists g',
       find_group gid (data w') = Some g'
       /\ members g' = members g
       /\ ((0 <= numWeeks_req /\ 1 <= passes /\ 1 <= n
            /\ currentIndex g' = (currentIndex g + passes) mod n)
           \/ (numWeeks_req < 0 /\ passes = 0
               /\ currentIndex g' = currentIndex g)).
Proof.
  intros Hrun Hg Hskips Hids Hc Hmax Harr n passes.
  destruct (post_trigger_Json _ _ _ _ _ _ _ Hrun) as (w1 & Hloop & -> & _).
  destruct (schedule_loop_Ok _ _ _ _ _ _ _ _ Hloop) as (Hlen & _).
  destruct (schedule_loop_round_robin _ _ _ _ _ _ _ _ g Hloop Hg Hskips Hids Hc
              Hmax Harr)
    as (Hlook & [(Hzero & ->)|(Hcount & Hn & Hfinal)]).
  - split; [exact Hlook|]. exists g. simpl.
    split; [exact Hg|]. split; [reflexivity|]. right.
    assert (Hneg : numWeeks_req < 0).
    { destruct (Z.ltb_spec numWeeks_req 0) as [Hlt|Hge]; [exact Hlt|].
      destruct (resolved_numWeeks_pos _ Hge) as [k Hk]. congruence. }
    split; [exact Hneg|]. split; [unfold passes; lia | reflexivity].
  - split; [exact Hlook|]. eexists. simpl.
    split; [exact Hfinal|]. split; [reflexivity|].
    assert (Hpos : 0 <= numWeeks_req).
    { destruct (Z.ltb_spec numWeeks_req 0) as [Hlt|Hge]; [|exact Hge].
      rewrite (resolved_numWeeks_neg _ Hlt) in Hcount. lia. }
    left. split; [exact Hpos|].
    destruct (resolved_numWeeks_pos _ Hpos) as [k Hk].
    split; [unfold passes; lia|]. split; [exact Hn|].
    simpl. unfold passes. rewrite Hlen. reflexivity.
Qed.

Lemma batch_follows_the_rotation_witness :
  let E := Scenario.host Scenario.feb10_noon Scenario.always Scenario.always
                         Scenario.always in
  let w := Scenario.start_of (Scenario.store 0 []) in
  let out := post_trigger E "g1" 3 (Some "2026-02-16") w in
  map (fun r => (weekStartDate r, assignedUserId r)) (rotations (data (snd out)))
  = [("2026-02-16", "v1"); ("2026-02-23", "v3"); ("2026-03-02", "v1")]
  /\ exists g', find_group "g1" (data (snd out)) = Some g'
                /\ currentIndex g' = 1.
Proof.
  intros E w out.
  destruct out as [resp w'] eqn:Hout.
  assert (Hjson : exists body, resp = Json body
                               /\ length (created_rotations body) = 3%nat).
  { vm_compute in Hout. injection Hout as <- _. eexists. split; reflexivity. }
  destruct Hjson as (body & -> & Hthree).
  destruct (batch_follows_the_rotation E "g1" 3 (Some "2026-02-16") w w' body
              (Scenario.g1 0) Hout) as (_ & g' & Hg' & _ & Hcursor).
  - reflexivity.
  - reflexivity.
  - simpl. intros x [<-|[<-|[]]]; discriminate.
  - simpl. lia.
  - simpl. lia.
  - simpl. lia.
  - split.
    + vm_compute in Hout. injection Hout as _ <-. reflexivity.
    + exists g'. split; [exact Hg'|].
      destruct Hcursor as [(_ & _ & _ & ->)|(Hneg & _)]; [|lia].
      rewrite Hthree. reflexivity.
Defined.

(** ** The calls of a swap *)

Lemma createCalendarEvent_Ok_log (E : Env) uid gid week w id w' :
  createCalendarEvent E uid gid week w = (Ok id, w') ->
  exists refreshed creds g,
    find_group gid (data w) = Some g
    /\ calls w' = (calls w ++ refreshed ++ [CallInsert creds (make_event g week)])%list
    /\ events_insert E (calls w ++ refreshed) creds (make_event g week) = Some id
    /\ (refreshed = [] \/ exists tk d, refreshed = [CallRefresh tk; CallWrite d]).
Proof.
  unfold createCalendarEvent. run_js.
  destruct (find_user uid (data w)) as [u|]; [|discriminate].
  destruct (googleTokens u) as [tk|]; [|discriminate].
  destruct (find_group gid (data w)) as [g|]; [|discriminate].
  unfold refresh_if_expired, calendar_insert.
  destruct (Date_now E (calls w) >=? expiry_date tk).
  - destruct (refreshAccessToken E (calls w) tk) as [c|]; [|discriminate].
    run_js. rewrite saveData_cases. simpl.
    destruct (writeFile E _ _); [|discriminate].
    destruct (events_insert E _ _ _) as [id'|] eqn:Hins; [|discriminate].
    intros [= <- <-]. simpl.
    exists [CallRefresh tk; CallWrite (write_googleTokens uid c (data w))], c, g.
    split; [reflexivity|]. rewrite <- !app_assoc in *. simpl in *.
    split; [reflexivity|]. split; [exact Hins | right; eauto].
  - destruct (events_insert E _ _ _) as [id'|] eqn:Hins; [|discriminate].
    intros [= <- <-]. simpl. exists [], tk, g. rewrite app_nil_r.
    split; [reflexivity|]. split; [reflexivity|]. split; [exact Hins | left; reflexivity].
Qed.

Lemma delete_if_event_Ok_log (E : Env) uid r w w1 :
  delete_if_event E uid r w = (Ok tt, w1) ->
  (calendarEventId r = "" /\ w1 = w)
  \/ (calendarEventId r <> ""
      /\ exists tk, calls w1 = (calls w ++ [CallDelete tk (calendarEventId r)])%list
                    /\ events_delete E (calls w) tk (calendarEventId r) = true).
Proof.
  unfold delete_if_event, truthy.
  destruct (String.eqb_spec (calendarEventId r) "") as [Hempty|Hne]; simpl.
  - unfold ret. intros [= <-]. left. auto.
  - unfold deleteCalendarEvent, calendar_delete. run_js.
    destruct (find_user uid (data w)) as [u|]; [|discriminate].
    destruct (googleTokens u) as [tk|]; [|discriminate].
    destruct (events_delete E _ _ _) eqn:Hdel; [|discriminate].
    intros [= <-]. right. split; [exact Hne|]. exists tk. simpl. auto.
Qed.

(** X13. A swap that succeeds makes exactly one insertion in the calendar,
    of the group's event for that week, answered with the event id now
    stored in the rotation; before it, exactly one deletion, of the
    rotation's old event -- or none when the rotation had no event id;
    apart from a possible refresh of the new assignee's credentials in
    between, its only other call is the final write of the store. *)
Theorem swap_replaces_one_event (E : Env) (gid week fromUserId toUserId : string)
    (w w' : World) (body : SwapBody) :
  post_swap E gid week fromUserId toUserId w = (Json body, w') ->
  exists target deleted refreshed creds g,
    List.find (matches_swap gid week fromUserId) (rotations (data w)) = Some target
    /\ find_group gid (data w) = Some g
    /\ calls w' = (calls w ++ deleted ++ refreshed
                     ++ [CallInsert creds (make_event g week); CallWrite (data w')])%list
    /\ ((calendarEventId target = "" /\ deleted = [])
        \/ (calendarEventId target <> ""
            /\ exists tk, deleted = [CallDelete tk (calendarEventId target)]))
    /\ (refreshed = [] \/ exists tk d, refreshed = [CallRefresh tk; CallWrite d])
    /\ events_insert E (calls w ++ deleted ++ refreshed) creds (make_event g week)
       = Some (calendarEventId (swapped_rotation body)).
Proof.
  intros Hrun.
  destruct (post_swap_cases _ _ _ _ _ _ _ _ Hrun)
    as [(_ & [=] & _)|(target & Hfind & [(e & _ & [=])|(w1 & Hdel & Hrest)])].
  destruct Hrest as [(e & _ & [=])|(ev & w2 & Hcreate & Hw' & Hsave)].
  cbv zeta in Hw', Hsave.
  destruct Hsave as [(_ & [=])|(_ & toUser & _ & [= ->])].
  destruct (createCalendarEvent_Ok_log _ _ _ _ _ _ _ Hcreate)
    as (refreshed & creds & g & Hg & Hcalls & Hins & Hrefreshed).
  pose proof (delete_if_event_keeps_data _ _ _ _ _ _ Hdel) as Hdata1.
  rewrite Hdata1 in Hg.
  assert (Hlog : exists deleted,
             calls w1 = (calls w ++ deleted)%list
             /\ ((calendarEventId target = "" /\ deleted = [])
                 \/ (calendarEventId target <> ""
                     /\ exists tk, deleted = [CallDelete tk (calendarEventId target)]))).
  { destruct (delete_if_event_Ok_log _ _ _ _ _ Hdel)
      as [(Hempty & ->)|(Hne & tk & Hc & _)].
    - exists []. rewrite app_nil_r. auto.
    - exists [CallDelete tk (calendarEventId target)]. split; [exact Hc|].
      right. eauto. }
  destruct Hlog as (deleted & Hcalls1 & Hdeleted).
  exists target, deleted, refreshed, creds, g.
  split; [exact Hfind|]. split; [exact Hg|]. split; [|split; [exact Hdeleted|split; [exact Hrefreshed|]]].
  - rewrite Hw'. simpl. rewrite Hcalls, Hcalls1, <- !app_assoc. reflexivity.
  - simpl. rewrite <- Hins, Hcalls1, <- app_assoc. reflexivity.
Qed.

Lemma swap_replaces_one_event_witness :
  let E := Scenario.host Scenario.feb10_noon Scenario.always Scenario.always
                         Scenario.always in
  let r1 := Scenario.rot "r1" "v1" "2026-02-16" "e1" in
  let w := Scenario.start_of (Scenario.store 1 [r1]) in
  let w' := snd (post_swap E "g1" "2026-02-16" "v1" "v3" w) in
  exists deleted refreshed creds g,
    calls w' = (deleted ++ refreshed
                  ++ [CallInsert creds (make_event g "2026-02-16");
                      CallWrite (data w')])%list
    /\ ((calendarEventId r1 = "" /\ deleted = [])
        \/ (calendarEventId r1 <> ""
            /\ exists tk, deleted = [CallDelete tk (calendarEventId r1)])).
Proof.
  intros E r1 w w'.
  destruct (post_swap E "g1" "2026-02-16" "v1" "v3" w) as [resp w0] eqn:Hrun.
  assert (Hjson : exists body, resp = Json body).
  { vm_compute in Hrun. injection Hrun as <- _. eexists. reflexivity. }
  destruct Hjson as [body ->].
  destruct (swap_replaces_one_event E "g1" "2026-02-16" "v1" "v3" w w0 body Hrun)
    as (target & deleted & refreshed & creds & g & Hfind & _ & Hcalls & Hdel & _).
  injection Hfind as <-.
  exists deleted, refreshed, creds, g. split; [exact Hcalls | exact Hdel].
Defined.

(** ** Removing a member twice *)

Lemma filter_filter_same {A} (p : A -> bool) (l : list A) :
  List.filter p (List.filter p l) = List.filter p l.
Proof.
  induction l as [|x l IH]; simpl; [reflexivity|].
  destruct (p x) eqn:Hp; simpl; [rewrite Hp, IH; reflexivity | exact IH].
Qed.

Lemma filter_none {A} (p : A -> bool) (l : list A) :
  (forall x, In x l -> p x = false) -> List.filter p l = [].
Proof.
  induction l as [|x l IH]; simpl; intros Hl; [reflexivity|].
  rewrite (Hl x) by auto. apply IH. auto.
Qed.

Lemma filter_all {A} (p : A -> bool) (l : list A) :
  (forall x, In x l -> p x = true) -> List.filter p l = l.
Proof.
  induction l as [|x l IH]; simpl; intros Hl; [reflexivity|].
  rewrite (Hl x) by auto. rewrite IH by auto. reflexivity.
Qed.

Lemma deleteCalendarEvent_calls_grow E uid eventId w r w' :
  deleteCalendarEvent E uid eventId w = (r, w') ->
  exists suffix, calls w' = (calls w ++ suffix)%list.
Proof.
  unfold deleteCalendarEvent. run_js.
  destruct (find_user uid (data w)) as [u|];
    [|intros [= _ <-]; exists []; rewrite app_nil_r; reflexivity].
  destruct (googleTokens u) as [tk|];
    [|intros [= _ <-]; exists []; rewrite app_nil_r; reflexivity].
  unfold calendar_delete.
  destruct (events_delete E _ _ _); intros [= _ <-]; simpl; eexists; reflexivity.
Qed.

Lemma delete_events_calls_grow E uid rs : forall w r w',
  delete_events E uid rs w = (r, w') ->
  exists suffix, calls w' = (calls w ++ suffix)%list.
Proof.
  induction rs as [|x rs IH]; intros w r w'; simpl.
  - intros [= _ <-]. exists []. rewrite app_nil_r. reflexivity.
  - unfold bind at 1.
    destruct ((if truthy (calendarEventId x)
               then try_catch (deleteCalendarEvent E uid (calendarEventId x))
                              (fun e => modify (log_call (CallLog e)))
               else ret tt) w) as [[[]|e] w1] eqn:Hstep.
    + assert (Hgrow : exists suffix, calls w1 = (calls w ++ suffix)%list).
      { destruct (truthy _).
        - unfold try_catch in Hstep.
          destruct (deleteCalendarEvent E uid (calendarEventId x) w)
            as [[[]|e] w0] eqn:Hdel;
            apply deleteCalendarEvent_calls_grow in Hdel as [l Hl].
          + injection Hstep as <-. eauto.
          + unfold modify in Hstep. injection Hstep as <-. simpl.
            rewrite Hl, <- app_assoc. eauto.
        - injection Hstep as <-. exists []. rewrite app_nil_r. reflexivity. }
      destruct Hgrow as [l1 Hl1]. intros Hrest.
      apply IH in Hrest as [l2 Hl2]. rewrite Hl2, Hl1, <- app_assoc. eauto.
    + intros [= _ <-].
      destruct (truthy _); [|discriminate].
      unfold try_catch in Hstep.
      destruct (deleteCalendarEvent E uid (calendarEventId x) w)
        as [[[]|e0] w0] eqn:Hdel; [discriminate|].
      unfold modify in Hstep. discriminate.
Qed.

(** With nothing to cancel, the removal touches no calendar. *)
Lemma delete_member_no_future E gid uid w g :
  find_group gid (data w) = Some g ->
  List.filter (future_of E gid uid (calls w)) (rotations (data w)) = [] ->
  let d2 := set_rotations
              (List.filter (fun r => negb (future_of E gid uid (calls w) r))
                           (rotations (data w)))
              (set_groups
                 (update_first (fun g => String.eqb (group_id g) gid)
                    (fun g => set_members
                       (List.filter (fun m => negb (String.eqb (userId m) uid))
                                    (members g)) g)
                    (groups (data w))) (data w)) in
  delete_member E gid uid w
  = (if writeFile E (calls w) d2
     then match find_user uid (data w) with
          | Some user => Json (removal_message user 0)
          | None => Status500 TypeError
          end
     else Status500 WriteFailed,
     mkWorld d2 (calls w ++ [CallWrite d2])).
Proof.
  intros Hg Hnone d2. unfold delete_member, handle. run_js. rewrite Hg.
  rewrite Hnone. simpl. rewrite saveData_cases. simpl. fold d2.
  destruct (writeFile E _ _); [|reflexivity].
  unfold find_user. simpl. destruct (List.find _ (users (data w))); reflexivity.
Qed.

(** X14. Removing a member is idempotent as long as the clock does not run
    backwards: a second removal of the same user from the same group finds
    no rotation to cancel, calls the calendar not at all -- its only call
    is the write of the store -- and leaves the store exactly as the first
    removal left it. *)
Theorem removing_twice_changes_nothing_more (E : Env) (gid uid : string)
    (w : World) (g : Group) :
  find_group gid (data w) = Some g ->
  (forall h h', Date_now E h <= Date_now E (h ++ h')) ->
  let first := delete_member E gid uid w in
  let second := delete_member E gid uid (snd first) in
  data (snd second) = data (snd first)
  /\ calls (snd second)
     = (calls (snd first) ++ [CallWrite (data (snd first))])%list
  /\ forall msg, fst second = Json msg ->
       exists user, find_user uid (data w) = Some user
                    /\ msg = removal_message user 0.
Proof.
  intros Hg Hclock first second.
  destruct (delete_member_unfold E gid uid w g Hg) as (v1 & Hdata1 & Hrun1).
  cbv zeta in Hrun1.
  set (f := fun g0 : Group =>
              set_members (List.filter (fun m => negb (String.eqb (userId m) uid))
                                       (members g0)) g0) in *.
  set (p := fun g0 : Group => String.eqb (group_id g0) gid) in *.
  assert (Hp : forall x, p x = true -> p (f x) = true).
  { intros [] Hx. exact Hx. }
  assert (Hff : forall x, f (f x) = f x).
  { intros []. unfold f, set_members. simpl. rewrite filter_filter_same.
    reflexivity. }
  set (w1 := snd first).
  assert (Hw1 : w1 = snd (delete_member E gid uid w)) by reflexivity.
  rewrite Hrun1 in Hw1. simpl in Hw1.
  assert (Hg1 : find_group gid (data w1) = Some (f g)).
  { rewrite Hw1. simpl. rewrite find_group_set_rotations, Hdata1.
    unfold find_group in Hg |- *. simpl. fold p in Hg |- *.
    rewrite (find_update_first p f _ Hp), Hg. reflexivity. }
  assert (Hlater : Date_now E (calls v1) <= Date_now E (calls w1)).
  { rewrite Hw1. simpl. apply Hclock. }
  assert (Hpast : forall r, In r (rotations (data w1)) ->
                    future_of E gid uid (calls w1) r = false).
  { intros r Hin. rewrite Hw1 in Hin. simpl in Hin.
    apply filter_In in Hin. destruct Hin as [_ Hneg].
    apply negb_true_iff in Hneg. rewrite future_of_at in *.
    eapply future_at_later; eassumption. }
  assert (Hnone : List.filter (future_of E gid uid (calls w1))
                              (rotations (data w1)) = []).
  { apply filter_none. exact Hpast. }
  pose proof (delete_member_no_future E gid uid w1 (f g) Hg1 Hnone) as Hrun2.
  cbv zeta in Hrun2.
  assert (Hsame : set_rotations
              (List.filter (fun r => negb (future_of E gid uid (calls w1) r))
                           (rotations (data w1)))
              (set_groups (update_first p f (groups (data w1))) (data w1))
            = data w1).
  { rewrite filter_all by (intros r Hin; rewrite (Hpast r Hin); reflexivity).
    assert (Hgroups : update_first p f (groups (data w1)) = groups (data w1)).
    { rewrite Hw1. simpl. rewrite Hdata1. simpl.
      rewrite (update_first_twice p f f _ Hp).
      apply update_first_ext. exact Hff. }
    rewrite Hgroups. destruct (data w1). reflexivity. }
  fold p f in Hrun2. rewrite Hsame in Hrun2.
  unfold second. fold w1. rewrite Hrun2. simpl.
  split; [reflexivity|]. split; [reflexivity|].
  intros msg.
  destruct (writeFile E (calls w1) (data w1)); [|intros [=]].
  assert (Husers : users (data w1) = users (data w)).
  { rewrite Hw1. simpl. rewrite Hdata1. reflexivity. }
  unfold find_user. rewrite Husers.
  destruct (List.find _ (users (data w))) as [user|]; [|intros [=]].
  intros Hmsg. injection Hmsg as Hmsg. exists user. auto.
Qed.

Lemma removing_twice_changes_nothing_more_witness :
  let E := Scenario.host Scenario.feb10_noon Scenario.always Scenario.always
                         Scenario.always in
  let w := Scenario.start_of
             (Scenario.store 1 [Scenario.rot "r1" "v1" "2026-02-16" "e1";
                                Scenario.rot "r2" "v3" "2026-02-23" "e2"]) in
  let first := delete_member E "g1" "v1" w in
  let second := delete_member E "g1" "v1" (snd first) in
  data (snd second) = data (snd first)
  /\ calls (snd second)
     = (calls (snd first) ++ [CallWrite (data (snd first))])%list.
Proof.
  intros E w first second.
  assert (Hg : find_group "g1" (data w) = Some (Scenario.g1 1)) by reflexivity.
  destruct (removing_twice_changes_nothing_more E "g1" "v1" w _ Hg) as (H1 & H2 & _).
  - intros h h'. vm_compute. discriminate.
  - split; [exact H1 | exact H2].
Defined.

(** ** The end of an event *)

Lemma before_colon_app (s t : string) :
  no_colon s = true -> before_colon (s ++ ":" ++ t) = s.
Proof.
  induction s as [|c s IH]; simpl; [reflexivity|].
  intros H. apply andb_prop in H as [Hc Hs].
  apply negb_true_iff in Hc. rewrite Hc, (IH Hs). reflexivity.
Qed.

Lemma next_hour_ok_day (h : nat) : (h < 24)%nat -> next_hour_ok h = true.
Proof.
  intros Hh.
  assert (Hall : forallb next_hour_ok (seq 0 24) = true) by (vm_compute; reflexivity).
  rewrite forallb_forall in Hall. apply Hall. apply in_seq. lia.
Qed.

(** X15. For a group scheduled at [HH:MM], with [HH] one of the 24 hours of
    the day written with two digits, the event ends at [HH+1]:00:00 of the
    week's start date whatever the minutes [MM] are; at [HH] = 23 this is
    hour 24 of the same day. *)
Theorem event_ends_on_the_next_full_hour (g : Group) (week : string)
    (h : nat) (mm : string) :
  (h < 24)%nat ->
  timeOfDay (schedule g) = pad 2 (Z.of_nat h) ++ ":" ++ mm ->
  end_dateTime (make_event g week)
  = week ++ "T" ++ pad 2 (Z.of_nat h + 1) ++ ":00:00".
Proof.
  intros Hh Htime. simpl. unfold endHour. rewrite Htime.
  pose proof (next_hour_ok_day h Hh) as Hok. unfold next_hour_ok in Hok.
  cbv zeta in Hok. apply andb_prop in Hok as [Hcolon Hnext].
  rewrite (before_colon_app _ mm Hcolon).
  apply String.eqb_eq in Hnext. rewrite Hnext. reflexivity.
Qed.

Lemma event_ends_on_the_next_full_hour_witness :
  end_dateTime (make_event Scenario.wednesday_group "2026-02-16")
  = "2026-02-16T" ++ pad 2 (Z.of_nat 9 + 1) ++ ":00:00".
Proof.
  apply (event_ends_on_the_next_full_hour Scenario.wednesday_group
           "2026-02-16" 9 "30"); [lia | reflexivity].
Defined.

(** ** Signing in *)

Lemma find_has_email_None email (us : list User) :
  List.find (has_email email) us = None -> ~ In email (map user_email us).
Proof.
  intros Hnone Hin. apply in_map_iff in Hin as (u & Hu & Hin).
  pose proof (find_none _ _ Hnone u Hin) as Hneq.
  unfold has_email in Hneq. rewrite Hu, String.eqb_refl in Hneq. discriminate.
Qed.

Lemma find_app_new {A} (p : A -> bool) (l : list A) (x : A) :
  List.find p l = None -> p x = true -> List.find p (l ++ [x]) = Some x.
Proof.
  induction l as [|y l IH]; simpl; intros Hnone Hx.
  - rewrite Hx. reflexivity.
  - destruct (p y); [discriminate|]. apply IH; assumption.
Qed.

(** X16. A sign-in that ends on the welcome page stores the tokens of the
    exchange in the first user with the e-mail address Google reported,
    and welcomes that user.  A user who was known keeps id, e-mail and
    name, and no user is added; otherwise one user is appended.  Either
    way the users before keep their ids and places, groups, skip weeks and
    rotations are untouched, and e-mail addresses that were unique stay
    unique. *)
Theorem sign_in_stores_the_tokens (E : Env) (exchange : option Tokens)
    (userInfo : option (string * option string)) (w w' : World) (user : User) :
  auth_callback E exchange userInfo w = (Welcome user, w') ->
  exists tokens email name,
    exchange = Some tokens /\ userInfo = Some (email, name)
    /\ List.find (has_email email) (users (data w')) = Some user
    /\ googleTokens user = Some tokens
    /\ match List.find (has_email email) (users (data w)) with
       | Some old => user = set_googleTokens tokens old
                     /\ map user_id (users (data w')) = map user_id (users (data w))
       | None => users (data w') = (users (data w) ++ [user])%list
                 /\ user_name user = or_default name email
       end
    /\ groups (data w') = groups (data w)
    /\ skipWeeks (data w') = skipWeeks (data w)
    /\ rotations (data w') = rotations (data w)
    /\ (NoDup (map user_email (users (data w)))
        -> NoDup (map user_email (users (data w')))).
Proof.
  unfold auth_callback.
  destruct exchange as [tokens|]; [|intros [=]].
  destruct userInfo as [[email name]|]; [|intros [=]].
  intros Hrun. exists tokens, email, name.
  split; [reflexivity|]. split; [reflexivity|].
  destruct (List.find (has_email email) (users (data w))) as [old|] eqn:Hfind.
  - rewrite saveData_cases in Hrun. simpl in Hrun.
    destruct (writeFile E _ _); [|discriminate].
    injection Hrun as <- <-. simpl.
    assert (Hp : forall x, has_email email x = true
                           -> has_email email (set_googleTokens tokens x) = true).
    { intros [] Hx. exact Hx. }
    rewrite (find_update_first _ _ _ Hp), Hfind. simpl.
    repeat (split; [reflexivity|]).
    split; [split; [reflexivity|]|].
    + apply map_update_first. intros []. reflexivity.
    + repeat (split; [reflexivity|]).
      rewrite (map_update_first user_email); [tauto|]. intros []. reflexivity.
  - rewrite saveData_cases in Hrun. simpl in Hrun.
    destruct (writeFile E _ _); [|discriminate].
    injection Hrun as <- <-. simpl.
    split.
    { apply find_app_new; [exact Hfind|]. unfold has_email. simpl.
      apply String.eqb_refl. }
    split; [reflexivity|]. split; [split; reflexivity|].
    repeat (split; [reflexivity|]).
    intros Hnodup. rewrite map_app. simpl.
    apply NoDup_app. split; [exact Hnodup|]. split; [|apply NoDup_singleton].
    intros x Hx Hin. apply list_elem_of_In in Hx.
    apply list_elem_of_singleton in Hin. subst x.
    exact (find_has_email_None _ _ Hfind Hx).
Qed.

Lemma sign_in_stores_the_tokens_witness :
  let E := Scenario.host Scenario.feb10_noon Scenario.always Scenario.always
                         Scenario.always in
  let w := Scenario.start_of (Scenario.store 0 []) in
  let w' := snd (auth_callback E (Some Scenario.fresh_tokens)
                               (Some ("v0@example.org", Some "Zed")) w) in
  List.find (has_email "v0@example.org") (users (data w'))
  = Some (set_googleTokens Scenario.fresh_tokens Scenario.v0)
  /\ map user_id (users (data w')) = map user_id (users (data w)).
Proof.
  intros E w w'.
  destruct (sign_in_stores_the_tokens E (Some Scenario.fresh_tokens)
              (Some ("v0@example.org", Some "Zed")) w w'
              (set_googleTokens Scenario.fresh_tokens Scenario.v0))
    as (tokens & email & name & _ & Hinfo & Hfind & _ & Hold & _).
  - reflexivity.
  - injection Hinfo as <- <-. split; [exact Hfind|].
    simpl in Hold. exact (proj2 Hold).
Defined.

(** ** The dashboard's picker and the server *)

(** X17. Whatever the user types, a request the dashboard's member picker
    sends names the group it was opened for and a known user who is not
    yet a member of it; the server, holding the store the dashboard shows,
    refuses no such request: it answers neither 404 nor 400, and the user
    becomes the last member of the group. *)
Theorem picker_request_is_not_refused (E : Env) (w : World)
    (gid : string) (selection : option string) (gid' uid : string) :
  addMember (data w) gid selection = Posts gid' uid ->
  gid' = gid
  /\ (exists u, In u (users (data w)) /\ user_id u = uid)
  /\ exists g,
       find_group gid (data w) = Some g
       /\ is_member uid g = false
       /\ find_group gid (data (snd (post_members E gid uid w)))
          = Some (push_member uid g)
       /\ forall r, fst (post_members E gid uid w) = Answered r
                    -> r = Success (push_member uid g).
Proof.
  unfold addMember.
  destruct (Nat.eqb (length (users (data w))) 0); [intros [=]|].
  destruct (find_group gid (data w)) as [g|] eqn:Hg; [|intros [=]].
  destruct (Nat.eqb (length (availableUsers (data w) g)) 0); [intros [=]|].
  destruct selection as [s|]; [|intros [=]].
  destruct (truthy s); [|intros [=]].
  destruct (parseInt s) as [v|]; [|intros [=]].
  destruct (_ || _); [intros [=]|].
  destruct (array_get _ _) as [u|] eqn:Hu; [|intros [=]].
  intros Hposts. injection Hposts as <- <-.
  apply array_get_In in Hu. unfold availableUsers in Hu.
  apply filter_In in Hu as [Hin Hnot]. apply negb_true_iff in Hnot.
  split; [reflexivity|]. split; [eauto|].
  exists g. split; [reflexivity|]. split; [exact Hnot|].
  rewrite post_members_unfold, Hg, Hnot. cbv zeta. simpl. split.
  - unfold find_group in Hg |- *. simpl.
    rewrite find_update_first, Hg; [reflexivity|].
    intros [] Hx. exact Hx.
  - intros r. destruct (writeFile E _ _); [|intros [=]].
    intros Hr. injection Hr as <-. reflexivity.
Qed.

Lemma picker_request_is_not_refused_witness :
  let E := Scenario.host Scenario.feb10_noon Scenario.always Scenario.always
                         Scenario.always in
  let w := Scenario.start_of (Scenario.store 0 []) in
  exists g, find_group "g1" (data w) = Some g
            /\ fst (post_members E "g1" "v0" w) = Answered (Success (push_member "v0" g)).
Proof.
  intros E w.
  destruct (picker_request_is_not_refused E w "g1" (Some "2") "g1" "v0")
    as (_ & _ & g & Hg & _ & _ & Hans).
  - reflexivity.
  - exists g. split; [exact Hg|].
    destruct (fst (post_members E "g1" "v0" w)) as [r|e] eqn:Hfst.
    + rewrite (Hans r eq_refl). reflexivity.
    + vm_compute in Hfst. discriminate.
Defined.
